(** * pyrkit: the DME validation step (src/validate.py)

    A shallow embedding of [validate.py] and of the part of [dme_utils.py]
    it calls, with the properties of the metadata differ, the path mapper,
    the hierarchy walker and the reconciliation driver.

    Python [str] values are modelled by [string], which holds the UTF-8
    bytes of the text. *)

From Stdlib Require Import List String Ascii Bool Arith NArith ZArith Lia SpecFloat.
From Stdlib Require Import DecimalString.
Import ListNotations.

Local Open Scope list_scope.
Local Open Scope string_scope.

(** ** Python string operations used by the script *)

Module PyStr.

(** [s.startswith(p)] *)
Fixpoint startswith (p s : string) : bool :=
  match p, s with
  | EmptyString, _ => true
  | String a p', String b s' => Ascii.eqb a b && startswith p' s'
  | String _ _, EmptyString => false
  end.

(** [sub in s] *)
Fixpoint contains (sub s : string) : bool :=
  startswith sub s ||
  match s with
  | EmptyString => false
  | String _ s' => contains sub s'
  end.

(** [s[n:]] *)
Fixpoint slice_from (n : nat) (s : string) : string :=
  match n, s with
  | O, _ => s
  | S n', String _ s' => slice_from n' s'
  | S _, EmptyString => EmptyString
  end.

(** [s.replace(old, new)] for a non-empty [old]: occurrences are found from
    the left and do not overlap.  [skip] counts the characters of the
    occurrence just replaced that are still to be passed over. *)
Fixpoint replace_from (old new : string) (skip : nat) (s : string) : string :=
  match s with
  | EmptyString => EmptyString
  | String c s' =>
      match skip with
      | S k => replace_from old new k s'
      | O =>
          if startswith old s
          then new ++ replace_from old new (String.length old - 1) s'
          else String c (replace_from old new 0 s')
      end
  end.

Definition replace (old new s : string) : string := replace_from old new 0 s.

(** [s.split(sep)[0]] for a non-empty [sep]: the text before the first
    occurrence of [sep], the whole of [s] when there is none. *)
Fixpoint split_head (sep s : string) : string :=
  match s with
  | EmptyString => EmptyString
  | String c s' => if startswith sep s then EmptyString else String c (split_head sep s')
  end.

(** [s.split(sep)[-1]] for a one-character [sep]: the text after the last
    occurrence, the whole of [s] when there is none.  [acc] is the piece
    being read. *)
Fixpoint split_last_from (sep : ascii) (acc s : string) : string :=
  match s with
  | EmptyString => acc
  | String c s' =>
      if Ascii.eqb c sep then split_last_from sep EmptyString s'
      else split_last_from sep (acc ++ String c EmptyString) s'
  end.

Definition split_last (sep : ascii) (s : string) : string :=
  split_last_from sep EmptyString s.

(** [str(n)] for a length *)
Definition str_of_nat (n : nat) : string := NilEmpty.string_of_uint (Nat.to_uint n).

End PyStr.

(** ** Path mapper *)

(** [get_dme_directory(full_path, initial_path, vault)].  [path[0]] cannot
    raise: [path] holds at least the separator that follows the vault (see
    [get_dme_directory_path_nonempty]). *)
Definition get_dme_directory (full_path initial_path vault : string) : string :=
  let path := vault ++ "/" ++ PyStr.slice_from (String.length initial_path) full_path in
  let path := PyStr.replace "//" "/" path in
  match String.get 0 path with
  | Some c => if negb (Ascii.eqb c "/") then "/" ++ path else path
  | None => "/" ++ path
  end.

(** ** Python [str] and its code points *)

Module PyUnicode.

(** A Python [str] is a sequence of Unicode code points; a [string] holds
    its UTF-8 bytes, which is also how a string literal of this file is
    read.  For text made of ASCII characters the two are the same. *)
Definition byte (c : ascii) : N := N_of_ascii c.

Definition continuation (c : ascii) : bool :=
  ((128 <=? byte c) && (byte c <=? 191))%N.

(** The low six bits of a continuation byte. *)
Definition low (c : ascii) : N := (byte c - 128)%N.

Definition two (b0 b1 : ascii) : N := ((byte b0 - 192) * 64 + low b1)%N.
Definition three (b0 b1 b2 : ascii) : N :=
  ((byte b0 - 224) * 4096 + low b1 * 64 + low b2)%N.
Definition four (b0 b1 b2 b3 : ascii) : N :=
  ((byte b0 - 240) * 262144 + low b1 * 4096 + low b2 * 64 + low b3)%N.

(** The code points of the text, in order.  Each is written in the
    shortest of the one to four byte forms; [None] stands for a byte that
    begins none of them (no [str] has such bytes). *)
Fixpoint decode (s : string) : list (option N) :=
  match s with
  | EmptyString => []
  | String b0 s1 =>
      if (byte b0 <? 128)%N then Some (byte b0) :: decode s1
      else
        match s1 with
        | EmptyString => [None]
        | String b1 s2 =>
            if ((194 <=? byte b0) && (byte b0 <=? 223))%N && continuation b1
            then Some (two b0 b1) :: decode s2
            else
              match s2 with
              | EmptyString => None :: decode s1
              | String b2 s3 =>
                  if ((224 <=? byte b0) && (byte b0 <=? 239))%N
                     && continuation b1 && continuation b2
                     && (2048 <=? three b0 b1 b2)%N
                  then Some (three b0 b1 b2) :: decode s3
                  else
                    match s3 with
                    | EmptyString => None :: decode s1
                    | String b3 s4 =>
                        if ((240 <=? byte b0) && (byte b0 <=? 244))%N
                           && continuation b1 && continuation b2 && continuation b3
                           && ((65536 <=? four b0 b1 b2 b3)
                               && (four b0 b1 b2 b3 <=? 1114111))%N
                        then Some (four b0 b1 b2 b3) :: decode s4
                        else None :: decode s1
                    end
              end
        end
  end.

(** [PyUnicode_IS_ASCII] *)
Fixpoint is_ascii (s : string) : bool :=
  match s with
  | EmptyString => true
  | String c s' => (byte c <? 128)%N && is_ascii s'
  end.

(** [Py_UNICODE_ISSPACE]: the code points that are white space. *)
Definition isspace (cp : N) : bool :=
  (((9 <=? cp) && (cp <=? 13)) || ((28 <=? cp) && (cp <=? 32))
   || (cp =? 133) || (cp =? 160) || (cp =? 5760)
   || ((8192 <=? cp) && (cp <=? 8202))
   || (cp =? 8232) || (cp =? 8233) || (cp =? 8239) || (cp =? 8287)
   || (cp =? 12288))%N.

(** Where the decimal digits are: each entry is the code point of a digit
    zero, and the nine code points after it are the digits one to nine of
    the same script (Unicode 14.0, the character database of CPython
    3.11). *)
Definition digit_zeros : list N :=
  [48; 1632; 1776; 1984; 2406; 2534; 2662; 2790; 2918; 3046; 3174; 3302;
   3430; 3558; 3664; 3792; 3872; 4160; 4240; 6112; 6160; 6470; 6608; 6784;
   6800; 6992; 7088; 7232; 7248; 42528; 43216; 43264; 43472; 43504; 43600;
   44016; 65296; 66720; 68912; 69734; 69872; 69942; 70096; 70384; 70736;
   70864; 71248; 71360; 71472; 71904; 72016; 72784; 73040; 73120; 92768;
   92864; 93008; 120782; 120792; 120802; 120812; 120822; 123200; 123632;
   125264; 130032]%N.

(** [Py_UNICODE_TODECIMAL]: the value of a decimal digit of any script. *)
Definition todecimal (cp : N) : option N :=
  option_map (fun z => (cp - z)%N)
             (find (fun z => ((z <=? cp) && (cp <? z + 10))%N) digit_zeros).

(** The loop of [_PyUnicode_TransformDecimalAndSpaceToASCII]: an ASCII
    code point below 127 is kept, white space becomes a blank, a decimal
    digit becomes its ASCII digit, and at anything else the text ends with
    a question mark. *)
Fixpoint to_ascii (l : list (option N)) : string :=
  match l with
  | [] => EmptyString
  | None :: _ => "?"
  | Some cp :: l' =>
      if (cp <? 127)%N then String (ascii_of_N cp) (to_ascii l')
      else if isspace cp then String " " (to_ascii l')
      else
        match todecimal cp with
        | Some d => String (ascii_of_N (48 + d)) (to_ascii l')
        | None => "?"
        end
  end.

(** [_PyUnicode_TransformDecimalAndSpaceToASCII]: ASCII text is returned as
    it is. *)
Definition transform_decimal_and_space_to_ascii (s : string) : string :=
  if is_ascii s then s else to_ascii (decode s).

End PyUnicode.

(** ** Python's [float(str)] *)

Module PyFloat.

(** A Python float is an IEEE 754 binary64 number. *)
Definition prec : Z := 53.
Definition emax : Z := 1024.

Definition code (c : ascii) : nat := nat_of_ascii c.

(** [Py_ISSPACE]: tab, line feed, vertical tab, form feed, carriage return
    and space. *)
Definition isspace (c : ascii) : bool :=
  ((9 <=? code c) && (code c <=? 13))%nat || (code c =? 32)%nat.

(** [Py_ISDIGIT] *)
Definition isdigit (c : ascii) : bool :=
  ((48 <=? code c) && (code c <=? 57))%nat.

Definition digit_val (c : ascii) : Z := Z.of_nat (code c - 48).

(** [Py_TOLOWER] *)
Definition tolower (c : ascii) : ascii :=
  if ((65 <=? code c) && (code c <=? 90))%nat then ascii_of_nat (code c + 32) else c.

(** Underscores between digits are dropped before the text is read; one
    that does not follow a digit, or is not followed by one, is an error
    ([_Py_string_to_number_with_underscores]).  [prev] is the character
    before [s]. *)
Fixpoint strip_underscores (prev : ascii) (s : string) : option string :=
  match s with
  | EmptyString => if Ascii.eqb prev "_" then None else Some EmptyString
  | String c s' =>
      if Ascii.eqb c "_" then
        if isdigit prev then strip_underscores c s' else None
      else if Ascii.eqb prev "_" && negb (isdigit c) then None
      else option_map (String c) (strip_underscores c s')
  end.

Fixpoint lstrip (s : string) : string :=
  match s with
  | String c s' => if isspace c then lstrip s' else s
  | EmptyString => EmptyString
  end.

Fixpoint rstrip (s : string) : string :=
  match s with
  | EmptyString => EmptyString
  | String c s' =>
      match rstrip s' with
      | EmptyString => if isspace c then EmptyString else String c EmptyString
      | r => String c r
      end
  end.

(** An optional sign: [true] for [-]. *)
Definition read_sign (s : string) : bool * string :=
  match s with
  | String "-" s' => (true, s')
  | String "+" s' => (false, s')
  | _ => (false, s)
  end.

(** A run of decimal digits: its value on top of [acc], how many digits
    were read on top of [n], and the text that follows. *)
Fixpoint read_digits (acc : Z) (n : nat) (s : string) : Z * nat * string :=
  match s with
  | String c s' =>
      if isdigit c then read_digits (10 * acc + digit_val c) (S n) s'
      else (acc, n, s)
  | EmptyString => (acc, n, s)
  end.

(** [case_insensitive_match(s, t)] for a lower-case [t]; gives the text
    after the match. *)
Fixpoint match_nocase (t s : string) : option string :=
  match t, s with
  | EmptyString, _ => Some s
  | String a t', String b s' =>
      if Ascii.eqb (tolower b) a then match_nocase t' s' else None
  | String _ _, EmptyString => None
  end.

(** The binary64 number nearest to [m * 10^e10] (ties to even), with the
    sign [neg]; overflow gives an infinity, underflow a zero. *)
Definition of_decimal (neg : bool) (m e10 : Z) : spec_float :=
  match m with
  | Zpos _ =>
      let num := (m * 10 ^ Z.max e10 0)%Z in
      let den := (10 ^ Z.max (- e10) 0)%Z in
      SFdiv prec emax (S754_finite neg (Z.to_pos num) 0)
                      (S754_finite false (Z.to_pos den) 0)
  | _ => S754_zero neg
  end.

(** [_Py_dg_strtod]: sign, digits, optional point and digits, optional
    exponent.  Gives the value and the text left unread; [None] when there
    is no digit to read.  An [e] that no exponent digit follows is left
    unread. *)
Definition dg_strtod (s : string) : option (spec_float * string) :=
  let '(neg, s1) := read_sign s in
  let '(m1, n1, s2) := read_digits 0 0 s1 in
  let '(m, nfrac, s3) :=
    match s2 with
    | String "." s2' => read_digits m1 0 s2'
    | _ => (m1, 0%nat, s2)
    end in
  if (n1 + nfrac =? 0)%nat then None
  else
    let '(e, s4) :=
      match s3 with
      | String c s3' =>
          if Ascii.eqb (tolower c) "e" then
            let '(eneg, t) := read_sign s3' in
            let '(ev, en, r) := read_digits 0 0 t in
            if (en =? 0)%nat then (0%Z, s3)
            else ((if eneg then - ev else ev)%Z, r)
          else (0%Z, s3)
      | EmptyString => (0%Z, s3)
      end in
    Some (of_decimal neg m (e - Z.of_nat nfrac), s4).

(** [_Py_parse_inf_or_nan] *)
Definition parse_inf_or_nan (s : string) : option (spec_float * string) :=
  let '(neg, s1) := read_sign s in
  match match_nocase "inf" s1 with
  | Some r =>
      match match_nocase "inity" r with
      | Some r' => Some (S754_infinity neg, r')
      | None => Some (S754_infinity neg, r)
      end
  | None =>
      match match_nocase "nan" s1 with
      | Some r => Some (S754_nan, r)
      | None => None
      end
  end.

(** [_PyOS_ascii_strtod] *)
Definition ascii_strtod (s : string) : option (spec_float * string) :=
  match dg_strtod s with
  | Some r => Some r
  | None => parse_inf_or_nan s
  end.

(** [float_from_string_inner] behind [_Py_string_to_number_with_underscores]:
    the number written by an ASCII text; [None] is [ValueError].  The whole
    text between the surrounding white space has to be read. *)
Definition from_ascii (s : string) : option spec_float :=
  match strip_underscores zero s with
  | None => None
  | Some s1 =>
      match lstrip s1 with
      | EmptyString => None
      | s2 =>
          match ascii_strtod (rstrip s2) with
          | Some (x, EmptyString) => Some x
          | _ => None
          end
      end
  end.

(** [float(s)] for a [str] ([PyFloat_FromString]): the decimal digits and
    the white space of every script are first turned into their ASCII
    forms; [None] is [ValueError]. *)
Definition float (s : string) : option spec_float :=
  from_ascii (PyUnicode.transform_decimal_and_space_to_ascii s).

(** [x != y] on floats: a NaN differs from everything, the two zeros are
    equal. *)
Definition ne (x y : spec_float) : bool := negb (SFeqb x y).

End PyFloat.

(** ** Data model *)

(** One [{"attribute": ..., "value": ...}] object of a metadata list. *)
Record MetadataEntry : Type := {
  attribute : string;
  value : string
}.

(** A sidecar document, [{"metadataEntries": [...]}]. *)
Record MetadataDocument : Type := {
  metadataEntries : list MetadataEntry
}.

(** ** Configuration *)

Definition nl : string := String (ascii_of_nat 10) EmptyString.
Definition esc : string := String (ascii_of_nat 27) EmptyString.

Definition config_warning : string * string := (esc ++ "[93m", esc ++ "[00m").
Definition config_error : string * string := (esc ++ "[91m", esc ++ "[00m").
Definition config_important : string * string := (esc ++ "[42m", esc ++ "[00m").
Definition config_vaults : list string :=
  ["CCBR_Archive"; "CCBR_EXT_Archive"; "CCR_DTB_Archive"].

(** ** Metadata differ *)

(** [get_different_fields(meta_dme, meta_local)]: the three lists
    [items_only_dme], [items_only_local], [items_both], built by the two
    nested loops of the source. *)
Definition get_different_fields (meta_dme meta_local : list MetadataEntry)
  : list string * list string * list string :=
  let '(items_only_dme, items_both) :=
    fold_left
      (fun '(items_only_dme, items_both) e_i =>
         let att_i := attribute e_i in
         let '(items_both, has_attribute) :=
           fold_left
             (fun '(items_both, has_attribute) e_j =>
                let att_j := attribute e_j in
                if String.eqb att_i att_j
                then ((items_both ++ [att_i])%list, true)
                else (items_both, has_attribute))
             meta_local (items_both, false) in
         if negb has_attribute
         then ((items_only_dme ++ [att_i])%list, items_both)
         else (items_only_dme, items_both))
      meta_dme ([], []) in
  let items_only_local :=
    fold_left
      (fun items_only_local e_i =>
         let att_i := attribute e_i in
         let has_attribute :=
           fold_left
             (fun has_attribute e_j =>
                let att_j := attribute e_j in
                if String.eqb att_i att_j then true else has_attribute)
             meta_dme false in
         if negb has_attribute
         then (items_only_local ++ [att_i])%list
         else items_only_local)
      meta_local [] in
  (items_only_dme, items_only_local, items_both).

(** The lines [evaluate_differences] prints. *)
Inductive report_line : Type :=
| Counts (only_dme only_local both : nat)
| Appended (att new_value : string)
| Modified (att old_value new_value : string).

Definition render (l : report_line) : string :=
  match l with
  | Counts a b c =>
      "   There are:" ++ nl ++
      "   > " ++ PyStr.str_of_nat a ++ " attributes only on DME" ++ nl ++
      "   > " ++ PyStr.str_of_nat b ++ " attributes to be appended" ++ nl ++
      "   > " ++ PyStr.str_of_nat c ++ " attributes in both lists."
  | Appended att v =>
      "   ! The attribute '" ++ att ++ "' will be appended with value as '" ++ v ++ "'"
  | Modified att old new =>
      "   ! The attribute '" ++ att ++ "' will be modified from '" ++ old ++
      "' to '" ++ new ++ "'"
  end.

(** The test that guards the [will be modified] line: the raw values
    differ and either both convert to floats that differ, or a conversion
    raises (the bare [except]). *)
Definition value_modified (local_value dme_value : string) : bool :=
  if negb (String.eqb local_value dme_value) then
    match PyFloat.float local_value, PyFloat.float dme_value with
    | Some x, Some y => PyFloat.ne x y
    | _, _ => true
    end
  else false.

(** [evaluate_differences(meta_dme, meta_local)], as the list of lines it
    prints, in order. *)
Definition evaluate_differences (meta_dme meta_local : list MetadataEntry)
  : list report_line :=
  let '(items_only_dme, items_only_local, items_both) :=
    get_different_fields meta_dme meta_local in
  ([Counts (List.length items_only_dme) (List.length items_only_local)
           (List.length items_both)]
  ++ flat_map
       (fun att_i =>
          flat_map
            (fun e =>
               let att := attribute e in
               if String.eqb att att_i then [Appended att (value e)] else [])
            meta_local)
       items_only_local
  ++ flat_map
       (fun att =>
          flat_map
            (fun e_i =>
               if negb (String.eqb att (attribute e_i)) then []
               else
                 flat_map
                   (fun e_j =>
                      if negb (String.eqb att (attribute e_j)) then []
                      else if value_modified (value e_i) (value e_j)
                           then [Modified att (value e_j) (value e_i)]
                           else [])
                   meta_dme)
            meta_local)
       items_both)%list.

(** ** Effects: printing, exiting, raising *)

(** What a run does, in order: what it prints on its two streams, and the
    metadata calls it makes on its session. *)
Inductive event : Type :=
| Stdout (text : string)                        (* [print(text)] *)
| Stderr (text : string)                        (* [print(text, file=sys.stderr)] *)
| Lookup (is_collection : bool) (path : string) (* a metadata call on the session *).

Inductive exn : Type :=
| AssertionError (msg : string)
| ValueError
| IndexError
| OSError (path : string)
| JSONDecodeError (path : string)
| AttributeError (name : string)
| TypeError (keyword : string).

(** How a computation ends: with a value, by [sys.exit(code)], or by an
    exception that nothing catches. *)
Inductive outcome (A : Type) : Type :=
| Ret (a : A)
| Exit (code : Z)
| Raise (e : exn).

Arguments Ret {A} a.
Arguments Exit {A} code.
Arguments Raise {A} e.

(** The exit status of the process whose [main] ended with [o]. *)
Definition exit_status {A : Type} (o : outcome A) : Z :=
  match o with
  | Ret _ => 0
  | Exit code => code
  | Raise _ => 1
  end.

Definition M (A : Type) : Type := list event * outcome A.

Definition ret {A : Type} (a : A) : M A := ([], Ret a).

Definition bind {A B : Type} (m : M A) (k : A -> M B) : M B :=
  match m with
  | (tr, Ret a) => let '(tr', o) := k a in ((tr ++ tr')%list, o)
  | (tr, Exit code) => (tr, Exit code)
  | (tr, Raise e) => (tr, Raise e)
  end.

Notation "x <- m ;; k" := (bind m (fun x => k))
  (at level 61, m at next level, right associativity).
Notation "' p <- m ;; k" := (bind m (fun x => let 'p := x in k))
  (at level 61, p pattern, m at next level, right associativity).
Notation "m ;; k" := (bind m (fun _ => k))
  (at level 61, right associativity).

Definition print (text : string) : M unit := ([Stdout text], Ret tt).
Definition eprint (text : string) : M unit := ([Stderr text], Ret tt).
Definition sys_exit {A : Type} (code : Z) : M A := ([], Exit code).
Definition raise {A : Type} (e : exn) : M A := ([], Raise e).

(** [[f(x) for x in l]] for an [f] with effects *)
Fixpoint mapM {A B : Type} (f : A -> M B) (l : list A) : M (list B) :=
  match l with
  | [] => ret []
  | x :: l' => y <- f x ;; ys <- mapM f l' ;; ret (y :: ys)
  end.

Fixpoint for_each {A : Type} (l : list A) (body : A -> M unit) : M unit :=
  match l with
  | [] => ret tt
  | x :: l' => body x ;; for_each l' body
  end.

(** [for i in range(n): body] *)
Definition for_range (n : nat) (body : nat -> M unit) : M unit :=
  for_each (seq 0 n) body.

(** [l[i]] *)
Definition index {A : Type} (l : list A) (i : nat) : M A :=
  match nth_error l i with
  | Some x => ret x
  | None => raise IndexError
  end.

(** ** The local file system *)

Inductive file_content : Type :=
| Unreadable (e : string)         (* [open] raises [IOError] with text [e] *)
| Malformed                       (* [json.load] raises *)
| Json (d : MetadataDocument).

Record FileSystem : Type := {
  isdir : string -> bool;                      (* [os.path.isdir] *)
  listdir : string -> option (list string);    (* [os.listdir]; [None]: it raises *)
  read : string -> file_content
}.

Definition os_listdir (fs : FileSystem) (path : string) : M (list string) :=
  match listdir fs path with
  | Some files => ret files
  | None => raise (OSError path)
  end.

Definition path_exists (fs : FileSystem) (path : string) : M unit :=
  if negb (isdir fs path) then
    let '(cstart, cend) := config_error in
    eprint (cstart ++ "Error:" ++ cend ++ " PATH " ++ path ++ " not accessible!") ;;
    sys_exit 1
  else ret tt.

Definition file_exists (fs : FileSystem) (filename : string) : M unit :=
  match read fs filename with
  | Unreadable e =>
      let '(cstart, cend) := config_error in
      eprint (cstart ++ "Error:" ++ cend ++ " Failed to open " ++ filename ++
              "... Input file not accessible!" ++ nl ++ e) ;;
      sys_exit 1
  | _ => ret tt
  end.

Definition json2dict (fs : FileSystem) (file : string) : M MetadataDocument :=
  file_exists fs file ;;
  match read fs file with
  | Json d => ret d
  | _ => raise (JSONDecodeError file)
  end.

(** ** Command line *)

Definition help : string :=
"
validate.py: Validates the entries to be uploaded to DME

USAGE:
    python validate.py <input_directory> <dme_vault> [-h]

SYNOPSIS:
    Validate the parsed data from previous steps to check if the project is not already
at DME. If it is, check all of the metadata that is already on DME to cross check with
the used if they really want to apply those modifications.

Required Positional Arguments:
    [1] input_directory           Type [Path]: The output directory PATH provided in
                                  the previous steps. This is the full directory that
                                  will be uploaded to DME.

    [2] dme_vault                 Type [String]: DME vault to store data and metadata.
                                  Valid choices are 'CCBR_EXT_Archive' or 'CCBR_Archive'.
                                  NOTE:
                                    @ 'CCBR_EXT_Archive' is for public datasets.
                                    @ 'CCBR_Archive' is data from outside vendors.

Options:
    [-h, --help]                  Displays usage and help information for the script.

Example:
    $ python validate.py /scratch/DME/ CCBR_EXT_Archive

Requirements:
    python >= 3.5
".

(** [x in l] for a list of strings *)
Definition mem (x : string) (l : list string) : bool := existsb (String.eqb x) l.

Definition args (argslist : list string) : M (list string) :=
  let user_args := tl argslist in
  if mem "-h" user_args || mem "--help" user_args then
    print help ;; sys_exit 0
  else if negb (List.length user_args =? 2)%nat then
    eprint (nl ++ fst config_error ++ "Error: Failed to provide all required arguments"
               ++ snd config_error) ;;
    print help ;;
    sys_exit 1
  else ret user_args.

(** [repr] of a list of plain strings *)
Definition repr_list (l : list string) : string :=
  "[" ++ String.concat ", " (map (fun s => "'" ++ s ++ "'") l) ++ "]".

Definition validate_args (fs : FileSystem) (user_inputs : list string)
  : M (string * string) :=
  let valid_vaults := config_vaults in
  match user_inputs with
  | [ipath; vault] =>
      let vault := PyStr.replace "/" "" vault in
      if mem vault valid_vaults then
        path_exists fs ipath ;;
        ret (ipath, vault)
      else
        raise (AssertionError
                 (vault ++ " is not a vaild DME vault! Please choose from one of the following: "
                        ++ repr_list valid_vaults))
  | _ => raise ValueError
  end.

(** ** Hierarchy walker *)

(** The test [marker in f and '.metadata.json' in f] of the four level
    scans. *)
Definition is_level_file (marker f : string) : bool :=
  PyStr.contains marker f && PyStr.contains ".metadata.json" f.

(** The message of a failed uniqueness test; [get_analysis] prints the word
    [Project], as [get_project] does. *)
Definition not_unique (what path : string) : string :=
  let '(cstart, cend) := config_error in
  cstart ++ "Error:" ++ cend ++ " Could not find an unique " ++ what ++
  " inside the folder " ++ path ++ "...".

Definition get_pi_lab (fs : FileSystem) (path : string)
  : M (MetadataDocument * string) :=
  files <- os_listdir fs path ;;
  match filter (is_level_file "PI_Lab") files with
  | [f0] =>
      let directory := path ++ "/" ++ PyStr.split_head "." f0 in
      meta <- json2dict fs (path ++ "/" ++ f0) ;;
      ret (meta, directory)
  | _ => eprint (not_unique "PI_Lab" path) ;; sys_exit 1
  end.

Definition get_project (fs : FileSystem) (path : string)
  : M (MetadataDocument * string) :=
  files <- os_listdir fs path ;;
  match filter (is_level_file "Project_") files with
  | [f0] =>
      let directory := path ++ "/" ++ PyStr.split_head "." f0 in
      meta <- json2dict fs (path ++ "/" ++ f0) ;;
      ret (meta, directory)
  | _ => eprint (not_unique "Project" path) ;; sys_exit 1
  end.

Definition get_analysis_objects (fs : FileSystem) (path : string)
  : M (list MetadataDocument * list string) :=
  files <- os_listdir fs path ;;
  let files := filter (PyStr.contains ".metadata.json") files in
  let directories :=
    map (fun f => path ++ "/" ++ PyStr.split_head ".metadata.json" f) files in
  metas <- mapM (fun f => json2dict fs (path ++ "/" ++ f)) files ;;
  ret (metas, directories).

Definition get_analysis (fs : FileSystem) (path : string)
  : M (MetadataDocument * string * list MetadataDocument * list string) :=
  files <- os_listdir fs path ;;
  match filter (is_level_file "Primary_Analysis_") files with
  | [f0] =>
      let directory := path ++ "/" ++ PyStr.split_head "." f0 in
      meta <- json2dict fs (path ++ "/" ++ f0) ;;
      '(objects, objects_dir) <- get_analysis_objects fs directory ;;
      ret (meta, directory, objects, objects_dir)
  | _ => eprint (not_unique "Project" path) ;; sys_exit 1
  end.

Definition get_sample_objects (fs : FileSystem) (path : string)
  : M (list MetadataDocument * list string) :=
  files <- os_listdir fs path ;;
  let files := filter (PyStr.contains ".metadata.json") files in
  let directories :=
    map (fun f => path ++ "/" ++ PyStr.split_head ".metadata.json" f) files in
  metas <- mapM (fun f => json2dict fs (path ++ "/" ++ f)) files ;;
  ret (metas, directories).

Definition get_samples (fs : FileSystem) (path : string)
  : M (list MetadataDocument * list string *
       list (list MetadataDocument) * list (list string)) :=
  files <- os_listdir fs path ;;
  let files := filter (is_level_file "Sample_") files in
  let directories := map (fun f => path ++ "/" ++ PyStr.split_head "." f) files in
  metas <- mapM (fun f => json2dict fs (path ++ "/" ++ f)) files ;;
  objs <- mapM (get_sample_objects fs) directories ;;
  let objects := map fst objs in
  let objects_dir := map snd objs in
  ret (metas, directories, objects, objects_dir).

(** ** The catalog session *)

(** An instance of the class [DMESession] of [dme_utils.py], as its
    constructor leaves it: the attributes [dme_url] and [dme_token]
    ([dme_utils] is the constant ["HPC_DM_UTILS"]). *)
Record DMESession : Type := {
  dme_url : string;
  dme_token : string
}.

(** The metadata call of [evaluate_metadata_differences] on its session
    (validate.py:254 and 256).  [main] builds the session with
    [dme.DMESession()], and the class defines the methods [get_dme_url],
    [get_token_from_file], [list_files] and
    [get_dataObject_dme_meta(self, data_object_path)] only.  So
    [session.get_collection_dme_meta(meta_dir, in_pairs=False)] raises
    AttributeError, and
    [session.get_dataObject_dme_meta(meta_dir, in_pairs=False)] raises
    TypeError for the keyword [in_pairs] before the body of the method
    runs: nothing is sent to the catalog.  The call is recorded in the
    trace.  The type of the result is the one the rest of
    [evaluate_metadata_differences] reads: a value of length zero, [None]
    here, or a document. *)
Definition request (session : DMESession) (is_collection : bool) (path : string)
  : M (option MetadataDocument) :=
  ([Lookup is_collection path],
   Raise (if is_collection then AttributeError "get_collection_dme_meta"
          else TypeError "in_pairs")).

(** ** Reconciliation driver *)

Definition evaluate_metadata_differences (session : DMESession)
    (meta_dir : string) (meta : MetadataDocument) (level : string)
    (is_collection : bool) : M bool :=
  meta_dme <- request session is_collection meta_dir ;;
  match meta_dme with
  | None =>
      print (level ++ " does not exist on DME!") ;;
      ret false
  | Some meta_dme =>
      eprint (fst config_warning ++ "Warning:" ++ snd config_warning ++ " " ++ level ++
              " already exists on DME!") ;;
      for_each (evaluate_differences (metadataEntries meta_dme) (metadataEntries meta))
               (fun l => print (render l)) ;;
      ret true
  end.

(** The part of [main] after the session is opened: the checks level by
    level. *)
Definition evaluate_levels (session : DMESession) (ipath vault : string)
    (pi : MetadataDocument * string)
    (proj : MetadataDocument * string)
    (analysis : MetadataDocument * string * list MetadataDocument * list string)
    (samples : list MetadataDocument * list string *
               list (list MetadataDocument) * list (list string))
  : M unit :=
  let '(pi_meta, pi_dir) := pi in
  let '(proj_meta, proj_dir) := proj in
  let '(analysis_meta, analysis_dir, analysis_objs, analysis_objs_dir) := analysis in
  let '(samples_meta, samples_dir, sample_objs, sample_objs_dir) := samples in
  let '(ci, cf) := config_important in
  print (nl ++ ci ++ " - PI_Lab level: " ++ PyStr.split_last "/" pi_dir ++ cf) ;;
  let pi_dir_dme := get_dme_directory pi_dir ipath vault in
  pi_exists <- evaluate_metadata_differences session pi_dir_dme pi_meta "PI_Lab" true ;;
  if pi_exists : bool then
    print (nl ++ ci ++ " - Project level: " ++ PyStr.split_last "/" proj_dir ++ cf) ;;
    let proj_dir_dme := get_dme_directory proj_dir ipath vault in
    proj_exists <- evaluate_metadata_differences session proj_dir_dme proj_meta "Project" true ;;
    if proj_exists : bool then
      print (nl ++ ci ++ " - Primary Analysis level: "
                ++ PyStr.split_last "/" analysis_dir ++ cf) ;;
      let analysis_dir_dme := get_dme_directory analysis_dir ipath vault in
      analysis_exists <- evaluate_metadata_differences session analysis_dir_dme
                           analysis_meta "Primary Analysis" true ;;
      (if analysis_exists : bool then
         for_range (List.length analysis_objs) (fun i =>
           d <- index analysis_objs_dir i ;;
           print (" * Data Object " ++ PyStr.split_last "/" d ++ ":") ;;
           let obj_dir_dme := get_dme_directory d ipath vault in
           o <- index analysis_objs i ;;
           evaluate_metadata_differences session obj_dir_dme o "DataObject" false ;;
           ret tt)
       else ret tt) ;;
      for_range (List.length samples_meta) (fun i =>
        d <- index samples_dir i ;;
        print (nl ++ ci ++ " - Sample level: " ++ PyStr.split_last "/" d ++ cf) ;;
        let sample_dir_dme := get_dme_directory d ipath vault in
        m <- index samples_meta i ;;
        sample_exists <- evaluate_metadata_differences session sample_dir_dme m "Sample" true ;;
        if sample_exists : bool then
          objs <- index sample_objs i ;;
          for_range (List.length objs) (fun j =>
            ds <- index sample_objs_dir i ;;
            d <- index ds j ;;
            print (" * Data Object " ++ PyStr.split_last "/" d ++ ":") ;;
            let obj_dir_dme := get_dme_directory d ipath vault in
            os <- index sample_objs i ;;
            o <- index os j ;;
            evaluate_metadata_differences session obj_dir_dme o "DataObject" false ;;
            ret tt)
        else ret tt)
    else ret tt
  else ret tt.

(** [main()], for the command line [argv], on the file system [fs];
    [connect] is what [dme.DMESession()] does in the environment of the
    run (it reads the environment and the token file, and may exit). *)
Definition main (fs : FileSystem) (connect : M DMESession) (argv : list string)
  : M unit :=
  print (nl ++ nl ++ "###### VALIDATION STEP #####" ++ nl) ;;
  user_args <- args argv ;;
  '(ipath, vault) <- validate_args fs user_args ;;
  '(pi_meta, pi_dir) <- get_pi_lab fs ipath ;;
  '(proj_meta, proj_dir) <- get_project fs pi_dir ;;
  analysis <- get_analysis fs proj_dir ;;
  samples <- get_samples fs proj_dir ;;
  dme_session <- connect ;;
  print ("DME session URL: " ++ dme_url dme_session) ;;
  evaluate_levels dme_session ipath vault (pi_meta, pi_dir) (proj_meta, proj_dir)
                  analysis samples.

(** ** A concrete run: the end-to-end scenario

    The local tree holds a PI_Lab, a Project, a Primary_Analysis with two
    data objects and one Sample with one data object. *)

Module Scenario.

Definition lookup {A : Type} (k : string) (l : list (string * A)) : option A :=
  option_map snd (find (fun p => String.eqb k (fst p)) l).

Definition entry (a v : string) : MetadataEntry := {| attribute := a; value := v |}.
Definition doc (l : list MetadataEntry) : MetadataDocument := {| metadataEntries := l |}.

Definition ipath : string := "/scratch/DME".
Definition pi_dir : string := "/scratch/DME/PI_Lab_Foo".
Definition proj_dir : string := "/scratch/DME/PI_Lab_Foo/Project_Bar".
Definition analysis_dir : string :=
  "/scratch/DME/PI_Lab_Foo/Project_Bar/Primary_Analysis_Run1".
Definition sample_dir : string := "/scratch/DME/PI_Lab_Foo/Project_Bar/Sample_S1".

Definition directories : list (string * list string) :=
  [ (ipath, ["PI_Lab_Foo"; "PI_Lab_Foo.metadata.json"]);
    (pi_dir, ["Project_Bar"; "Project_Bar.metadata.json"]);
    (proj_dir, ["Primary_Analysis_Run1"; "Primary_Analysis_Run1.metadata.json";
                "Sample_S1"; "Sample_S1.metadata.json"]);
    (analysis_dir, ["counts.tsv"; "counts.tsv.metadata.json";
                    "report.html"; "report.html.metadata.json"]);
    (sample_dir, ["S1.fastq.gz"; "S1.fastq.gz.metadata.json"]) ].

Definition pi_local : MetadataDocument :=
  doc [entry "collection_type" "PI_Lab"; entry "pi_name" "Foo"; entry "lab_size" "12.0"].
Definition proj_local : MetadataDocument :=
  doc [entry "collection_type" "Project"; entry "project_title" "Bar study"].
Definition analysis_local : MetadataDocument :=
  doc [entry "collection_type" "Primary_Analysis"].
Definition sample_local : MetadataDocument :=
  doc [entry "collection_type" "Sample"; entry "sample_id" "S1"].
Definition object_local (name : string) : MetadataDocument :=
  doc [entry "object_name" name].

Definition files : list (string * MetadataDocument) :=
  [ (ipath ++ "/PI_Lab_Foo.metadata.json", pi_local);
    (pi_dir ++ "/Project_Bar.metadata.json", proj_local);
    (proj_dir ++ "/Primary_Analysis_Run1.metadata.json", analysis_local);
    (proj_dir ++ "/Sample_S1.metadata.json", sample_local);
    (analysis_dir ++ "/counts.tsv.metadata.json", object_local "counts.tsv");
    (analysis_dir ++ "/report.html.metadata.json", object_local "report.html");
    (sample_dir ++ "/S1.fastq.gz.metadata.json", object_local "S1.fastq.gz") ].

Definition fs : FileSystem := {|
  isdir := fun p => match lookup p directories with Some _ => true | None => false end;
  listdir := fun p => lookup p directories;
  read := fun p =>
    match lookup p files with
    | Some d => Json d
    | None => Unreadable "[Errno 2] No such file or directory"
    end
|}.

(** The PI_Lab and the Project as the catalog of the scenario has them:
    documents for the differ. *)
Definition pi_remote : MetadataDocument :=
  doc [entry "collection_type" "PI_Lab"; entry "pi_name" "Fu"; entry "lab_size" "12";
       entry "registered_by" "curator"].
Definition proj_remote : MetadataDocument :=
  doc [entry "collection_type" "Project"; entry "project_title" "Bar study"].

Definition session : DMESession := {|
  dme_url := "https://hpcdmeapi.example.org:8080";
  dme_token := "eyJhbGciOi.J9"
|}.

Definition argv : list string := ["validate.py"; ipath; "CCBR_Archive"].

(** A directory with two sidecars for each of the levels that want one. *)
Definition twins_fs : FileSystem := {|
  isdir := fun _ => true;
  listdir := fun _ =>
    Some ["PI_Lab_A.metadata.json"; "PI_Lab_B.metadata.json";
          "Project_X.metadata.json"; "Project_Y.metadata.json";
          "Primary_Analysis_1.metadata.json"; "Primary_Analysis_2.metadata.json"];
  read := fun p => Json (object_local p)
|}.

(** An analysis directory that also holds a sidecar named like a sample, and
    a file that only contains the sidecar suffix. *)
Definition crowded_fs : FileSystem := {|
  isdir := fun _ => true;
  listdir := fun p =>
    if String.eqb p analysis_dir
    then Some ["counts.tsv.metadata.json"; "Sample_S9.metadata.json";
               "notes.metadata.json.bak"]
    else None;
  read := fun p => Json (object_local p)
|}.

End Scenario.

(** ** Reference definitions, following the spec's words *)

(** What one pass of [replace('//', '/')] computes. *)
Fixpoint collapse_pairs (s : string) : string :=
  match s with
  | String c r =>
      match r with
      | String d r' =>
          if Ascii.eqb c "/" && Ascii.eqb d "/"
          then String "/" (collapse_pairs r')
          else String c (collapse_pairs r)
      | EmptyString => String c EmptyString
      end
  | EmptyString => EmptyString
  end.

(** Spec, path mapper: doubled separators collapsed, so that every run of
    separators is one separator. *)
Fixpoint squeeze (s : string) : string :=
  match s with
  | String c r =>
      if Ascii.eqb c "/" && PyStr.startswith "/" r then squeeze r
      else String c (squeeze r)
  | EmptyString => EmptyString
  end.

(** Spec, path mapper: [vault + "/" + full_local_path[len(local_root):]]
    with doubled separators collapsed, beginning with one separator. *)
Definition remote_path (full_local_path local_root vault : string) : string :=
  let p := squeeze (vault ++ "/" ++
                    PyStr.slice_from (String.length local_root) full_local_path) in
  if PyStr.startswith "/" p then p else "/" ++ p.

(** Spec, walker: [s] ends with [suffix]. *)
Fixpoint ends_with (suffix s : string) : bool :=
  String.eqb suffix s ||
  match s with
  | String _ s' => ends_with suffix s'
  | EmptyString => false
  end.

(** Spec, walker: a sidecar file of a level has the marker of the level in
    its name and the suffix [.metadata.json]. *)
Definition is_sidecar (marker f : string) : bool :=
  PyStr.contains marker f && ends_with ".metadata.json" f.

(** Spec, differ: two entries have the same attribute name (the values
    are not looked at). *)
Definition same_name (a b : MetadataEntry) : bool :=
  String.eqb (attribute a) (attribute b).

(** Spec, differ: the attribute names of [xs] with no same-named entry in
    [ys]. *)
Definition names_only_in (xs ys : list MetadataEntry) : list string :=
  map attribute (filter (fun x => negb (existsb (same_name x) ys)) xs).

(** Spec, differ: the pairs of a remote and a local entry with equal
    attribute names. *)
Definition matching_pairs (remote local : list MetadataEntry)
  : list (MetadataEntry * MetadataEntry) :=
  filter (fun p => same_name (fst p) (snd p)) (list_prod remote local).

(** Spec, differ: the [changed] part of a report. *)
Definition is_modified (l : report_line) : bool :=
  match l with
  | Modified _ _ _ => true
  | _ => false
  end.

Definition changed (remote local : list MetadataEntry) : list report_line :=
  filter is_modified (evaluate_differences remote local).

(** ** Predicates on traces *)

(** Every event of the run satisfies [P]. *)
Definition trace_all {A : Type} (P : event -> Prop) (m : M A) : Prop :=
  Forall P (fst m).

Definition no_lookup (e : event) : Prop :=
  match e with
  | Lookup _ _ => False
  | _ => True
  end.

(** A request goes to a path mapped from under [ipath] to [vault]. *)
Definition lookup_under (ipath vault : string) (e : event) : Prop :=
  match e with
  | Lookup _ p => exists d, p = get_dme_directory d ipath vault
  | _ => True
  end.

(** The computation does not end the process with status 0. *)
Definition no_clean_exit {A : Type} (m : M A) : Prop :=
  snd m <> Exit 0%Z.

(** The directory of a level sidecar [f] found in [path]. *)
Definition level_directory (path f : string) : string :=
  path ++ "/" ++ PyStr.split_head "." f.

(** The directory of a data-object sidecar [f] found in [path]. *)
Definition object_directory (path f : string) : string :=
  path ++ "/" ++ PyStr.split_head ".metadata.json" f.

(** The banner printed before the check of a level. *)
Definition level_header (name dir : string) : string :=
  nl ++ fst config_important ++ " - " ++ name ++ " level: " ++
  PyStr.split_last "/" dir ++ snd config_important.

(** The banner [main] prints first. *)
Definition banner : string := nl ++ nl ++ "###### VALIDATION STEP #####" ++ nl.

(** The two help flags. *)
Definition asks_help (user_args : list string) : bool :=
  mem "-h" user_args || mem "--help" user_args.

(** The message of [args] for a wrong number of arguments. *)
Definition missing_arguments : string :=
  nl ++ fst config_error ++ "Error: Failed to provide all required arguments"
     ++ snd config_error.

(** The message of a failed vault assertion. *)
Definition invalid_vault (vault : string) : string :=
  vault ++ " is not a vaild DME vault! Please choose from one of the following: "
        ++ repr_list config_vaults.

(** The message of [path_exists]. *)
Definition not_accessible (path : string) : string :=
  fst config_error ++ "Error:" ++ snd config_error ++ " PATH " ++ path ++
  " not accessible!".

(** A computation that returns has left no trace. *)
Definition silent {A : Type} (m : M A) : Prop :=
  forall tr a, m = (tr, Ret a) -> tr = [].

(** No proper end of [sep] is a beginning of [sep]: two occurrences of
    [sep] cannot overlap. *)
Definition unbordered (sep : string) : bool :=
  forallb (fun k => negb (PyStr.startswith (PyStr.slice_from k sep) sep))
          (seq 1 (String.length sep - 1)).

(** ** Further concrete cases *)

Module Cases.

(** A PI_Lab sidecar without its directory. *)
Definition orphan_fs : FileSystem := {|
  isdir := fun p => String.eqb p "/orphan";
  listdir := fun p =>
    if String.eqb p "/orphan" then Some ["PI_Lab_Foo.metadata.json"] else None;
  read := fun p => Json Scenario.pi_local
|}.

(** The tree of the scenario with the sidecars only: no data directory, no
    data file. *)
Definition sidecars_fs : FileSystem := {|
  isdir := isdir Scenario.fs;
  listdir := fun p =>
    option_map (filter (PyStr.contains ".metadata.json")) (listdir Scenario.fs p);
  read := read Scenario.fs
|}.

(** A directory whose only file is the backup copy of a PI_Lab sidecar. *)
Definition backup_fs : FileSystem := {|
  isdir := fun p => String.eqb p "/backup";
  listdir := fun p =>
    if String.eqb p "/backup" then Some ["PI_Lab_A.metadata.json.bak"] else None;
  read := fun p => Json Scenario.pi_local
|}.

(** The text [3] followed by a no-break space (U+00A0). *)
Definition three_nbsp : string :=
  "3" ++ String (ascii_of_nat 194) (String (ascii_of_nat 160) EmptyString).

(** The Arabic-Indic digit three (U+0663). *)
Definition arabic_three : string :=
  String (ascii_of_nat 217) (String (ascii_of_nat 163) EmptyString).

End Cases.

(** ** The session's start-up files ([dme_utils.py]) *)

Module PyText.

(** [s.split(sep)] for a non-empty [sep]: the pieces between the
    occurrences of [sep], found from the left without overlap.  [acc] is the
    piece being read, [skip] the characters of the occurrence just found
    that are still to be passed over. *)
Fixpoint split_from (sep : string) (skip : nat) (acc : string) (s : string)
  : list string :=
  match s with
  | EmptyString => [acc]
  | String c s' =>
      match skip with
      | S k => split_from sep k acc s'
      | O =>
          if PyStr.startswith sep s
          then acc :: split_from sep (String.length sep - 1) EmptyString s'
          else split_from sep 0 (acc ++ String c EmptyString) s'
      end
  end.

Definition split (sep s : string) : list string := split_from sep 0 EmptyString s.

(** [s[0:-2]] *)
Definition drop_last2 (s : string) : string :=
  String.substring 0 (String.length s - 2) s.

(** The lines of a text file as [readlines] and iteration give them: each
    with its line feed, the last one without when the text does not end
    with one. *)
Fixpoint readlines_from (acc : string) (text : string) : list string :=
  match text with
  | EmptyString =>
      match acc with
      | EmptyString => []
      | _ => [acc]
      end
  | String c text' =>
      if Ascii.eqb c (ascii_of_nat 10)
      then (acc ++ String c EmptyString) :: readlines_from EmptyString text'
      else readlines_from (acc ++ String c EmptyString) text'
  end.

Definition readlines (text : string) : list string := readlines_from EmptyString text.

End PyText.

Module DmeUtils.

(** What the start-up of a session reads: the environment, which paths
    exist, and the text of the files that can be opened ([None]: [open]
    raises). *)
Record Host : Type := {
  environ : string -> option string;
  path_exists : string -> bool;
  content : string -> option string
}.

(** [self.dme_utils] *)
Definition dme_utils : string := "HPC_DM_UTILS".

Definition not_in_environment : string :=
  "ERROR: " ++ dme_utils ++ " not found in PATH envirronment. Exiting...".

(** The loop of [get_dme_url] over the lines of the properties file: a
    line that begins with [#] is passed over; the first other line that
    mentions [hpc.server.url] gives the url, its second field between [=]
    signs, and ends the loop; without such a line the url stays empty. *)
Fixpoint scan_url (lines : list string) : M string :=
  match lines with
  | [] => ret EmptyString
  | l :: lines' =>
      match l with
      | EmptyString => raise IndexError
      | String c _ =>
          if Ascii.eqb c "#" then scan_url lines'
          else if PyStr.contains "hpc.server.url" l
               then index (PyText.split "=" l) 1
               else scan_url lines'
      end
  end.

(** [DMESession.get_dme_url] *)
Definition get_dme_url (h : Host) : M string :=
  match environ h dme_utils with
  | None => print not_in_environment ;; sys_exit 1
  | Some hpc_utils =>
      let properties := hpc_utils ++ "/hpcdme.properties" in
      match content h properties with
      | None => raise (OSError properties)
      | Some text => scan_url (PyText.readlines text)
      end
  end.

(** [DMESession.get_token_from_file].  [system] is what the command
    [dm_generate_token], run by [os.system], does to the host; what the
    command itself prints is not part of the trace. *)
Definition get_token_from_file (system : Host -> Host) (h : Host) : M string :=
  match environ h dme_utils with
  | None => print not_in_environment ;; sys_exit 1
  | Some hpc_utils =>
      let token_path := hpc_utils ++ "/tokens/curl-conf" in
      h' <- (if negb (path_exists h token_path) then
               print ("WARNING: token file not found in " ++ token_path ++
                      ". Requesting a token...") ;;
               print "dm_generate_token" ;;
               ret (system h)
             else ret h) ;;
      match content h' token_path with
      | None => print "ERROR: could not open token file. Exiting..." ;; sys_exit 1
      | Some text =>
          let lines := PyText.readlines text in
          line <- index lines 1 ;;
          field <- index (PyText.split "Bearer " line) 1 ;;
          ret (PyText.drop_last2 field)
      end
  end.

(** [DMESession.__init__]: the url and the token are the arguments when these
    are not empty, and are read from the host otherwise.  [import_requests]
    is what the import of [requests] and the silencing of its warnings do
    after that.  The result is the pair of [self.dme_url] and
    [self.dme_token]. *)
Definition init (import_requests : M unit) (system : Host -> Host) (h : Host)
    (dme_url dme_token : string) : M (string * string) :=
  url <- (if String.eqb dme_url "" then get_dme_url h else ret dme_url) ;;
  token <- (if String.eqb dme_token "" then get_token_from_file system h
            else ret dme_token) ;;
  import_requests ;;
  ret (url, token).

End DmeUtils.

(** ** Concrete hosts *)

Module Hosts.

Import DmeUtils.

Definition nl : string := String (ascii_of_nat 10) EmptyString.
Definition quote : string := String (ascii_of_nat 34) EmptyString.

(** A line that the loop of [get_dme_url] passes over. *)
Definition passed_over (l : string) : bool :=
  PyStr.startswith "#" l || negb (PyStr.contains "hpc.server.url" l).

Definition utils : string := "/opt/hpc/utils".
Definition properties_path : string := utils ++ "/hpcdme.properties".
Definition token_path : string := utils ++ "/tokens/curl-conf".

Definition server : string := "https://hpcdmeapi.nci.nih.gov:8080".

Definition properties_head : string :=
  "# hpc.server.url=https://localhost" ++ nl ++
  "hpc.ssl.keystore.path=cacerts.jks" ++ nl.

Definition properties_tail : string :=
  "hpc.login.module=LDAP" ++ nl.

Definition properties_text : string :=
  properties_head ++ "hpc.server.url=" ++ server ++ nl ++ properties_tail.

Definition token_text : string :=
  "insecure" ++ nl ++
  "header = " ++ quote ++ "Authorization: Bearer eyJhbGciOi.J9" ++ quote ++ nl.

Definition with_environment (name : string) : option string :=
  if String.eqb name dme_utils then Some utils else None.

(** The properties file and the token file are both in place. *)
Definition ready : Host := {|
  environ := with_environment;
  path_exists := fun p => String.eqb p properties_path || String.eqb p token_path;
  content := fun p =>
    if String.eqb p properties_path then Some properties_text
    else if String.eqb p token_path then Some token_text
    else None
|}.

(** No token has been requested yet. *)
Definition fresh : Host := {|
  environ := with_environment;
  path_exists := fun p => String.eqb p properties_path;
  content := fun p =>
    if String.eqb p properties_path then Some properties_text else None
|}.

(** The variable [HPC_DM_UTILS] is not set. *)
Definition bare : Host := {|
  environ := fun _ => None;
  path_exists := fun _ => false;
  content := fun _ => None
|}.

(** The properties file holds [text], the token file [token]. *)
Definition holding (text token : string) : Host := {|
  environ := with_environment;
  path_exists := fun p => String.eqb p properties_path || String.eqb p token_path;
  content := fun p =>
    if String.eqb p properties_path then Some text
    else if String.eqb p token_path then Some token
    else None
|}.

(** [dm_generate_token] writes the token file. *)
Definition generate (h : Host) : Host := {|
  environ := environ h;
  path_exists := fun p => String.eqb p token_path || path_exists h p;
  content := fun p => if String.eqb p token_path then Some token_text else content h p
|}.

(** [dm_generate_token] fails and leaves the host as it was. *)
Definition no_command (h : Host) : Host := h.

End Hosts.

(** ** The run of the script on a host *)

(** [dme.DMESession()], as [main] calls it: both arguments have their
    default, the empty string. *)
Definition new_session (import_requests : M unit)
    (system : DmeUtils.Host -> DmeUtils.Host) (h : DmeUtils.Host) : M DMESession :=
  '(url, token) <- DmeUtils.init import_requests system h "" "" ;;
  ret {| dme_url := url; dme_token := token |}.

Module Run.

(** The session on the host where the properties file and the token file
    are in place and [requests] can be imported. *)
Definition connect : M DMESession :=
  new_session (ret tt) Hosts.no_command Hosts.ready.

(** The end-to-end scenario: [python validate.py /scratch/DME CCBR_Archive]
    on the tree of the scenario. *)
Definition scenario : M unit := main Scenario.fs connect Scenario.argv.

End Run.

(** * Properties *)

(** ** Strings *)

Section StringFacts.

(** Induction two characters at a time, as [replace] reads ["//"]. *)
Lemma string_pair_ind (P : string -> Prop) :
  P EmptyString ->
  (forall c, P (String c EmptyString)) ->
  (forall c d s, P s -> P (String d s) -> P (String c (String d s))) ->
  forall s, P s.
Proof.
  intros H0 H1 H2 s.
  assert (H : P s /\ forall c, P (String c s)).
  { induction s as [|d s [IHa IHb]]; split; auto. }
  exact (proj1 H).
Qed.

Lemma startswith_slash (s : string) :
  PyStr.startswith "/" s = true <-> exists r, s = String "/" r.
Proof.
  destruct s as [|c r]; cbn [PyStr.startswith].
  - split; [intros H | intros [r H]]; discriminate H.
  - destruct (Ascii.eqb_spec "/"%char c) as [<-|Hc]; cbn [andb].
    + split; eauto.
    + split; [intros H; discriminate H | intros [r' H]; congruence].
Qed.

Lemma startswith_slash_cons (c : ascii) (r : string) :
  PyStr.startswith "/" (String c r) = Ascii.eqb c "/".
Proof. cbn [PyStr.startswith]. rewrite Ascii.eqb_sym. apply andb_true_r. Qed.

Lemma contains_cons (sub : string) (c : ascii) (s : string) :
  PyStr.contains sub (String c s) =
  PyStr.startswith sub (String c s) || PyStr.contains sub s.
Proof. reflexivity. Qed.

Lemma startswith2 (c d : ascii) (s : string) :
  PyStr.startswith "//" (String c (String d s)) = Ascii.eqb c "/" && Ascii.eqb d "/".
Proof.
  cbn [PyStr.startswith]. rewrite (Ascii.eqb_sym "/" c), (Ascii.eqb_sym "/" d).
  now rewrite andb_true_r.
Qed.

Lemma startswith2_cons (c : ascii) (t : string) :
  PyStr.startswith "//" (String c t) = Ascii.eqb c "/" && PyStr.startswith "/" t.
Proof. cbn [PyStr.startswith]. now rewrite (Ascii.eqb_sym "/" c). Qed.

Lemma startswith3 (c d : ascii) (s : string) :
  PyStr.startswith "///" (String c (String d s)) =
  Ascii.eqb c "/" && (Ascii.eqb d "/" && PyStr.startswith "/" s).
Proof.
  cbn [PyStr.startswith]. rewrite (Ascii.eqb_sym "/" c), (Ascii.eqb_sym "/" d).
  destruct s as [|e s]; [now rewrite !andb_false_r|].
  now rewrite andb_true_r.
Qed.

End StringFacts.

(** ** Path mapper *)

Section PathMapper.

Lemma replace_from_skip (old new : string) (k : nat) (c : ascii) (s : string) :
  PyStr.replace_from old new (S k) (String c s) = PyStr.replace_from old new k s.
Proof. reflexivity. Qed.

Lemma replace_from_scan (old new : string) (c : ascii) (s : string) :
  PyStr.replace_from old new 0 (String c s) =
  if PyStr.startswith old (String c s)
  then new ++ PyStr.replace_from old new (String.length old - 1) s
  else String c (PyStr.replace_from old new 0 s).
Proof. reflexivity. Qed.

Lemma collapse_pairs_cons2 (c d : ascii) (s : string) :
  collapse_pairs (String c (String d s)) =
  if Ascii.eqb c "/" && Ascii.eqb d "/"
  then String "/" (collapse_pairs s)
  else String c (collapse_pairs (String d s)).
Proof. reflexivity. Qed.

(** One pass of [replace('//', '/')], read two characters at a time. *)
Lemma replace_collapse_pairs (s : string) :
  PyStr.replace "//" "/" s = collapse_pairs s.
Proof.
  unfold PyStr.replace.
  induction s as [| c | c d s IH1 IH2] using string_pair_ind.
  - reflexivity.
  - rewrite replace_from_scan. cbn [PyStr.startswith].
    rewrite andb_false_r. reflexivity.
  - rewrite replace_from_scan, startswith2.
    rewrite collapse_pairs_cons2.
    destruct (Ascii.eqb c "/" && Ascii.eqb d "/").
    + change (String.length "//" - 1) with 1.
      rewrite replace_from_skip, IH1. reflexivity.
    + now rewrite IH2.
Qed.

Lemma collapse_pairs_head (s : string) :
  PyStr.startswith "/" (collapse_pairs s) = PyStr.startswith "/" s.
Proof.
  destruct s as [|c [|d s]]; try reflexivity.
  rewrite collapse_pairs_cons2.
  destruct (Ascii.eqb_spec c "/") as [->|Hc]; cbn [andb].
  - destruct (Ascii.eqb d "/"); reflexivity.
  - now rewrite !startswith_slash_cons.
Qed.

(** A run of three separators is what one pass cannot collapse. *)
Lemma collapse_pairs_no_double (s : string) :
  PyStr.contains "///" s = false ->
  PyStr.contains "//" (collapse_pairs s) = false.
Proof.
  induction s as [| c | c d s IH1 IH2] using string_pair_ind; intros H.
  - reflexivity.
  - cbn [collapse_pairs]. rewrite contains_cons. cbn [PyStr.startswith PyStr.contains].
    now rewrite andb_false_r.
  - rewrite contains_cons, startswith3 in H.
    apply orb_false_iff in H as [H3 Hrest].
    assert (Hs : PyStr.contains "///" s = false).
    { rewrite contains_cons in Hrest. now apply orb_false_iff in Hrest. }
    rewrite collapse_pairs_cons2.
    destruct (Ascii.eqb c "/") eqn:Ec, (Ascii.eqb d "/") eqn:Ed; cbn [andb] in *;
      rewrite contains_cons, startswith2_cons, collapse_pairs_head.
    + rewrite (IH1 Hs), H3. now rewrite andb_false_r.
    + rewrite (IH2 Hrest), startswith_slash_cons, Ed, Ec. reflexivity.
    + rewrite (IH2 Hrest), Ec. reflexivity.
    + rewrite (IH2 Hrest), Ec. reflexivity.
Qed.

(** Without a run of three, one pass collapses every run. *)
Lemma collapse_pairs_squeeze (s : string) :
  PyStr.contains "///" s = false -> collapse_pairs s = squeeze s.
Proof.
  induction s as [| c | c d s IH1 IH2] using string_pair_ind; intros H.
  - reflexivity.
  - cbn [collapse_pairs squeeze PyStr.startswith]. now rewrite andb_false_r.
  - rewrite contains_cons, startswith3 in H.
    apply orb_false_iff in H as [H3 Hrest].
    assert (Hs : PyStr.contains "///" s = false).
    { rewrite contains_cons in Hrest. now apply orb_false_iff in Hrest. }
    rewrite collapse_pairs_cons2.
    change (squeeze (String c (String d s))) with
      (if Ascii.eqb c "/" && PyStr.startswith "/" (String d s)
       then squeeze (String d s) else String c (squeeze (String d s))).
    rewrite startswith_slash_cons, <- (IH2 Hrest).
    destruct (Ascii.eqb c "/") eqn:Ec, (Ascii.eqb d "/") eqn:Ed; cbn [andb] in *;
      try reflexivity.
    apply Ascii.eqb_eq in Ed as ->.
    rewrite (IH2 Hrest), (IH1 Hs).
    change (squeeze (String "/" s)) with
      (if Ascii.eqb "/" "/" && PyStr.startswith "/" s
       then squeeze s else String "/" (squeeze s)).
    now rewrite H3, andb_false_r.
Qed.

Lemma get_dme_directory_unfold (full_path initial_path vault : string) :
  let path := collapse_pairs
                (vault ++ "/" ++
                 PyStr.slice_from (String.length initial_path) full_path) in
  get_dme_directory full_path initial_path vault =
  if PyStr.startswith "/" path then path else "/" ++ path.
Proof.
  unfold get_dme_directory. rewrite replace_collapse_pairs.
  destruct (collapse_pairs _) as [|c r]; [reflexivity|].
  cbn [String.get]. rewrite startswith_slash_cons.
  destruct (Ascii.eqb c "/"); reflexivity.
Qed.

(** [path[0]] cannot raise in [get_dme_directory]. *)
Lemma get_dme_directory_path_nonempty (full_path initial_path vault : string) :
  PyStr.replace "//" "/"
    (vault ++ "/" ++ PyStr.slice_from (String.length initial_path) full_path)
  <> EmptyString.
Proof.
  rewrite replace_collapse_pairs.
  generalize (PyStr.slice_from (String.length initial_path) full_path); intros t.
  destruct vault as [|c [|d v]]; cbn [String.append collapse_pairs].
  - destruct t as [|e t]; [discriminate|].
    destruct (Ascii.eqb "/" "/" && Ascii.eqb e "/"); discriminate.
  - destruct (Ascii.eqb c "/" && Ascii.eqb "/" "/"); discriminate.
  - destruct (Ascii.eqb c "/" && Ascii.eqb d "/"); discriminate.
Qed.

End PathMapper.

(** C8, as amended.  The result of the path mapper always begins with a
    separator.  When [vault + "/" + full_local_path[len(local_root):]] has
    no run of three or more separators, the result is that text with
    doubled separators collapsed, it begins with exactly one separator and
    it holds no doubled separator. *)
Theorem get_dme_directory_collapses (full_local_path local_root vault : string) :
  PyStr.startswith "/" (get_dme_directory full_local_path local_root vault) = true /\
  (PyStr.contains "///"
     (vault ++ "/" ++ PyStr.slice_from (String.length local_root) full_local_path)
   = false ->
   get_dme_directory full_local_path local_root vault
   = remote_path full_local_path local_root vault /\
   PyStr.startswith "//" (get_dme_directory full_local_path local_root vault) = false /\
   PyStr.contains "//" (get_dme_directory full_local_path local_root vault) = false).
Proof.
  rewrite get_dme_directory_unfold. unfold remote_path.
  set (joined := vault ++ "/" ++ _).
  split.
  - destruct (PyStr.startswith "/" (collapse_pairs joined)) eqn:E; [exact E | reflexivity].
  - intros H3.
    assert (Hc : PyStr.contains "//"
                   (if PyStr.startswith "/" (collapse_pairs joined)
                    then collapse_pairs joined
                    else "/" ++ collapse_pairs joined) = false).
    { pose proof (collapse_pairs_no_double joined H3) as Hn.
      destruct (PyStr.startswith "/" (collapse_pairs joined)) eqn:E; [exact Hn|].
      change ("/" ++ collapse_pairs joined) with (String "/" (collapse_pairs joined)).
      now rewrite contains_cons, startswith2_cons, E, Hn, andb_false_r. }
    rewrite <- (collapse_pairs_squeeze joined H3).
    repeat split; [|exact Hc].
    destruct (if PyStr.startswith "/" (collapse_pairs joined)
              then collapse_pairs joined else "/" ++ collapse_pairs joined)
      as [|c t]; [reflexivity|].
    rewrite contains_cons in Hc. now apply orb_false_iff in Hc.
Qed.

Lemma get_dme_directory_collapses_witness :
  PyStr.startswith "/"
    (get_dme_directory "/scratch/DME/PI_Lab_Foo/Project_Bar" "/scratch/DME" "CCBR_Archive")
  = true /\
  get_dme_directory "/scratch/DME/PI_Lab_Foo/Project_Bar" "/scratch/DME" "CCBR_Archive"
  = remote_path "/scratch/DME/PI_Lab_Foo/Project_Bar" "/scratch/DME" "CCBR_Archive" /\
  PyStr.startswith "//"
    (get_dme_directory "/scratch/DME/PI_Lab_Foo/Project_Bar" "/scratch/DME" "CCBR_Archive")
  = false /\
  PyStr.contains "//"
    (get_dme_directory "/scratch/DME/PI_Lab_Foo/Project_Bar" "/scratch/DME" "CCBR_Archive")
  = false.
Proof.
  destruct (get_dme_directory_collapses
              "/scratch/DME/PI_Lab_Foo/Project_Bar" "/scratch/DME" "CCBR_Archive")
    as [H1 H2].
  split; [exact H1 | apply H2; reflexivity].
Defined.

(** C8, as stated, fails: one pass of [replace] leaves a doubled separator
    where three or more stood. *)
Lemma get_dme_directory_keeps_double :
  get_dme_directory "/scratch/DME///PI_Lab_Foo" "/scratch/DME" "CCBR_Archive"
  = "/CCBR_Archive//PI_Lab_Foo" /\
  PyStr.contains "//"
    (get_dme_directory "/scratch/DME///PI_Lab_Foo" "/scratch/DME" "CCBR_Archive") = true /\
  get_dme_directory "/scratch/DME///PI_Lab_Foo" "/scratch/DME" "CCBR_Archive"
  <> remote_path "/scratch/DME///PI_Lab_Foo" "/scratch/DME" "CCBR_Archive".
Proof. split; [reflexivity | split; [reflexivity | discriminate]]. Qed.

(** C9, as amended.  On the example of the spec the path mapper gives the
    vault path with its leading separator. *)
Theorem get_dme_directory_example :
  get_dme_directory "/scratch/DME/PI_Lab_Foo" "/scratch/DME" "CCBR_Archive"
  = "/CCBR_Archive/PI_Lab_Foo".
Proof. reflexivity. Qed.

(** C9, as stated, fails: the result is not the bare ["CCBR_Archive/PI_Lab_Foo"]. *)
Lemma get_dme_directory_example_not_bare :
  get_dme_directory "/scratch/DME/PI_Lab_Foo" "/scratch/DME" "CCBR_Archive"
  <> "CCBR_Archive/PI_Lab_Foo".
Proof. discriminate. Qed.

(** ** Metadata differ *)

Section Differ.

Lemma inner_loop_both (att : string) (local : list MetadataEntry)
      (both : list string) (has : bool) :
  fold_left
    (fun '(items_both, has_attribute) e_j =>
       let att_j := attribute e_j in
       if String.eqb att att_j
       then ((items_both ++ [att])%list, true)
       else (items_both, has_attribute))
    local (both, has)
  = ((both ++ map (fun _ => att)
                  (filter (fun e => String.eqb att (attribute e)) local))%list,
     has || existsb (fun e => String.eqb att (attribute e)) local).
Proof.
  revert both has.
  induction local as [|e local IH]; intros both has; cbn [fold_left filter existsb map].
  - now rewrite app_nil_r, orb_false_r.
  - destruct (String.eqb att (attribute e)); rewrite IH; cbn [map orb].
    + now rewrite <- app_assoc, orb_true_r.
    + reflexivity.
Qed.

Lemma inner_loop_flag (att : string) (l : list MetadataEntry) (has : bool) :
  fold_left
    (fun has_attribute e_j =>
       let att_j := attribute e_j in
       if String.eqb att att_j then true else has_attribute)
    l has
  = has || existsb (fun e => String.eqb att (attribute e)) l.
Proof.
  revert has.
  induction l as [|e l IH]; intros has; cbn [fold_left existsb].
  - now rewrite orb_false_r.
  - rewrite IH. destruct (String.eqb att (attribute e)); cbn [orb]; [|reflexivity].
    now rewrite orb_true_r.
Qed.

Lemma outer_loop_dme (remote local : list MetadataEntry) (only both : list string) :
  fold_left
    (fun '(items_only_dme, items_both) e_i =>
       let att_i := attribute e_i in
       let '(items_both, has_attribute) :=
         fold_left
           (fun '(items_both, has_attribute) e_j =>
              let att_j := attribute e_j in
              if String.eqb att_i att_j
              then ((items_both ++ [att_i])%list, true)
              else (items_both, has_attribute))
           local (items_both, false) in
       if negb has_attribute
       then ((items_only_dme ++ [att_i])%list, items_both)
       else (items_only_dme, items_both))
    remote (only, both)
  = ((only ++ names_only_in remote local)%list,
     (both ++ flat_map
                (fun r => map (fun _ => attribute r) (filter (same_name r) local))
                remote)%list).
Proof.
  revert only both.
  induction remote as [|r remote IH]; intros only both.
  - cbn. now rewrite !app_nil_r.
  - cbn [fold_left]. cbv zeta. rewrite inner_loop_both. cbn [orb].
    unfold names_only_in. cbn [filter flat_map].
    change (fun e => String.eqb (attribute r) (attribute e)) with (same_name r).
    destruct (existsb (same_name r) local); cbn [negb map];
      rewrite IH; unfold names_only_in; now rewrite <- !app_assoc.
Qed.

Lemma outer_loop_local (remote local : list MetadataEntry) (only : list string) :
  fold_left
    (fun items_only_local e_i =>
       let att_i := attribute e_i in
       let has_attribute :=
         fold_left
           (fun has_attribute e_j =>
              let att_j := attribute e_j in
              if String.eqb att_i att_j then true else has_attribute)
           remote false in
       if negb has_attribute
       then (items_only_local ++ [att_i])%list
       else items_only_local)
    local only
  = (only ++ names_only_in local remote)%list.
Proof.
  revert only.
  induction local as [|l local IH]; intros only.
  - cbn. now rewrite app_nil_r.
  - cbn [fold_left]. cbv zeta. rewrite inner_loop_flag. cbn [orb].
    unfold names_only_in. cbn [filter].
    change (fun e => String.eqb (attribute l) (attribute e)) with (same_name l).
    destruct (existsb (same_name l) remote); cbn [negb map];
      rewrite IH; unfold names_only_in; now rewrite <- ?app_assoc.
Qed.

Lemma matching_pairs_names (remote local : list MetadataEntry) :
  map (fun p => attribute (fst p)) (matching_pairs remote local)
  = flat_map (fun r => map (fun _ => attribute r) (filter (same_name r) local)) remote.
Proof.
  unfold matching_pairs.
  induction remote as [|r remote IH]; [reflexivity|].
  cbn [list_prod flat_map]. rewrite filter_app, map_app, IH. f_equal.
  clear IH. induction local as [|l local IH]; [reflexivity|].
  cbn [map filter fst snd]. destruct (same_name r l); cbn [map fst]; now rewrite IH.
Qed.

(** The loops of [get_different_fields] compute the three lists of the spec. *)
Lemma get_different_fields_eq (remote local : list MetadataEntry) :
  get_different_fields remote local
  = (names_only_in remote local,
     names_only_in local remote,
     map (fun p => attribute (fst p)) (matching_pairs remote local)).
Proof.
  unfold get_different_fields.
  rewrite outer_loop_dme, outer_loop_local, matching_pairs_names. reflexivity.
Qed.

End Differ.

Section DifferSets.

Lemma existsb_same_name (x : MetadataEntry) (ys : list MetadataEntry) :
  existsb (same_name x) ys = true <-> In (attribute x) (map attribute ys).
Proof.
  rewrite existsb_exists, in_map_iff. unfold same_name.
  split; intros [y [H1 H2]]; exists y.
  - apply String.eqb_eq in H2. auto.
  - split; [tauto|]. apply String.eqb_eq. symmetry. tauto.
Qed.

Lemma names_only_in_spec (xs ys : list MetadataEntry) (a : string) :
  In a (names_only_in xs ys) <->
  In a (map attribute xs) /\ ~ In a (map attribute ys).
Proof.
  unfold names_only_in. split.
  - intros H. apply in_map_iff in H as [x [<- Hx]].
    apply filter_In in Hx as [Hx Hn].
    split; [now apply in_map|].
    rewrite <- existsb_same_name. now destruct (existsb (same_name x) ys).
  - intros [H Hn]. apply in_map_iff in H as [x [<- Hx]].
    apply in_map_iff. exists x. split; [reflexivity|].
    apply filter_In. split; [exact Hx|].
    rewrite <- existsb_same_name in Hn. now destruct (existsb (same_name x) ys).
Qed.

Lemma matching_pairs_spec (remote local : list MetadataEntry) (r l : MetadataEntry) :
  In (r, l) (matching_pairs remote local) <->
  In r remote /\ In l local /\ attribute r = attribute l.
Proof.
  unfold matching_pairs, same_name.
  rewrite filter_In, in_prod_iff. cbn [fst snd]. rewrite String.eqb_eq. tauto.
Qed.

Lemma in_both_spec (remote local : list MetadataEntry) (a : string) :
  In a (map (fun p => attribute (fst p)) (matching_pairs remote local)) <->
  In a (map attribute remote) /\ In a (map attribute local).
Proof.
  rewrite !in_map_iff. split.
  - intros [[r l] [<- H]]. apply matching_pairs_spec in H as [Hr [Hl E]].
    cbn [fst]. split; [now exists r | exists l; auto].
  - intros [[r [<- Hr]] [l [E Hl]]]. exists (r, l). split; [reflexivity|].
    apply matching_pairs_spec. auto.
Qed.

(** Which [will be modified] lines are printed. *)
Lemma modified_line_spec (remote local : list MetadataEntry) (a old new : string) :
  In (Modified a old new) (evaluate_differences remote local) <->
  exists r l,
    In r remote /\ In l local /\ attribute r = a /\ attribute l = a /\
    value r = old /\ value l = new /\ value_modified (value l) (value r) = true.
Proof.
  unfold evaluate_differences. rewrite get_different_fields_eq.
  cbn [app]. split.
  - intros [H | H]; [discriminate H|].
    apply in_app_or in H as [H | H].
    + apply in_flat_map in H as [att [_ H]].
      apply in_flat_map in H as [e [_ H]].
      destruct (String.eqb (attribute e) att); [destruct H as [H|[]]; discriminate H | destruct H].
    + apply in_flat_map in H as [att [_ H]].
      apply in_flat_map in H as [l [Hl H]].
      destruct (String.eqb_spec att (attribute l)) as [El|]; cbn [negb] in H; [|destruct H].
      apply in_flat_map in H as [r [Hr H]].
      destruct (String.eqb_spec att (attribute r)) as [Er|]; cbn [negb] in H; [|destruct H].
      destruct (value_modified (value l) (value r)) eqn:Ev; [|destruct H].
      destruct H as [H|[]]. injection H as <- <- <-.
      exists r, l. auto 10.
  - intros [r [l [Hr [Hl [Er [El [Eo [En Ev]]]]]]]]. subst a old new.
    right. apply in_or_app. right.
    apply in_flat_map. exists (attribute r). split.
    { apply in_both_spec. split; [now apply in_map|]. rewrite <- El. now apply in_map. }
    apply in_flat_map. exists l. split; [exact Hl|].
    rewrite El, String.eqb_refl. cbn [negb].
    apply in_flat_map. exists r. split; [exact Hr|].
    rewrite <- El, String.eqb_refl. cbn [negb]. rewrite Ev. now left.
Qed.

End DifferSets.

(** C3.  [only_remote] and [only_local] are the attribute names of one
    list with no same-named entry in the other, and [both] holds one
    element per pair of a remote and a local entry with equal names.  Names
    are compared as they are written, so names that differ in case only do
    not match. *)
Theorem get_different_fields_spec (remote local : list MetadataEntry) :
  get_different_fields remote local
  = (names_only_in remote local,
     names_only_in local remote,
     map (fun p => attribute (fst p)) (matching_pairs remote local)) /\
  (forall a, In a (names_only_in remote local) <->
             In a (map attribute remote) /\ ~ In a (map attribute local)) /\
  (forall a, In a (names_only_in local remote) <->
             In a (map attribute local) /\ ~ In a (map attribute remote)) /\
  (forall r l, In (r, l) (matching_pairs remote local) <->
               In r remote /\ In l local /\ attribute r = attribute l) /\
  get_different_fields [Scenario.entry "Name" "v"] [Scenario.entry "name" "v"]
  = (["Name"], ["name"], []) /\
  get_different_fields [Scenario.entry "x" "1"; Scenario.entry "x" "2"]
                       [Scenario.entry "x" "3"; Scenario.entry "x" "4"]
  = ([], [], ["x"; "x"; "x"; "x"]).
Proof.
  split; [apply get_different_fields_eq|].
  split; [intros a; apply names_only_in_spec|].
  split; [intros a; apply names_only_in_spec|].
  split; [intros r l; apply matching_pairs_spec|].
  split; reflexivity.
Qed.

Section DifferValues.

Lemma value_modified_same (v : string) : value_modified v v = false.
Proof. unfold value_modified. now rewrite String.eqb_refl. Qed.

(** When a pair of values is not reported: they are the same text, or both
    read as floats and the floats are equal. *)
Lemma value_modified_false (local_value dme_value : string) :
  value_modified local_value dme_value = false <->
  local_value = dme_value \/
  exists x y, PyFloat.float local_value = Some x /\
              PyFloat.float dme_value = Some y /\ SFeqb x y = true.
Proof.
  unfold value_modified, PyFloat.ne.
  destruct (String.eqb_spec local_value dme_value) as [E|N]; cbn [negb].
  - split; auto.
  - destruct (PyFloat.float local_value) as [x|], (PyFloat.float dme_value) as [y|].
    + destruct (SFeqb x y) eqn:Exy; cbn [negb]; split.
      * intros _. right. exists x, y. auto.
      * reflexivity.
      * intros H; discriminate H.
      * intros [H | [x' [y' [Hx [Hy H]]]]]; [contradiction|].
        injection Hx as <-. injection Hy as <-. congruence.
    + split; [intros H; discriminate H|].
      intros [H | [x' [y' [_ [Hy _]]]]]; [contradiction | discriminate Hy].
    + split; [intros H; discriminate H|].
      intros [H | [x' [y' [Hx _]]]]; [contradiction | discriminate Hx].
    + split; [intros H; discriminate H|].
      intros [H | [x' [y' [Hx _]]]]; [contradiction | discriminate Hx].
Qed.

End DifferValues.

(** C2.  A [will be modified] line, with the remote value as old value and
    the local value as new value, is printed exactly for the pairs of a
    remote and a local entry of the same name whose values are reported as
    modified; a pair of values is not reported when the raw texts are equal,
    or when both read as floats and the floats are equal, and is reported
    in every other case.  ["3"] against ["3.0"] is not reported, ["3"]
    against ["3a"] is.  What reads as a float is what [float] of Python
    reads: the digits and the white space of every script count, so ["3"]
    against ["3"] followed by a no-break space is not reported either. *)
Theorem evaluate_differences_modified :
  (forall remote local a old new,
     In (Modified a old new) (evaluate_differences remote local) <->
     exists r l,
       In r remote /\ In l local /\ attribute r = a /\ attribute l = a /\
       value r = old /\ value l = new /\ value_modified (value l) (value r) = true) /\
  (forall local_value dme_value,
     value_modified local_value dme_value = false <->
     local_value = dme_value \/
     exists x y, PyFloat.float local_value = Some x /\
                 PyFloat.float dme_value = Some y /\ SFeqb x y = true) /\
  evaluate_differences [Scenario.entry "x" "3"] [Scenario.entry "x" "3.0"]
  = [Counts 0 0 1] /\
  evaluate_differences [Scenario.entry "x" "3"] [Scenario.entry "x" "3a"]
  = [Counts 0 0 1; Modified "x" "3" "3a"] /\
  PyFloat.float "3" = Some (S754_finite false 6755399441055744 (-51)) /\
  PyFloat.float "3.0" = Some (S754_finite false 6755399441055744 (-51)) /\
  PyFloat.float "3a" = None /\
  PyFloat.float Cases.three_nbsp = Some (S754_finite false 6755399441055744 (-51)) /\
  PyFloat.float Cases.arabic_three = Some (S754_finite false 6755399441055744 (-51)) /\
  evaluate_differences [Scenario.entry "x" "3"] [Scenario.entry "x" Cases.three_nbsp]
  = [Counts 0 0 1].
Proof.
  split; [exact modified_line_spec|].
  split; [exact value_modified_false|].
  repeat (split; [vm_compute; reflexivity|]). vm_compute; reflexivity.
Qed.

Section DifferSame.

Lemma filter_none {A : Type} (f : A -> bool) (l : list A) :
  (forall x, In x l -> f x = false) -> filter f l = [].
Proof.
  induction l as [|x l IH]; intros H; [reflexivity|].
  cbn [filter]. rewrite (H x (or_introl eq_refl)).
  apply IH. intros y Hy. apply H. now right.
Qed.

Lemma flat_map_none {A B : Type} (f : A -> list B) (l : list A) :
  (forall x, In x l -> f x = []) -> flat_map f l = [].
Proof.
  induction l as [|x l IH]; intros H; [reflexivity|].
  cbn [flat_map]. rewrite (H x (or_introl eq_refl)).
  apply IH. intros y Hy. apply H. now right.
Qed.

Lemma flat_map_singletons {A B : Type} (f : A -> list B) (g : A -> B) (l : list A) :
  (forall x, In x l -> f x = [g x]) -> flat_map f l = map g l.
Proof.
  induction l as [|x l IH]; intros H; [reflexivity|].
  cbn [flat_map map]. rewrite (H x (or_introl eq_refl)). cbn [app]. f_equal.
  apply IH. intros y Hy. apply H. now right.
Qed.

Lemma names_only_in_same (D : list MetadataEntry) : names_only_in D D = [].
Proof.
  unfold names_only_in. rewrite filter_none; [reflexivity|].
  intros x Hx.
  assert (H : existsb (same_name x) D = true).
  { apply existsb_same_name. now apply in_map. }
  now rewrite H.
Qed.

Lemma unique_name_inj (D : list MetadataEntry) (x y : MetadataEntry) :
  NoDup (map attribute D) -> In x D -> In y D -> attribute x = attribute y -> x = y.
Proof.
  induction D as [|d D IH]; intros Hnd Hx Hy E; [destruct Hx|].
  cbn [map] in Hnd. inversion Hnd as [|? ? Hnot Hnd']; subst.
  destruct Hx as [<-|Hx], Hy as [<-|Hy]; auto.
  - exfalso. apply Hnot. rewrite E. now apply in_map.
  - exfalso. apply Hnot. rewrite <- E. now apply in_map.
Qed.

Lemma filter_same_name_unique (D : list MetadataEntry) (r : MetadataEntry) :
  NoDup (map attribute D) -> In r D -> filter (same_name r) D = [r].
Proof.
  induction D as [|d D IH]; intros Hnd Hr; [destruct Hr|].
  cbn [map] in Hnd. inversion Hnd as [|? ? Hnot Hnd']; subst.
  cbn [filter]. destruct Hr as [<-|Hr].
  - unfold same_name at 1. rewrite String.eqb_refl. f_equal.
    apply filter_none. intros y Hy. unfold same_name.
    apply String.eqb_neq. intros E. apply Hnot. rewrite E. now apply in_map.
  - assert (N : same_name r d = false).
    { unfold same_name. apply String.eqb_neq. intros E. apply Hnot.
      rewrite <- E. now apply in_map. }
    rewrite N. now apply IH.
Qed.

Lemma both_same (D : list MetadataEntry) :
  NoDup (map attribute D) ->
  map (fun p => attribute (fst p)) (matching_pairs D D) = map attribute D.
Proof.
  intros Hnd. rewrite matching_pairs_names.
  apply flat_map_singletons. intros r Hr.
  now rewrite (filter_same_name_unique D r Hnd Hr).
Qed.

Lemma evaluate_differences_same (D : list MetadataEntry) :
  NoDup (map attribute D) ->
  evaluate_differences D D = [Counts 0 0 (List.length D)].
Proof.
  intros Hnd. unfold evaluate_differences.
  rewrite get_different_fields_eq, names_only_in_same, (both_same D Hnd).
  cbn [List.length flat_map app]. rewrite length_map. f_equal.
  apply flat_map_none. intros att _.
  apply flat_map_none. intros l Hl.
  destruct (String.eqb_spec att (attribute l)) as [El|]; cbn [negb]; [|reflexivity].
  apply flat_map_none. intros r Hr.
  destruct (String.eqb_spec att (attribute r)) as [Er|]; cbn [negb]; [|reflexivity].
  assert (E : l = r) by (apply (unique_name_inj D); congruence).
  subst r. now rewrite value_modified_same.
Qed.

End DifferSame.

(** C4, as amended.  For every document [D], the differ applied to [D] and
    [D] gives an empty [only_remote], an empty [only_local], and a [both]
    holding the attribute names of [D]; when no attribute name occurs twice
    in [D], [both] is the list of the names of [D] and no change is
    reported. *)
Theorem diff_same_document (D : list MetadataEntry) :
  get_different_fields D D
  = ([], [], map (fun p => attribute (fst p)) (matching_pairs D D)) /\
  (forall a, In a (map (fun p => attribute (fst p)) (matching_pairs D D)) <->
             In a (map attribute D)) /\
  (NoDup (map attribute D) ->
   get_different_fields D D = ([], [], map attribute D) /\
   changed D D = [] /\
   evaluate_differences D D = [Counts 0 0 (List.length D)]).
Proof.
  split; [now rewrite get_different_fields_eq, names_only_in_same|].
  split; [intros a; rewrite in_both_spec; tauto|].
  intros Hnd.
  split; [now rewrite get_different_fields_eq, names_only_in_same, both_same|].
  unfold changed. rewrite (evaluate_differences_same D Hnd). split; reflexivity.
Qed.

Lemma diff_same_document_witness :
  get_different_fields (metadataEntries Scenario.pi_local) (metadataEntries Scenario.pi_local)
  = ([], [], ["collection_type"; "pi_name"; "lab_size"]) /\
  changed (metadataEntries Scenario.pi_local) (metadataEntries Scenario.pi_local) = [] /\
  evaluate_differences (metadataEntries Scenario.pi_local)
                       (metadataEntries Scenario.pi_local)
  = [Counts 0 0 3].
Proof.
  apply (diff_same_document (metadataEntries Scenario.pi_local)).
  cbn. repeat constructor; cbn; intuition discriminate.
Defined.

(** C4, as stated, fails: a document in which a name occurs twice with two
    values is reported as changed against itself. *)
Lemma diff_same_document_repeated_name :
  changed [Scenario.entry "x" "1"; Scenario.entry "x" "2"]
          [Scenario.entry "x" "1"; Scenario.entry "x" "2"]
  <> [].
Proof. vm_compute. discriminate. Qed.

(** ** The effect monad *)

Section MonadFacts.

Context {A B : Type}.

Lemma bind_Ret (m : M A) (k : A -> M B) (tr : list event) (a : A) :
  m = (tr, Ret a) -> bind m k = ((tr ++ fst (k a))%list, snd (k a)).
Proof. intros ->. cbn. now destruct (k a). Qed.

Lemma bind_Exit (m : M A) (k : A -> M B) (tr : list event) (code : Z) :
  m = (tr, Exit code) -> bind m k = (tr, Exit code).
Proof. now intros ->. Qed.

Lemma bind_Raise (m : M A) (k : A -> M B) (tr : list event) (e : exn) :
  m = (tr, Raise e) -> bind m k = (tr, Raise e).
Proof. now intros ->. Qed.

(** A computation that returns went through both halves of a [bind]. *)
Lemma bind_inv_Ret (m : M A) (k : A -> M B) (tr : list event) (b : B) :
  bind m k = (tr, Ret b) ->
  exists tr1 a tr2, m = (tr1, Ret a) /\ k a = (tr2, Ret b) /\ tr = (tr1 ++ tr2)%list.
Proof.
  destruct m as [tr1 [a | code | e]]; cbn; intros H; try discriminate H.
  destruct (k a) as [tr2 o] eqn:E. injection H as <- ->.
  exists tr1, a, tr2. auto.
Qed.

Lemma trace_all_bind (P : event -> Prop) (m : M A) (k : A -> M B) :
  trace_all P m ->
  (forall tr a, m = (tr, Ret a) -> trace_all P (k a)) ->
  trace_all P (bind m k).
Proof.
  unfold trace_all. destruct m as [tr [a | code | e]]; cbn; intros Hm Hk; auto.
  specialize (Hk tr a eq_refl). destruct (k a) as [tr2 o]; cbn in *.
  apply Forall_app. auto.
Qed.

End MonadFacts.

Section TraceFacts.

Variable P : event -> Prop.
Hypothesis stdout_allowed : forall text, P (Stdout text).
Hypothesis stderr_allowed : forall text, P (Stderr text).

Lemma trace_all_ret {A : Type} (a : A) : trace_all P (ret a).
Proof. constructor. Qed.

Lemma trace_all_print (text : string) : trace_all P (print text).
Proof. repeat constructor. apply stdout_allowed. Qed.

Lemma trace_all_eprint (text : string) : trace_all P (eprint text).
Proof. repeat constructor. apply stderr_allowed. Qed.

Lemma trace_all_sys_exit {A : Type} (code : Z) : trace_all P (@sys_exit A code).
Proof. constructor. Qed.

Lemma trace_all_raise {A : Type} (e : exn) : trace_all P (@raise A e).
Proof. constructor. Qed.

Lemma trace_all_index {A : Type} (l : list A) (i : nat) : trace_all P (index l i).
Proof. unfold index. destruct (nth_error l i); constructor. Qed.

Lemma trace_all_for_each {A : Type} (l : list A) (body : A -> M unit) :
  (forall x, In x l -> trace_all P (body x)) -> trace_all P (for_each l body).
Proof.
  induction l as [|x l IH]; intros H; cbn [for_each].
  - apply trace_all_ret.
  - apply trace_all_bind; [apply H; now left|].
    intros _ _ _. apply IH. intros y Hy. apply H. now right.
Qed.

Lemma trace_all_mapM {A B : Type} (f : A -> M B) (l : list A) :
  (forall x, trace_all P (f x)) -> trace_all P (mapM f l).
Proof.
  intros H. induction l as [|x l IH]; cbn [mapM].
  - apply trace_all_ret.
  - apply trace_all_bind; [apply H|]. intros _ y _.
    apply trace_all_bind; [apply IH|]. intros _ ys _. apply trace_all_ret.
Qed.

Lemma trace_all_os_listdir (fs : FileSystem) (path : string) :
  trace_all P (os_listdir fs path).
Proof. unfold os_listdir. destruct (listdir fs path); constructor. Qed.

Lemma trace_all_json2dict (fs : FileSystem) (file : string) :
  trace_all P (json2dict fs file).
Proof.
  unfold json2dict, file_exists.
  destruct (read fs file); cbn; repeat constructor. apply stderr_allowed.
Qed.

Lemma trace_all_objects (fs : FileSystem) (path : string) :
  trace_all P (get_sample_objects fs path).
Proof.
  unfold get_sample_objects.
  apply trace_all_bind; [apply trace_all_os_listdir|]. intros _ files _.
  apply trace_all_bind; [|intros; apply trace_all_ret].
  apply trace_all_mapM. intros f. apply trace_all_json2dict.
Qed.

Lemma trace_all_level (fs : FileSystem) (marker what path : string) :
  trace_all P
    (files <- os_listdir fs path ;;
     match filter (is_level_file marker) files with
     | [f0] =>
         let directory := path ++ "/" ++ PyStr.split_head "." f0 in
         meta <- json2dict fs (path ++ "/" ++ f0) ;;
         ret (meta, directory)
     | _ => eprint (not_unique what path) ;; sys_exit 1
     end).
Proof.
  apply trace_all_bind; [apply trace_all_os_listdir|]. intros _ files _.
  destruct (filter (is_level_file marker) files) as [|f0 [|f1 l]].
  - repeat constructor. apply stderr_allowed.
  - apply trace_all_bind; [apply trace_all_json2dict|]. intros; apply trace_all_ret.
  - repeat constructor. apply stderr_allowed.
Qed.

Lemma trace_all_get_analysis (fs : FileSystem) (path : string) :
  trace_all P (get_analysis fs path).
Proof.
  unfold get_analysis.
  apply trace_all_bind; [apply trace_all_os_listdir|]. intros _ files _.
  destruct (filter (is_level_file "Primary_Analysis_") files) as [|f0 [|f1 l]].
  - repeat constructor. apply stderr_allowed.
  - apply trace_all_bind; [apply trace_all_json2dict|]. intros _ meta _.
    apply trace_all_bind; [apply trace_all_objects|]. intros _ [objects objects_dir] _.
    apply trace_all_ret.
  - repeat constructor. apply stderr_allowed.
Qed.

Lemma trace_all_get_samples (fs : FileSystem) (path : string) :
  trace_all P (get_samples fs path).
Proof.
  unfold get_samples.
  apply trace_all_bind; [apply trace_all_os_listdir|]. intros _ files _.
  apply trace_all_bind; [apply trace_all_mapM; intros; apply trace_all_json2dict|].
  intros _ metas _.
  apply trace_all_bind; [apply trace_all_mapM; intros; apply trace_all_objects|].
  intros; apply trace_all_ret.
Qed.

Lemma trace_all_args (argv : list string) : trace_all P (args argv).
Proof.
  unfold args. destruct (_ || _); [repeat constructor; apply stdout_allowed|].
  destruct (negb _); [|constructor].
  repeat constructor; [apply stderr_allowed | apply stdout_allowed].
Qed.

Lemma trace_all_validate_args (fs : FileSystem) (user_inputs : list string) :
  trace_all P (validate_args fs user_inputs).
Proof.
  unfold validate_args, path_exists.
  destruct user_inputs as [|ipath [|vault [|x l]]]; try constructor.
  destruct (mem _ _); [|constructor].
  destruct (isdir fs ipath); cbn; repeat constructor. apply stderr_allowed.
Qed.

End TraceFacts.

(** ** Reconciliation driver: where the requests go *)

Section DriverTrace.

Variables (session : DMESession) (ipath vault : string).

Let P : event -> Prop := lookup_under ipath vault.

Lemma lookup_under_stdout : forall text, P (Stdout text).
Proof. intros text. exact I. Qed.

Lemma lookup_under_stderr : forall text, P (Stderr text).
Proof. intros text. exact I. Qed.

Lemma no_lookup_under (e : event) : no_lookup e -> P e.
Proof. destruct e; cbn; tauto. Qed.

Lemma trace_all_check (d : string) (meta : MetadataDocument) (level : string)
      (is_collection : bool) :
  trace_all P
    (evaluate_metadata_differences session (get_dme_directory d ipath vault)
       meta level is_collection).
Proof.
  unfold evaluate_metadata_differences.
  apply trace_all_bind.
  - repeat constructor. cbn. now exists d.
  - intros _ [meta_dme|] _.
    + apply trace_all_bind; [apply trace_all_eprint, lookup_under_stderr|]. intros _ _ _.
      apply trace_all_bind; [|intros; apply trace_all_ret].
      apply trace_all_for_each.
      intros l _. apply trace_all_print, lookup_under_stdout.
    + apply trace_all_bind; [apply trace_all_print, lookup_under_stdout|]. intros; apply trace_all_ret.
Qed.

Lemma trace_all_evaluate_levels
      (pi proj : MetadataDocument * string)
      (analysis : MetadataDocument * string * list MetadataDocument * list string)
      (samples : list MetadataDocument * list string *
                 list (list MetadataDocument) * list (list string)) :
  trace_all P (evaluate_levels session ipath vault pi proj analysis samples).
Proof.
  destruct pi as [pi_meta pi_dir], proj as [proj_meta proj_dir],
           analysis as [[[analysis_meta analysis_dir] analysis_objs] analysis_objs_dir],
           samples as [[[samples_meta samples_dir] sample_objs] sample_objs_dir].
  unfold evaluate_levels.
  cbv iota beta zeta. cbn [config_important].
  apply trace_all_bind; [apply trace_all_print, lookup_under_stdout|]. intros _ _ _.
  apply trace_all_bind; [apply trace_all_check|]. intros _ [|] _;
    [|apply trace_all_ret].
  apply trace_all_bind; [apply trace_all_print, lookup_under_stdout|]. intros _ _ _.
  apply trace_all_bind; [apply trace_all_check|]. intros _ [|] _;
    [|apply trace_all_ret].
  apply trace_all_bind; [apply trace_all_print, lookup_under_stdout|]. intros _ _ _.
  apply trace_all_bind; [apply trace_all_check|]. intros _ analysis_exists _.
  apply trace_all_bind.
  { destruct analysis_exists; [|apply trace_all_ret].
    apply trace_all_for_each. intros i _.
    apply trace_all_bind; [apply trace_all_index|]. intros _ d _.
    apply trace_all_bind; [apply trace_all_print, lookup_under_stdout|]. intros _ _ _.
    apply trace_all_bind; [apply trace_all_index|]. intros _ o _.
    apply trace_all_bind; [apply trace_all_check|]. intros; apply trace_all_ret. }
  intros _ _ _.
  apply trace_all_for_each. intros i _.
  apply trace_all_bind; [apply trace_all_index|]. intros _ d _.
  apply trace_all_bind; [apply trace_all_print, lookup_under_stdout|]. intros _ _ _.
  apply trace_all_bind; [apply trace_all_index|]. intros _ m _.
  apply trace_all_bind; [apply trace_all_check|]. intros _ [|] _;
    [|apply trace_all_ret].
  apply trace_all_bind; [apply trace_all_index|]. intros _ objs _.
  apply trace_all_for_each. intros j _.
  apply trace_all_bind; [apply trace_all_index|]. intros _ ds _.
  apply trace_all_bind; [apply trace_all_index|]. intros _ d' _.
  apply trace_all_bind; [apply trace_all_print, lookup_under_stdout|]. intros _ _ _.
  apply trace_all_bind; [apply trace_all_index|]. intros _ os _.
  apply trace_all_bind; [apply trace_all_index|]. intros _ o _.
  apply trace_all_bind; [apply trace_all_check|]. intros; apply trace_all_ret.
Qed.

End DriverTrace.

(** ** Argument validation *)

Section Validation.

Lemma replace_slash_cons (c : ascii) (s : string) :
  PyStr.replace "/" "" (String c s) =
  if Ascii.eqb c "/" then PyStr.replace "/" "" s
  else String c (PyStr.replace "/" "" s).
Proof.
  unfold PyStr.replace. rewrite replace_from_scan, startswith_slash_cons.
  destruct (Ascii.eqb c "/"); reflexivity.
Qed.

Lemma contains_slash_cons (c : ascii) (s : string) :
  PyStr.contains "/" (String c s) = Ascii.eqb c "/" || PyStr.contains "/" s.
Proof. now rewrite contains_cons, startswith_slash_cons. Qed.

(** [vault.replace("/", "")] leaves no separator. *)
Lemma replace_slash_no_slash (s : string) :
  PyStr.contains "/" (PyStr.replace "/" "" s) = false.
Proof.
  induction s as [|c s IH]; [reflexivity|].
  rewrite replace_slash_cons.
  destruct (Ascii.eqb c "/") eqn:E; [exact IH|].
  now rewrite contains_slash_cons, E, IH.
Qed.

Lemma replace_slash_fixed (s : string) :
  PyStr.contains "/" s = false -> PyStr.replace "/" "" s = s.
Proof.
  induction s as [|c s IH]; [reflexivity|].
  rewrite contains_slash_cons, replace_slash_cons. intros H.
  apply orb_false_iff in H as [-> H]. now rewrite IH.
Qed.

Lemma replace_slash_idem (s : string) :
  PyStr.replace "/" "" (PyStr.replace "/" "" s) = PyStr.replace "/" "" s.
Proof. apply replace_slash_fixed, replace_slash_no_slash. Qed.

Lemma validate_args_stripped (fs : FileSystem) (ipath vault : string) :
  validate_args fs [ipath; vault] = validate_args fs [ipath; PyStr.replace "/" "" vault].
Proof. unfold validate_args. now rewrite replace_slash_idem. Qed.

Lemma validate_args_Ret (fs : FileSystem) (ipath vault : string)
      (tr : list event) (r : string * string) :
  validate_args fs [ipath; vault] = (tr, Ret r) ->
  r = (ipath, PyStr.replace "/" "" vault).
Proof.
  unfold validate_args, path_exists.
  destruct (mem _ _); [|intros H; discriminate H].
  destruct (isdir fs ipath); cbn; intros H; [|discriminate H].
  now injection H as _ <-.
Qed.

Lemma args_Ret (argv : list string) (tr : list event) (user_args : list string) :
  args argv = (tr, Ret user_args) -> user_args = tl argv.
Proof.
  unfold args. destruct (_ || _); [intros H; discriminate H|].
  destruct (negb _); cbn; intros H; [discriminate H|].
  now injection H as _ <-.
Qed.

(** A vault whose stripped form is accepted is not a help flag. *)
Lemma accepted_vault_no_flag (flag v : string) :
  mem v config_vaults = true -> mem flag config_vaults = false ->
  String.eqb flag v = false.
Proof.
  intros Hv Hf. destruct (String.eqb_spec flag v) as [->|]; [congruence | reflexivity].
Qed.

Lemma main_stripped (fs : FileSystem) (connect : M DMESession)
      (prog ipath vault : string) :
  mem (PyStr.replace "/" "" vault) config_vaults = true ->
  main fs connect [prog; ipath; vault]
  = main fs connect [prog; ipath; PyStr.replace "/" "" vault].
Proof.
  intros H. unfold main. f_equal.
  assert (Hflag : forall flag, mem flag config_vaults = false ->
                  PyStr.replace "/" "" flag = flag ->
                  String.eqb flag vault = false).
  { intros flag Hf Hr. destruct (String.eqb_spec flag vault) as [<-|]; [|reflexivity].
    rewrite Hr in H. congruence. }
  unfold args. cbn [tl mem existsb List.length Nat.eqb negb].
  rewrite (Hflag "-h" eq_refl eq_refl), (Hflag "--help" eq_refl eq_refl).
  rewrite (accepted_vault_no_flag "-h" _ H eq_refl).
  rewrite (accepted_vault_no_flag "--help" _ H eq_refl).
  destruct (_ || _); [reflexivity|].
  cbn [bind ret app]. now rewrite validate_args_stripped.
Qed.

Lemma main_lookups (fs : FileSystem) (connect : M DMESession)
      (prog ipath vault : string) :
  trace_all no_lookup connect ->
  trace_all (lookup_under ipath (PyStr.replace "/" "" vault))
            (main fs connect [prog; ipath; vault]).
Proof.
  intros Hc. set (v := PyStr.replace "/" "" vault).
  pose proof (lookup_under_stdout ipath v) as Po. pose proof (lookup_under_stderr ipath v) as Pe.
  unfold main.
  apply trace_all_bind; [apply trace_all_print, Po|]. intros _ _ _.
  apply trace_all_bind; [apply trace_all_args; assumption|]. intros tr1 ua Hua.
  apply args_Ret in Hua. cbn [tl] in Hua. subst ua.
  apply trace_all_bind; [apply trace_all_validate_args; assumption|].
  intros tr2 r Hr. apply validate_args_Ret in Hr. subst r. fold v.
  apply trace_all_bind; [apply (trace_all_level _ Pe)|]. intros _ [pi_meta pi_dir] _.
  apply trace_all_bind; [apply (trace_all_level _ Pe)|]. intros _ [proj_meta proj_dir] _.
  apply trace_all_bind; [apply trace_all_get_analysis; assumption|]. intros _ analysis _.
  apply trace_all_bind; [apply trace_all_get_samples; assumption|]. intros _ samples _.
  apply trace_all_bind.
  { unfold trace_all in *. eapply Forall_impl; [|exact Hc]. apply no_lookup_under. }
  intros _ dme_session _.
  apply trace_all_bind; [apply trace_all_print, Po|]. intros _ _ _.
  apply trace_all_evaluate_levels.
Qed.

End Validation.

(** C10.  [validate_args] removes every separator from the vault argument
    before the membership test.  When the stripped name is in the allow-list
    the vault is accepted (the call goes on to test the input directory and
    returns the directory and the stripped name), the run is the run of
    the stripped name, and every request of the run goes to a path built
    from the stripped name.  The vault is rejected, by a failed assertion,
    exactly when the stripped name is outside the allow-list. *)
Theorem validate_args_vault (fs : FileSystem) (ipath vault : string) :
  PyStr.contains "/" (PyStr.replace "/" "" vault) = false /\
  (mem (PyStr.replace "/" "" vault) config_vaults = true ->
   validate_args fs [ipath; vault]
   = (path_exists fs ipath ;; ret (ipath, PyStr.replace "/" "" vault)) /\
   (isdir fs ipath = true ->
    validate_args fs [ipath; vault] = ([], Ret (ipath, PyStr.replace "/" "" vault))) /\
   (forall connect prog,
      main fs connect [prog; ipath; vault]
      = main fs connect [prog; ipath; PyStr.replace "/" "" vault])) /\
  (forall connect prog,
     trace_all no_lookup connect ->
     trace_all (lookup_under ipath (PyStr.replace "/" "" vault))
               (main fs connect [prog; ipath; vault])) /\
  (mem (PyStr.replace "/" "" vault) config_vaults = false <->
   exists msg, validate_args fs [ipath; vault] = ([], Raise (AssertionError msg))) /\
  validate_args Scenario.fs ["/scratch/DME"; "CCBR_Archive/"]
  = ([], Ret ("/scratch/DME", "CCBR_Archive")) /\
  validate_args Scenario.fs ["/scratch/DME"; "/CCBR_Archive"]
  = ([], Ret ("/scratch/DME", "CCBR_Archive")).
Proof.
  split; [apply replace_slash_no_slash|].
  split.
  { intros H. split; [|split].
    - unfold validate_args. now rewrite H.
    - intros Hd. unfold validate_args, path_exists. now rewrite H, Hd.
    - intros connect prog. now apply main_stripped. }
  split; [intros connect prog; apply main_lookups|].
  split; [|split; reflexivity].
  unfold validate_args, path_exists.
  destruct (mem _ _); split.
  - intros H; discriminate H.
  - intros [msg H]. destruct (isdir fs ipath); cbn in H; discriminate H.
  - intros _. eexists. reflexivity.
  - reflexivity.
Qed.

Lemma validate_args_vault_witness :
  validate_args Scenario.fs ["/scratch/DME"; "/CCBR_Archive/"]
  = ([], Ret ("/scratch/DME", "CCBR_Archive")) /\
  main Scenario.fs (ret Scenario.session) ["validate.py"; "/scratch/DME"; "/CCBR_Archive/"]
  = main Scenario.fs (ret Scenario.session) ["validate.py"; "/scratch/DME"; "CCBR_Archive"] /\
  trace_all (lookup_under "/scratch/DME" "CCBR_Archive")
    (main Scenario.fs (ret Scenario.session) ["validate.py"; "/scratch/DME"; "/CCBR_Archive/"]).
Proof.
  destruct (validate_args_vault Scenario.fs "/scratch/DME" "/CCBR_Archive/")
    as [_ [H [Hl _]]].
  destruct (H eq_refl) as [_ [Hv Hm]].
  split; [apply Hv; reflexivity|].
  split; [apply (Hm (ret Scenario.session) "validate.py")|].
  apply (Hl (ret Scenario.session) "validate.py"). constructor.
Defined.

(** ** Hierarchy walker *)

Section Walker.

Variable fs : FileSystem.

Lemma json2dict_Json (file : string) (d : MetadataDocument) :
  read fs file = Json d -> json2dict fs file = ([], Ret d).
Proof. intros H. unfold json2dict, file_exists. now rewrite H. Qed.

Lemma mapM_Ret {A B : Type} (f : A -> M B) (g : A -> B) (l : list A) :
  (forall x, In x l -> f x = ([], Ret (g x))) -> mapM f l = ([], Ret (map g l)).
Proof.
  induction l as [|x l IH]; intros H; [reflexivity|].
  cbn [mapM map]. rewrite (H x (or_introl eq_refl)).
  rewrite IH; [reflexivity|]. intros y Hy. apply H. now right.
Qed.

Lemma mapM_inv {A B : Type} (f : A -> M B) (l : list A) (tr : list event) (ys : list B) :
  mapM f l = (tr, Ret ys) ->
  Forall2 (fun x y => exists tr', f x = (tr', Ret y)) l ys.
Proof.
  revert tr ys. induction l as [|x l IH]; intros tr ys H; cbn [mapM] in H.
  - injection H as _ <-. constructor.
  - apply bind_inv_Ret in H as [tr1 [y [tr2 [Hy [H _]]]]].
    apply bind_inv_Ret in H as [tr3 [ys' [tr4 [Hys [H _]]]]].
    injection H as _ <-. constructor; [now exists tr1 | now apply (IH tr3)].
Qed.

Lemma os_listdir_Some (path : string) (files : list string) :
  listdir fs path = Some files -> os_listdir fs path = ([], Ret files).
Proof. intros H. unfold os_listdir. now rewrite H. Qed.

Lemma os_listdir_inv (path : string) (tr : list event) (files : list string) :
  os_listdir fs path = (tr, Ret files) -> listdir fs path = Some files.
Proof.
  unfold os_listdir. destruct (listdir fs path); intros H; [|discriminate H].
  now injection H as _ <-.
Qed.

(** The two object scans are the same code. *)
Lemma get_analysis_objects_eq (path : string) :
  get_analysis_objects fs path = get_sample_objects fs path.
Proof. reflexivity. Qed.

Lemma get_sample_objects_Ret (path : string) (files : list string)
      (content : string -> MetadataDocument) :
  listdir fs path = Some files ->
  (forall f, In f (filter (PyStr.contains ".metadata.json") files) ->
             read fs (path ++ "/" ++ f) = Json (content f)) ->
  get_sample_objects fs path
  = ([], Ret (map content (filter (PyStr.contains ".metadata.json") files),
              map (object_directory path)
                  (filter (PyStr.contains ".metadata.json") files))).
Proof.
  intros Hls Hread. unfold get_sample_objects.
  rewrite (os_listdir_Some _ _ Hls). cbn [bind ret app].
  rewrite (mapM_Ret _ content); [reflexivity|].
  intros f Hf. now apply json2dict_Json, Hread.
Qed.

Lemma get_sample_objects_inv (path : string) (tr : list event)
      (metas : list MetadataDocument) (dirs : list string) :
  get_sample_objects fs path = (tr, Ret (metas, dirs)) ->
  exists files,
    listdir fs path = Some files /\
    dirs = map (object_directory path) (filter (PyStr.contains ".metadata.json") files) /\
    List.length metas = List.length dirs.
Proof.
  unfold get_sample_objects. intros H.
  apply bind_inv_Ret in H as [tr1 [files [tr2 [Hls [H _]]]]].
  apply bind_inv_Ret in H as [tr3 [ms [tr4 [Hms [H _]]]]].
  injection H as _ <- <-.
  exists files. split; [now apply os_listdir_inv in Hls|]. split; [reflexivity|].
  apply mapM_inv, Forall2_length in Hms. now rewrite length_map, Hms.
Qed.

Lemma get_samples_inv (path : string) (tr : list event)
      (metas : list MetadataDocument) (dirs : list string)
      (objects : list (list MetadataDocument)) (objects_dir : list (list string)) :
  get_samples fs path = (tr, Ret (metas, dirs, objects, objects_dir)) ->
  exists files objs,
    listdir fs path = Some files /\
    dirs = map (level_directory path) (filter (is_level_file "Sample_") files) /\
    List.length metas = List.length dirs /\
    objects = map fst objs /\ objects_dir = map snd objs /\
    Forall2 (fun d o => exists tr', get_sample_objects fs d = (tr', Ret o)) dirs objs.
Proof.
  unfold get_samples. intros H.
  apply bind_inv_Ret in H as [tr1 [files [tr2 [Hls [H _]]]]].
  apply bind_inv_Ret in H as [tr3 [ms [tr4 [Hms [H _]]]]].
  apply bind_inv_Ret in H as [tr5 [objs [tr6 [Hobjs [H _]]]]].
  injection H as _ <- <- <- <-.
  exists files, objs. split; [now apply os_listdir_inv in Hls|].
  split; [reflexivity|].
  split; [apply mapM_inv, Forall2_length in Hms; now rewrite length_map, Hms|].
  split; [reflexivity|]. split; [reflexivity|].
  now apply mapM_inv in Hobjs.
Qed.

Lemma get_analysis_inv (path : string) (tr : list event)
      (meta : MetadataDocument) (dir : string)
      (objects : list MetadataDocument) (objects_dir : list string) :
  get_analysis fs path = (tr, Ret (meta, dir, objects, objects_dir)) ->
  exists tr', get_analysis_objects fs dir = (tr', Ret (objects, objects_dir)).
Proof.
  unfold get_analysis. intros H.
  apply bind_inv_Ret in H as [tr1 [files [tr2 [Hls [H _]]]]].
  destruct (filter (is_level_file "Primary_Analysis_") files) as [|f0 [|f1 l]];
    try discriminate H.
  apply bind_inv_Ret in H as [tr3 [m [tr4 [Hm [H _]]]]].
  apply bind_inv_Ret in H as [tr5 [[os ods] [tr6 [Hos [H _]]]]].
  injection H as _ <- <- <- <-. now exists tr5.
Qed.

(** A level scan that does not find exactly one sidecar. *)
Lemma level_not_unique (marker what path : string) (files : list string) :
  listdir fs path = Some files ->
  List.length (filter (is_level_file marker) files) <> 1 ->
  (files <- os_listdir fs path ;;
   match filter (is_level_file marker) files with
   | [f0] =>
       let directory := path ++ "/" ++ PyStr.split_head "." f0 in
       meta <- json2dict fs (path ++ "/" ++ f0) ;;
       ret (meta, directory)
   | _ => eprint (not_unique what path) ;; sys_exit 1
   end)
  = ([Stderr (not_unique what path)], Exit 1).
Proof.
  intros Hls Hn. rewrite (os_listdir_Some _ _ Hls). cbn [bind ret app].
  destruct (filter (is_level_file marker) files) as [|f0 [|f1 l]];
    [reflexivity | now contradiction Hn | reflexivity].
Qed.

Lemma get_analysis_not_unique (path : string) (files : list string) :
  listdir fs path = Some files ->
  List.length (filter (is_level_file "Primary_Analysis_") files) <> 1 ->
  get_analysis fs path = ([Stderr (not_unique "Project" path)], Exit 1).
Proof.
  intros Hls Hn. unfold get_analysis. rewrite (os_listdir_Some _ _ Hls). cbn [bind ret app].
  destruct (filter (is_level_file "Primary_Analysis_") files) as [|f0 [|f1 l]];
    [reflexivity | now contradiction Hn | reflexivity].
Qed.

Lemma get_samples_Ret (path : string) (files : list string)
      (content : string -> MetadataDocument)
      (objs : string -> list MetadataDocument * list string) :
  listdir fs path = Some files ->
  (forall f, In f (filter (is_level_file "Sample_") files) ->
             read fs (path ++ "/" ++ f) = Json (content f)) ->
  (forall f, In f (filter (is_level_file "Sample_") files) ->
             get_sample_objects fs (level_directory path f)
             = ([], Ret (objs (level_directory path f)))) ->
  get_samples fs path
  = ([], Ret (map content (filter (is_level_file "Sample_") files),
              map (level_directory path) (filter (is_level_file "Sample_") files),
              map fst (map objs (map (level_directory path)
                                     (filter (is_level_file "Sample_") files))),
              map snd (map objs (map (level_directory path)
                                     (filter (is_level_file "Sample_") files))))).
Proof.
  intros Hls Hread Hobjs. unfold get_samples.
  rewrite (os_listdir_Some _ _ Hls). cbn [bind ret app].
  rewrite (mapM_Ret _ content) by (intros f Hf; now apply json2dict_Json, Hread).
  cbn [bind ret app].
  rewrite (mapM_Ret _ objs); [reflexivity|].
  intros d Hd. apply in_map_iff in Hd as [f [<- Hf]]. now apply Hobjs.
Qed.

End Walker.

Section WalkerInMain.

Lemma snd_bind_Ret {A B : Type} (m : M A) (k : A -> M B) (tr : list event) (a : A) :
  m = (tr, Ret a) -> snd (bind m k) = snd (k a).
Proof. intros H. now rewrite (bind_Ret m k tr a H). Qed.

Lemma snd_bind_Exit {A B : Type} (m : M A) (k : A -> M B) (tr : list event) (code : Z) :
  m = (tr, Exit code) -> snd (bind m k) = Exit code.
Proof. now intros ->. Qed.

Lemma combine_fst_snd {A B : Type} (l : list (A * B)) :
  combine (map fst l) (map snd l) = l.
Proof. induction l as [|[a b] l IH]; cbn; [reflexivity | now rewrite IH]. Qed.

Variables (fs : FileSystem) (connect : M DMESession) (argv : list string).
Variables (tr0 tr1 : list event) (user_args : list string) (ipath vault : string).
Hypothesis Hargs : args argv = (tr0, Ret user_args).
Hypothesis Hvalid : validate_args fs user_args = (tr1, Ret (ipath, vault)).

(** An exit of the walker is the exit of the run. *)
Lemma main_exit_pi_lab (tr : list event) (code : Z) :
  get_pi_lab fs ipath = (tr, Exit code) -> snd (main fs connect argv) = Exit code.
Proof.
  intros H. unfold main.
  rewrite (snd_bind_Ret (print _) _ _ tt eq_refl).
  rewrite (snd_bind_Ret _ _ _ _ Hargs), (snd_bind_Ret _ _ _ _ Hvalid).
  now rewrite (snd_bind_Exit _ _ _ _ H).
Qed.

Lemma main_exit_project (tr tr' : list event) (pi_meta : MetadataDocument)
      (pi_dir : string) (code : Z) :
  get_pi_lab fs ipath = (tr, Ret (pi_meta, pi_dir)) ->
  get_project fs pi_dir = (tr', Exit code) ->
  snd (main fs connect argv) = Exit code.
Proof.
  intros H1 H2. unfold main.
  rewrite (snd_bind_Ret (print _) _ _ tt eq_refl).
  rewrite (snd_bind_Ret _ _ _ _ Hargs), (snd_bind_Ret _ _ _ _ Hvalid).
  rewrite (snd_bind_Ret _ _ _ _ H1).
  now rewrite (snd_bind_Exit _ _ _ _ H2).
Qed.

Lemma main_exit_analysis (tr tr' tr'' : list event) (pi_meta proj_meta : MetadataDocument)
      (pi_dir proj_dir : string) (code : Z) :
  get_pi_lab fs ipath = (tr, Ret (pi_meta, pi_dir)) ->
  get_project fs pi_dir = (tr', Ret (proj_meta, proj_dir)) ->
  get_analysis fs proj_dir = (tr'', Exit code) ->
  snd (main fs connect argv) = Exit code.
Proof.
  intros H1 H2 H3. unfold main.
  rewrite (snd_bind_Ret (print _) _ _ tt eq_refl).
  rewrite (snd_bind_Ret _ _ _ _ Hargs), (snd_bind_Ret _ _ _ _ Hvalid).
  rewrite (snd_bind_Ret _ _ _ _ H1), (snd_bind_Ret _ _ _ _ H2).
  now rewrite (snd_bind_Exit _ _ _ _ H3).
Qed.

End WalkerInMain.

(** C6, as amended.  In a scanned directory, when the files whose name
    holds the marker of the PI_LAB, PROJECT or PRIMARY_ANALYSIS level and
    holds [.metadata.json], anywhere in the name, are not exactly one (none,
    or more than one), the walker prints the uniqueness error and exits
    with status 1, and that exit is the exit of the run.  At the SAMPLE
    level there is no such test: whatever the number of matches, each
    match is loaded and all are returned, in the order of the listing. *)
Theorem walker_uniqueness :
  (forall fs path files,
     listdir fs path = Some files ->
     (List.length (filter (is_level_file "PI_Lab") files) <> 1 ->
      get_pi_lab fs path = ([Stderr (not_unique "PI_Lab" path)], Exit 1)) /\
     (List.length (filter (is_level_file "Project_") files) <> 1 ->
      get_project fs path = ([Stderr (not_unique "Project" path)], Exit 1)) /\
     (List.length (filter (is_level_file "Primary_Analysis_") files) <> 1 ->
      get_analysis fs path = ([Stderr (not_unique "Project" path)], Exit 1))) /\
  (forall fs connect argv tr0 tr1 user_args ipath vault,
     args argv = (tr0, Ret user_args) ->
     validate_args fs user_args = (tr1, Ret (ipath, vault)) ->
     (forall tr code,
        get_pi_lab fs ipath = (tr, Exit code) ->
        snd (main fs connect argv) = Exit code) /\
     (forall tr tr' pi_meta pi_dir code,
        get_pi_lab fs ipath = (tr, Ret (pi_meta, pi_dir)) ->
        get_project fs pi_dir = (tr', Exit code) ->
        snd (main fs connect argv) = Exit code) /\
     (forall tr tr' tr'' pi_meta pi_dir proj_meta proj_dir code,
        get_pi_lab fs ipath = (tr, Ret (pi_meta, pi_dir)) ->
        get_project fs pi_dir = (tr', Ret (proj_meta, proj_dir)) ->
        get_analysis fs proj_dir = (tr'', Exit code) ->
        snd (main fs connect argv) = Exit code)) /\
  (forall fs path files content objs,
     listdir fs path = Some files ->
     (forall f, In f (filter (is_level_file "Sample_") files) ->
                read fs (path ++ "/" ++ f) = Json (content f)) ->
     (forall f, In f (filter (is_level_file "Sample_") files) ->
                get_sample_objects fs (level_directory path f)
                = ([], Ret (objs (level_directory path f)))) ->
     get_samples fs path
     = ([], Ret (map content (filter (is_level_file "Sample_") files),
                 map (level_directory path) (filter (is_level_file "Sample_") files),
                 map fst (map objs (map (level_directory path)
                                        (filter (is_level_file "Sample_") files))),
                 map snd (map objs (map (level_directory path)
                                        (filter (is_level_file "Sample_") files)))))).
Proof.
  split; [|split].
  - intros fs path files Hls. repeat split; intros Hn.
    + now apply (level_not_unique fs "PI_Lab" "PI_Lab" path files).
    + now apply (level_not_unique fs "Project_" "Project" path files).
    + now apply (get_analysis_not_unique fs path files).
  - intros fs connect argv tr0 tr1 user_args ipath vault Hargs Hvalid.
    split; [|split]; intros.
    + eapply main_exit_pi_lab; eassumption.
    + eapply main_exit_project; eassumption.
    + eapply main_exit_analysis; eassumption.
  - intros. now apply get_samples_Ret.
Qed.

Lemma walker_uniqueness_witness :
  get_pi_lab Scenario.twins_fs "/twins"
  = ([Stderr (not_unique "PI_Lab" "/twins")], Exit 1) /\
  get_project Scenario.twins_fs "/twins"
  = ([Stderr (not_unique "Project" "/twins")], Exit 1) /\
  get_analysis Scenario.twins_fs "/twins"
  = ([Stderr (not_unique "Project" "/twins")], Exit 1) /\
  snd (main Scenario.twins_fs (ret Scenario.session)
            ["validate.py"; "/twins"; "CCBR_Archive"]) = Exit 1 /\
  get_samples Scenario.fs Scenario.proj_dir
  = ([], Ret ([Scenario.sample_local], [Scenario.sample_dir],
              [[Scenario.object_local "S1.fastq.gz"]],
              [[Scenario.sample_dir ++ "/S1.fastq.gz"]])).
Proof.
  destruct walker_uniqueness as [Hlevels [Hmain Hsamples]].
  destruct (Hlevels Scenario.twins_fs "/twins" _ eq_refl) as [Hpi [Hproj Han]].
  split; [apply Hpi; vm_compute; discriminate|].
  split; [apply Hproj; vm_compute; discriminate|].
  split; [apply Han; vm_compute; discriminate|].
  split.
  - destruct (Hmain Scenario.twins_fs (ret Scenario.session)
                ["validate.py"; "/twins"; "CCBR_Archive"]
                [] [] ["/twins"; "CCBR_Archive"] "/twins" "CCBR_Archive"
                eq_refl eq_refl) as [H _].
    apply (H [Stderr (not_unique "PI_Lab" "/twins")] 1%Z). reflexivity.
  - apply (Hsamples Scenario.fs Scenario.proj_dir _
             (fun _ => Scenario.sample_local)
             (fun _ => ([Scenario.object_local "S1.fastq.gz"],
                        [Scenario.sample_dir ++ "/S1.fastq.gz"]))
             eq_refl).
    + intros f Hf. vm_compute in Hf. destruct Hf as [<- | []]. reflexivity.
    + intros f Hf. vm_compute in Hf. destruct Hf as [<- | []]. reflexivity.
Defined.

(** C7, as amended.  The data objects collected for a node directory are
    all the files of its listing whose name contains [.metadata.json]
    (wherever it stands in the name, and whether or not the name also
    carries a level marker), each with the directory named by the text
    before the first [.metadata.json]; the analysis and each sample get the
    objects of their own directory. *)
Theorem data_objects_collected :
  (forall fs path files content,
     listdir fs path = Some files ->
     (forall f, In f (filter (PyStr.contains ".metadata.json") files) ->
                read fs (path ++ "/" ++ f) = Json (content f)) ->
     get_analysis_objects fs path
     = ([], Ret (map content (filter (PyStr.contains ".metadata.json") files),
                 map (object_directory path)
                     (filter (PyStr.contains ".metadata.json") files))) /\
     get_sample_objects fs path
     = ([], Ret (map content (filter (PyStr.contains ".metadata.json") files),
                 map (object_directory path)
                     (filter (PyStr.contains ".metadata.json") files)))) /\
  (forall fs path tr meta dir objects objects_dir,
     get_analysis fs path = (tr, Ret (meta, dir, objects, objects_dir)) ->
     exists tr', get_analysis_objects fs dir = (tr', Ret (objects, objects_dir))) /\
  (forall fs path tr metas dirs objects objects_dir,
     get_samples fs path = (tr, Ret (metas, dirs, objects, objects_dir)) ->
     Forall2 (fun d o => exists tr', get_sample_objects fs d = (tr', Ret o))
             dirs (combine objects objects_dir)).
Proof.
  split; [|split].
  - intros fs path files content Hls Hread.
    rewrite get_analysis_objects_eq. split; now apply get_sample_objects_Ret.
  - intros fs path tr meta dir objects objects_dir H.
    now apply get_analysis_inv in H.
  - intros fs path tr metas dirs objects objects_dir H.
    apply get_samples_inv in H as [files [objs [_ [_ [_ [-> [-> H]]]]]]].
    now rewrite combine_fst_snd.
Qed.

Lemma data_objects_collected_witness :
  get_analysis_objects Scenario.fs Scenario.analysis_dir
  = ([], Ret ([Scenario.object_local "counts.tsv"; Scenario.object_local "report.html"],
              [Scenario.analysis_dir ++ "/counts.tsv";
               Scenario.analysis_dir ++ "/report.html"])) /\
  (exists tr', get_analysis_objects Scenario.fs Scenario.analysis_dir
               = (tr', Ret ([Scenario.object_local "counts.tsv";
                             Scenario.object_local "report.html"],
                            [Scenario.analysis_dir ++ "/counts.tsv";
                             Scenario.analysis_dir ++ "/report.html"]))) /\
  Forall2 (fun d o => exists tr', get_sample_objects Scenario.fs d = (tr', Ret o))
          [Scenario.sample_dir]
          [([Scenario.object_local "S1.fastq.gz"], [Scenario.sample_dir ++ "/S1.fastq.gz"])].
Proof.
  destruct data_objects_collected as [Hscan [Han Hsam]].
  split; [|split].
  - apply (Hscan Scenario.fs Scenario.analysis_dir _
             (fun f => Scenario.object_local (PyStr.split_head ".metadata.json" f))
             eq_refl).
    intros f Hf. vm_compute in Hf. destruct Hf as [<- | [<- | []]]; reflexivity.
  - apply (Han Scenario.fs Scenario.proj_dir [] Scenario.analysis_local). reflexivity.
  - apply (Hsam Scenario.fs Scenario.proj_dir [] [Scenario.sample_local]
                [Scenario.sample_dir]
                [[Scenario.object_local "S1.fastq.gz"]]
                [[Scenario.sample_dir ++ "/S1.fastq.gz"]]).
    reflexivity.
Defined.

(** C6, as stated, fails: in a directory whose only file is
    [PI_Lab_A.metadata.json.bak], no sidecar file matches the level marker
    (the name does not end with [.metadata.json]), and yet [get_pi_lab]
    reports no uniqueness error: it takes the file for the sidecar and
    returns. *)
Lemma walker_accepts_backup_copy :
  listdir Cases.backup_fs "/backup" = Some ["PI_Lab_A.metadata.json.bak"] /\
  filter (is_sidecar "PI_Lab") ["PI_Lab_A.metadata.json.bak"] = [] /\
  get_pi_lab Cases.backup_fs "/backup"
  = ([], Ret (Scenario.pi_local, "/backup/PI_Lab_A")).
Proof. split; [reflexivity|]. split; reflexivity. Qed.

(** C7, as stated, fails: a sidecar that carries a level marker, and a file
    that contains the suffix without ending in it, are collected too. *)
Lemma data_objects_level_marker_kept :
  get_analysis_objects Scenario.crowded_fs Scenario.analysis_dir
  = ([], Ret ([Scenario.object_local (Scenario.analysis_dir ++ "/counts.tsv.metadata.json");
               Scenario.object_local (Scenario.analysis_dir ++ "/Sample_S9.metadata.json");
               Scenario.object_local (Scenario.analysis_dir ++ "/notes.metadata.json.bak")],
              [Scenario.analysis_dir ++ "/counts.tsv";
               Scenario.analysis_dir ++ "/Sample_S9";
               Scenario.analysis_dir ++ "/notes"])) /\
  is_level_file "Sample_" "Sample_S9.metadata.json" = true.
Proof. split; reflexivity. Qed.

(** ** End-to-end run *)

(** C1.  The run of the end-to-end scenario, on a host where the session
    can be built: after the banner, the URL of the session and the header
    of the PI_Lab level, the call [session.get_collection_dme_meta] raises
    AttributeError, which nothing catches.  No report and no
    [does not exist on DME!] line is printed, and the exit status is 1. *)
Theorem scenario_stops_at_pi_lab :
  Run.scenario
  = ([Stdout banner;
      Stdout ("DME session URL: " ++ Hosts.server ++ nl);
      Stdout (level_header "PI_Lab" Scenario.pi_dir);
      Lookup true "/CCBR_Archive/PI_Lab_Foo"],
     Raise (AttributeError "get_collection_dme_meta")) /\
  exit_status (snd Run.scenario) = 1%Z.
Proof. split; vm_compute; reflexivity. Qed.

(** C5.  In the run of the scenario the sample is read from the local tree
    but never checked: the one call made on the session is the call for
    the PI_Lab, and the run ends there with the AttributeError. *)
Theorem scenario_sample_not_checked :
  get_samples Scenario.fs Scenario.proj_dir
  = ([], Ret ([Scenario.sample_local], [Scenario.sample_dir],
              [[Scenario.object_local "S1.fastq.gz"]],
              [[Scenario.sample_dir ++ "/S1.fastq.gz"]])) /\
  (forall c p, In (Lookup c p) (fst Run.scenario) ->
               c = true /\ p = "/CCBR_Archive/PI_Lab_Foo") /\
  ~ In (Lookup true (get_dme_directory Scenario.sample_dir Scenario.ipath "CCBR_Archive"))
       (fst Run.scenario) /\
  snd Run.scenario = Raise (AttributeError "get_collection_dme_meta").
Proof.
  split; [reflexivity|].
  assert (H : forall c p, In (Lookup c p) (fst Run.scenario) ->
                          c = true /\ p = "/CCBR_Archive/PI_Lab_Foo").
  { intros c p H. vm_compute in H.
    destruct H as [H | [H | [H | [H | []]]]]; try discriminate H.
    injection H as <- <-. split; reflexivity. }
  split; [exact H|]. split; [|reflexivity].
  intros Hin. apply H in Hin as [_ Hp]. vm_compute in Hp. discriminate Hp.
Qed.

(** * Further properties *)

(** ** Command line and argument validation *)

Section CommandLine.

Variables (fs : FileSystem) (connect : M DMESession).

Lemma args_help (argv : list string) :
  asks_help (tl argv) = true -> args argv = ([Stdout help], Exit 0).
Proof. unfold args, asks_help. now intros ->. Qed.

Lemma args_count (argv : list string) :
  asks_help (tl argv) = false -> List.length (tl argv) <> 2 ->
  args argv = ([Stderr missing_arguments; Stdout help], Exit 1).
Proof.
  unfold args, asks_help. intros -> Hn.
  apply Nat.eqb_neq in Hn. now rewrite Hn.
Qed.

Lemma args_pair (prog ipath vault : string) :
  asks_help [ipath; vault] = false ->
  args [prog; ipath; vault] = ([], Ret [ipath; vault]).
Proof. unfold args, asks_help. cbn [tl]. now intros ->. Qed.

End CommandLine.

(** X1.  A help flag among the arguments wins over everything else: the
    run prints the banner and the usage text and exits with status 0,
    whatever the number of arguments, the file system and the catalog. *)
Theorem main_help (fs : FileSystem) (connect : M DMESession) (argv : list string) :
  asks_help (tl argv) = true ->
  main fs connect argv = ([Stdout banner; Stdout help], Exit 0).
Proof.
  intros H. unfold main.
  rewrite (bind_Ret (print _) _ _ tt eq_refl).
  now rewrite (bind_Exit _ _ _ _ (args_help argv H)).
Qed.

Lemma main_help_witness :
  main Scenario.twins_fs (ret Scenario.session) ["validate.py"; "--help"]
  = ([Stdout banner; Stdout help], Exit 0) /\
  main Scenario.fs (ret Scenario.session)
       ["validate.py"; "/scratch/DME"; "CCBR_Archive"; "extra"; "-h"]
  = ([Stdout banner; Stdout help], Exit 0).
Proof.
  split; apply main_help; reflexivity.
Defined.

(** X2.  Without a help flag, a command line that does not hold exactly two
    arguments ends the run with status 1: the error goes to standard error,
    the usage text to standard output, and nothing is read or requested. *)
Theorem main_wrong_arity (fs : FileSystem) (connect : M DMESession)
        (argv : list string) :
  asks_help (tl argv) = false ->
  List.length (tl argv) <> 2 ->
  main fs connect argv
  = ([Stdout banner; Stderr missing_arguments; Stdout help], Exit 1).
Proof.
  intros H Hn. unfold main.
  rewrite (bind_Ret (print _) _ _ tt eq_refl).
  now rewrite (bind_Exit _ _ _ _ (args_count argv H Hn)).
Qed.

Lemma main_wrong_arity_witness :
  main Scenario.fs (ret Scenario.session) ["validate.py"; "/scratch/DME"]
  = ([Stdout banner; Stderr missing_arguments; Stdout help], Exit 1) /\
  main Scenario.fs (ret Scenario.session) []
  = ([Stdout banner; Stderr missing_arguments; Stdout help], Exit 1).
Proof.
  split; apply main_wrong_arity; try reflexivity; cbn; lia.
Defined.

(** X3.  A vault outside the allow-list (after its separators are removed)
    stops the run by a failed assertion before the input directory is
    looked at: only the banner is printed, the outcome does not depend on
    the file system, and the exit status is 1. *)
Theorem main_invalid_vault (fs : FileSystem) (connect : M DMESession)
        (prog ipath vault : string) :
  asks_help [ipath; vault] = false ->
  mem (PyStr.replace "/" "" vault) config_vaults = false ->
  main fs connect [prog; ipath; vault]
  = ([Stdout banner],
     Raise (AssertionError (invalid_vault (PyStr.replace "/" "" vault)))) /\
  exit_status (snd (main fs connect [prog; ipath; vault])) = 1%Z.
Proof.
  intros H Hv.
  assert (E : main fs connect [prog; ipath; vault]
              = ([Stdout banner],
                 Raise (AssertionError (invalid_vault (PyStr.replace "/" "" vault))))).
  { unfold main.
    rewrite (bind_Ret (print _) _ _ tt eq_refl).
    rewrite (bind_Ret _ _ _ _ (args_pair prog ipath vault H)).
    unfold validate_args. rewrite Hv. reflexivity. }
  split; [exact E | now rewrite E].
Qed.

Lemma main_invalid_vault_witness :
  main Scenario.fs (ret Scenario.session) ["validate.py"; "/no/such/dir"; "Not_A_Vault"]
  = ([Stdout banner], Raise (AssertionError (invalid_vault "Not_A_Vault"))) /\
  exit_status (snd (main Scenario.fs (ret Scenario.session)
                      ["validate.py"; "/no/such/dir"; "Not_A_Vault"])) = 1%Z.
Proof.
  apply (main_invalid_vault Scenario.fs (ret Scenario.session)
           "validate.py" "/no/such/dir" "Not_A_Vault"); reflexivity.
Defined.

(** X4.  With an accepted vault, an input path that is not a directory ends
    the run with status 1 after one line on standard error; nothing is
    listed, read or requested. *)
Theorem main_missing_directory (fs : FileSystem) (connect : M DMESession)
        (prog ipath vault : string) :
  asks_help [ipath; vault] = false ->
  mem (PyStr.replace "/" "" vault) config_vaults = true ->
  isdir fs ipath = false ->
  main fs connect [prog; ipath; vault]
  = ([Stdout banner; Stderr (not_accessible ipath)], Exit 1).
Proof.
  intros H Hv Hd. unfold main.
  rewrite (bind_Ret (print _) _ _ tt eq_refl).
  rewrite (bind_Ret _ _ _ _ (args_pair prog ipath vault H)).
  unfold validate_args, path_exists. rewrite Hv, Hd. reflexivity.
Qed.

Lemma main_missing_directory_witness :
  main Scenario.fs (ret Scenario.session) ["validate.py"; "/no/such/dir"; "CCBR_Archive/"]
  = ([Stdout banner; Stderr (not_accessible "/no/such/dir")], Exit 1).
Proof.
  apply main_missing_directory; reflexivity.
Defined.

(** X5.  What [validate_args] returns is always usable: the input path as
    given, which is a directory, and a vault of the allow-list without a
    separator; a call that returns has printed nothing. *)
Theorem validate_args_returns (fs : FileSystem) (user_inputs : list string)
        (tr : list event) (ipath vault : string) :
  validate_args fs user_inputs = (tr, Ret (ipath, vault)) ->
  tr = [] /\
  (exists typed, user_inputs = [ipath; typed] /\ vault = PyStr.replace "/" "" typed) /\
  isdir fs ipath = true /\
  In vault config_vaults /\
  PyStr.contains "/" vault = false.
Proof.
  unfold validate_args, path_exists.
  destruct user_inputs as [|i [|typed [|x l]]]; try (intros H; discriminate H).
  destruct (mem _ _) eqn:Hv; [|intros H; discriminate H].
  destruct (isdir fs i) eqn:Hd; cbn; intros H; [|discriminate H].
  injection H as <- <- <-.
  split; [reflexivity|]. split; [now exists typed|]. split; [exact Hd|].
  split; [|apply replace_slash_no_slash].
  unfold mem in Hv. apply existsb_exists in Hv as [v [Hin E]].
  apply String.eqb_eq in E. now subst.
Qed.

Lemma validate_args_returns_witness :
  isdir Scenario.fs "/scratch/DME" = true /\
  In "CCBR_EXT_Archive" config_vaults /\
  PyStr.contains "/" "CCBR_EXT_Archive" = false.
Proof.
  destruct (validate_args_returns Scenario.fs ["/scratch/DME"; "/CCBR_EXT_/Archive/"]
              [] "/scratch/DME" "CCBR_EXT_Archive" eq_refl) as [_ [_ H]].
  exact H.
Defined.

(** ** Hierarchy walker: what a successful scan is *)

Section WalkerSuccess.

Variable fs : FileSystem.

Lemma silent_bind {A B : Type} (m : M A) (k : A -> M B) :
  silent m -> (forall a, silent (k a)) -> silent (bind m k).
Proof.
  intros Hm Hk tr b H.
  apply bind_inv_Ret in H as [tr1 [a [tr2 [H1 [H2 ->]]]]].
  now rewrite (Hm _ _ H1), (Hk _ _ _ H2).
Qed.

Lemma silent_ret {A : Type} (a : A) : silent (ret a).
Proof. intros tr b H. now injection H. Qed.

Lemma silent_os_listdir (path : string) : silent (os_listdir fs path).
Proof.
  intros tr files H. unfold os_listdir in H.
  destruct (listdir fs path); [now injection H | discriminate H].
Qed.

Lemma silent_json2dict (file : string) : silent (json2dict fs file).
Proof.
  intros tr d H. unfold json2dict, file_exists in H.
  destruct (read fs file); cbn in H; try discriminate H. now injection H.
Qed.

Lemma silent_mapM {A B : Type} (f : A -> M B) (l : list A) :
  (forall x, silent (f x)) -> silent (mapM f l).
Proof.
  intros Hf. induction l as [|x l IH]; cbn [mapM]; [apply silent_ret|].
  apply silent_bind; [apply Hf|]. intros y.
  apply silent_bind; [apply IH|]. intros ys. apply silent_ret.
Qed.

Lemma silent_objects (path : string) : silent (get_sample_objects fs path).
Proof.
  unfold get_sample_objects.
  apply silent_bind; [apply silent_os_listdir|]. intros files.
  apply silent_bind; [|intros; apply silent_ret].
  apply silent_mapM. intros f. apply silent_json2dict.
Qed.

Lemma silent_level (marker what path : string) :
  silent
    (files <- os_listdir fs path ;;
     match filter (is_level_file marker) files with
     | [f0] =>
         let directory := path ++ "/" ++ PyStr.split_head "." f0 in
         meta <- json2dict fs (path ++ "/" ++ f0) ;;
         ret (meta, directory)
     | _ => eprint (not_unique what path) ;; sys_exit 1
     end).
Proof.
  apply silent_bind; [apply silent_os_listdir|]. intros files.
  destruct (filter (is_level_file marker) files) as [|f0 [|f1 l]];
    try (intros tr a H; discriminate H).
  apply silent_bind; [apply silent_json2dict|]. intros; apply silent_ret.
Qed.

Lemma silent_get_analysis (path : string) : silent (get_analysis fs path).
Proof.
  unfold get_analysis.
  apply silent_bind; [apply silent_os_listdir|]. intros files.
  destruct (filter (is_level_file "Primary_Analysis_") files) as [|f0 [|f1 l]];
    try (intros tr a H; discriminate H).
  apply silent_bind; [apply silent_json2dict|]. intros meta.
  apply silent_bind; [apply silent_objects|]. intros [objects objects_dir].
  apply silent_ret.
Qed.

Lemma silent_get_samples (path : string) : silent (get_samples fs path).
Proof.
  unfold get_samples.
  apply silent_bind; [apply silent_os_listdir|]. intros files.
  apply silent_bind; [apply silent_mapM; intros; apply silent_json2dict|].
  intros metas.
  apply silent_bind; [apply silent_mapM; intros; apply silent_objects|].
  intros; apply silent_ret.
Qed.

(** A level scan returns exactly for one matching sidecar that reads as a
    document. *)
Lemma level_scan_returns (marker what path : string) (tr : list event)
      (meta : MetadataDocument) (dir : string) :
  (files <- os_listdir fs path ;;
   match filter (is_level_file marker) files with
   | [f0] =>
       let directory := path ++ "/" ++ PyStr.split_head "." f0 in
       meta <- json2dict fs (path ++ "/" ++ f0) ;;
       ret (meta, directory)
   | _ => eprint (not_unique what path) ;; sys_exit 1
   end) = (tr, Ret (meta, dir))
  <->
  tr = [] /\
  exists files f0,
    listdir fs path = Some files /\
    filter (is_level_file marker) files = [f0] /\
    read fs (path ++ "/" ++ f0) = Json meta /\
    dir = level_directory path f0.
Proof.
  split.
  - intros H. split; [now apply (silent_level marker what path) in H|].
    apply bind_inv_Ret in H as [tr1 [files [tr2 [Hls [H _]]]]].
    apply os_listdir_inv in Hls.
    destruct (filter (is_level_file marker) files) as [|f0 [|f1 l]] eqn:Ef;
      try discriminate H.
    apply bind_inv_Ret in H as [tr3 [m [tr4 [Hm [H _]]]]].
    injection H as _ <- <-.
    exists files, f0. repeat split; auto.
    unfold json2dict, file_exists in Hm.
    destruct (read fs (path ++ "/" ++ f0)); cbn in Hm; try discriminate Hm.
    now injection Hm as _ ->.
  - intros [-> [files [f0 [Hls [Ef [Hr ->]]]]]].
    rewrite (os_listdir_Some _ _ _ Hls). cbn [bind ret app]. rewrite Ef.
    now rewrite (json2dict_Json _ _ _ Hr).
Qed.

End WalkerSuccess.

(** X6.  The walker prints only when it fails: a call of [get_pi_lab],
    [get_project], [get_analysis] or [get_samples] that returns has written
    nothing, on either stream, and made no request. *)
Theorem walker_silent (fs : FileSystem) (path : string) :
  silent (get_pi_lab fs path) /\
  silent (get_project fs path) /\
  silent (get_analysis fs path) /\
  silent (get_samples fs path).
Proof.
  split; [apply silent_level|].
  split; [apply silent_level|].
  split; [apply silent_get_analysis | apply silent_get_samples].
Qed.

Lemma walker_silent_witness :
  fst (get_samples Scenario.fs Scenario.proj_dir) = [] /\
  fst (get_analysis Scenario.fs Scenario.proj_dir) = [].
Proof.
  destruct (walker_silent Scenario.fs Scenario.proj_dir) as [_ [_ [Ha Hs]]].
  split.
  - exact (Hs [] ([Scenario.sample_local], [Scenario.sample_dir],
                  [[Scenario.object_local "S1.fastq.gz"]],
                  [[Scenario.sample_dir ++ "/S1.fastq.gz"]]) eq_refl).
  - exact (Ha [] (Scenario.analysis_local, Scenario.analysis_dir,
                  [Scenario.object_local "counts.tsv"; Scenario.object_local "report.html"],
                  [Scenario.analysis_dir ++ "/counts.tsv";
                   Scenario.analysis_dir ++ "/report.html"]) eq_refl).
Defined.

(** X7.  [get_pi_lab] and [get_project] return exactly when the listing of
    the directory holds one sidecar of the level and that sidecar reads as
    a document; they then return that document and the directory named by
    the part of the sidecar name before its first dot. *)
Theorem level_scan_success (fs : FileSystem) (path : string) (tr : list event)
        (meta : MetadataDocument) (dir : string) :
  (get_pi_lab fs path = (tr, Ret (meta, dir)) <->
   tr = [] /\
   exists files f0,
     listdir fs path = Some files /\
     filter (is_level_file "PI_Lab") files = [f0] /\
     read fs (path ++ "/" ++ f0) = Json meta /\
     dir = level_directory path f0) /\
  (get_project fs path = (tr, Ret (meta, dir)) <->
   tr = [] /\
   exists files f0,
     listdir fs path = Some files /\
     filter (is_level_file "Project_") files = [f0] /\
     read fs (path ++ "/" ++ f0) = Json meta /\
     dir = level_directory path f0).
Proof.
  split; apply level_scan_returns.
Qed.

(** ** Hierarchy walker and [main] *)

Section WalkerBeforeRequests.

Lemma in_bind_inv {A B : Type} (m : M A) (k : A -> M B) (e : event) :
  In e (fst (bind m k)) ->
  In e (fst m) \/ exists tr a, m = (tr, Ret a) /\ In e (fst (k a)).
Proof.
  destruct m as [tr [a | code | x]]; cbn; auto.
  destruct (k a) as [tr' o] eqn:E. cbn. intros H.
  apply in_app_or in H as [H | H]; [now left|].
  right. exists tr, a. rewrite E. auto.
Qed.

Lemma no_lookup_not_in {A : Type} (m : M A) (c : bool) (p : string) :
  trace_all no_lookup m -> ~ In (Lookup c p) (fst m).
Proof.
  unfold trace_all. intros H Hin.
  rewrite Forall_forall in H. exact (H _ Hin).
Qed.

Lemma silent_args (argv : list string) : silent (args argv).
Proof.
  intros tr ua H. unfold args in H.
  destruct (_ || _); [discriminate H|].
  destruct (negb _); cbn in H; [discriminate H | now injection H].
Qed.

Lemma silent_validate_args (fs : FileSystem) (user_inputs : list string) :
  silent (validate_args fs user_inputs).
Proof.
  intros tr [i v] H. now apply validate_args_returns in H.
Qed.

End WalkerBeforeRequests.

(** X8.  A request to the catalog is made only in the checks of the levels,
    that is after the arguments were accepted, the four scans of the local
    tree returned and the session was opened: a run that fails before makes
    no request. *)
Theorem lookup_needs_tree (fs : FileSystem) (connect : M DMESession)
        (argv : list string) (c : bool) (p : string) :
  trace_all no_lookup connect ->
  In (Lookup c p) (fst (main fs connect argv)) ->
  exists user_args ipath vault pi_meta pi_dir proj_meta proj_dir analysis samples
         tr session,
    args argv = ([], Ret user_args) /\
    validate_args fs user_args = ([], Ret (ipath, vault)) /\
    get_pi_lab fs ipath = ([], Ret (pi_meta, pi_dir)) /\
    get_project fs pi_dir = ([], Ret (proj_meta, proj_dir)) /\
    get_analysis fs proj_dir = ([], Ret analysis) /\
    get_samples fs proj_dir = ([], Ret samples) /\
    connect = (tr, Ret session) /\
    In (Lookup c p)
       (fst (evaluate_levels session ipath vault (pi_meta, pi_dir)
               (proj_meta, proj_dir) analysis samples)).
Proof.
  intros Hc H. unfold main in H.
  assert (Po : forall text, no_lookup (Stdout text)) by (intros; exact I).
  assert (Pe : forall text, no_lookup (Stderr text)) by (intros; exact I).
  apply in_bind_inv in H as [H | [tr0 [[] [_ H]]]];
    [destruct H as [H | []]; discriminate H|].
  apply in_bind_inv in H as [H | [tr1 [user_args [Hargs H]]]];
    [now apply (no_lookup_not_in _ c p (trace_all_args _ Po Pe argv)) in H|].
  apply in_bind_inv in H as [H | [tr2 [[ipath vault] [Hvalid H]]]];
    [now apply (no_lookup_not_in _ c p
                  (trace_all_validate_args _ Pe fs user_args)) in H|].
  apply in_bind_inv in H as [H | [tr3 [[pi_meta pi_dir] [Hgp H]]]];
    [now apply (no_lookup_not_in _ c p
                  (trace_all_level _ Pe fs "PI_Lab" "PI_Lab" ipath)) in H|].
  apply in_bind_inv in H as [H | [tr4 [[proj_meta proj_dir] [Hgj H]]]];
    [now apply (no_lookup_not_in _ c p
                  (trace_all_level _ Pe fs "Project_" "Project" pi_dir)) in H|].
  apply in_bind_inv in H as [H | [tr5 [analysis [Hga H]]]];
    [now apply (no_lookup_not_in _ c p
                  (trace_all_get_analysis _ Pe fs proj_dir)) in H|].
  apply in_bind_inv in H as [H | [tr6 [samples [Hgs H]]]];
    [now apply (no_lookup_not_in _ c p
                  (trace_all_get_samples _ Pe fs proj_dir)) in H|].
  apply in_bind_inv in H as [H | [tr7 [session [Hcon H]]]];
    [now apply (no_lookup_not_in _ c p Hc) in H|].
  apply in_bind_inv in H as [H | [tr8 [[] [_ H]]]];
    [destruct H as [H | []]; discriminate H|].
  pose proof (silent_args _ _ _ Hargs). subst tr1.
  pose proof (silent_validate_args _ _ _ _ Hvalid). subst tr2.
  pose proof (silent_level fs _ _ _ _ _ Hgp). subst tr3.
  pose proof (silent_level fs _ _ _ _ _ Hgj). subst tr4.
  pose proof (silent_get_analysis fs _ _ _ Hga). subst tr5.
  pose proof (silent_get_samples fs _ _ _ Hgs). subst tr6.
  exists user_args, ipath, vault, pi_meta, pi_dir, proj_meta, proj_dir,
         analysis, samples, tr7, session.
  repeat split; assumption.
Qed.

Lemma lookup_needs_tree_witness :
  exists user_args ipath vault pi_meta pi_dir proj_meta proj_dir analysis samples
         tr session,
    args Scenario.argv = ([], Ret user_args) /\
    validate_args Scenario.fs user_args = ([], Ret (ipath, vault)) /\
    get_pi_lab Scenario.fs ipath = ([], Ret (pi_meta, pi_dir)) /\
    get_project Scenario.fs pi_dir = ([], Ret (proj_meta, proj_dir)) /\
    get_analysis Scenario.fs proj_dir = ([], Ret analysis) /\
    get_samples Scenario.fs proj_dir = ([], Ret samples) /\
    ret Scenario.session = (tr, Ret session) /\
    In (Lookup true "/CCBR_Archive/PI_Lab_Foo")
       (fst (evaluate_levels session ipath vault (pi_meta, pi_dir)
               (proj_meta, proj_dir) analysis samples)).
Proof.
  apply (lookup_needs_tree Scenario.fs (ret Scenario.session) Scenario.argv
           true "/CCBR_Archive/PI_Lab_Foo").
  - constructor.
  - vm_compute. repeat first [left; reflexivity | right].
Defined.

(** X9.  The scans do not test that the directory beside a sidecar exists:
    when the PI_Lab sidecar is found and read but its directory cannot be
    listed, the run ends in [get_project] by the uncaught error of
    [os.listdir], with exit status 1 and before the session is opened. *)
Theorem main_missing_level_directory (fs : FileSystem) (connect : M DMESession)
        (argv user_args : list string) (ipath vault : string)
        (pi_meta : MetadataDocument) (pi_dir : string) :
  args argv = ([], Ret user_args) ->
  validate_args fs user_args = ([], Ret (ipath, vault)) ->
  get_pi_lab fs ipath = ([], Ret (pi_meta, pi_dir)) ->
  listdir fs pi_dir = None ->
  main fs connect argv = ([Stdout banner], Raise (OSError pi_dir)) /\
  exit_status (snd (main fs connect argv)) = 1%Z.
Proof.
  intros Hargs Hvalid Hgp Hls.
  assert (E : main fs connect argv = ([Stdout banner], Raise (OSError pi_dir))).
  { unfold main.
    rewrite (bind_Ret (print _) _ _ tt eq_refl).
    rewrite (bind_Ret _ _ _ _ Hargs), (bind_Ret _ _ _ _ Hvalid).
    rewrite (bind_Ret _ _ _ _ Hgp).
    unfold get_project, os_listdir. rewrite Hls. reflexivity. }
  split; [exact E | now rewrite E].
Qed.

Lemma main_missing_level_directory_witness :
  main Cases.orphan_fs (ret Scenario.session) ["validate.py"; "/orphan"; "CCBR_Archive"]
  = ([Stdout banner], Raise (OSError "/orphan/PI_Lab_Foo")) /\
  exit_status (snd (main Cases.orphan_fs (ret Scenario.session)
                      ["validate.py"; "/orphan"; "CCBR_Archive"])) = 1%Z.
Proof.
  apply (main_missing_level_directory Cases.orphan_fs (ret Scenario.session)
           ["validate.py"; "/orphan"; "CCBR_Archive"] ["/orphan"; "CCBR_Archive"]
           "/orphan" "CCBR_Archive" Scenario.pi_local "/orphan/PI_Lab_Foo");
    reflexivity.
Defined.

(** ** Directory names *)

Section SplitHead.

Lemma startswith_nil (s : string) : PyStr.startswith "" s = true.
Proof. reflexivity. Qed.

Lemma startswith_refl (s : string) : PyStr.startswith s s = true.
Proof.
  induction s as [|c s IH]; [reflexivity|].
  cbn [PyStr.startswith]. now rewrite Ascii.eqb_refl, IH.
Qed.

Lemma startswith_app_long (q a r : string) :
  String.length q <= String.length a ->
  PyStr.startswith q (a ++ r) = PyStr.startswith q a.
Proof.
  revert a. induction q as [|c q IH]; intros a H; [reflexivity|].
  destruct a as [|d a]; cbn [String.length] in H; [lia|].
  cbn [String.append PyStr.startswith]. rewrite IH by lia. reflexivity.
Qed.

Lemma startswith_app_short (sep t u : string) :
  String.length t <= String.length sep ->
  PyStr.startswith sep (t ++ u) = true ->
  PyStr.startswith (PyStr.slice_from (String.length t) sep) u = true.
Proof.
  revert sep. induction t as [|c t IH]; intros sep Hlen H; [exact H|].
  destruct sep as [|d sep]; cbn [String.length] in Hlen; [lia|].
  cbn [String.append PyStr.startswith] in H.
  apply andb_true_iff in H as [_ H].
  cbn [String.length PyStr.slice_from]. apply IH; [lia | exact H].
Qed.

Lemma slice_from_length (k : nat) (s : string) :
  String.length (PyStr.slice_from k s) = String.length s - k.
Proof.
  revert s. induction k as [|k IH]; intros s; cbn [PyStr.slice_from].
  - lia.
  - destruct s as [|c s]; [reflexivity|]. cbn [String.length]. apply IH.
Qed.

(** Before a first occurrence of an unbordered [sep] there is no earlier
    one. *)
Lemma no_early_occurrence (sep t rest : string) :
  unbordered sep = true ->
  t <> EmptyString ->
  PyStr.startswith sep t = false ->
  PyStr.startswith sep (t ++ sep ++ rest) = false.
Proof.
  intros Hu Ht Hs.
  destruct (le_lt_dec (String.length sep) (String.length t)) as [Hle | Hlt].
  - now rewrite startswith_app_long.
  - destruct (PyStr.startswith sep (t ++ sep ++ rest)) eqn:E; [|reflexivity].
    apply startswith_app_short in E; [|lia].
    rewrite startswith_app_long in E by (rewrite slice_from_length; lia).
    unfold unbordered in Hu. rewrite forallb_forall in Hu.
    assert (Hk : In (String.length t) (seq 1 (String.length sep - 1))).
    { apply in_seq.
      destruct t; [exfalso; now apply Ht | cbn [String.length] in *; lia]. }
    apply Hu in Hk. now rewrite E in Hk.
Qed.

Lemma split_head_app (sep base rest : string) :
  unbordered sep = true ->
  sep <> EmptyString ->
  PyStr.contains sep base = false ->
  PyStr.split_head sep (base ++ sep ++ rest) = base.
Proof.
  intros Hu Hsep. induction base as [|c base IH]; intros Hb.
  - cbn [String.append].
    destruct sep as [|d sep]; [contradiction|].
    cbn [String.append PyStr.split_head].
    change (String d (sep ++ rest)) with (String d sep ++ rest).
    rewrite startswith_app_long by lia. now rewrite startswith_refl.
  - rewrite contains_cons in Hb. apply orb_false_iff in Hb as [Hs Hb].
    cbn [String.append PyStr.split_head].
    change (String c (base ++ sep ++ rest)) with (String c base ++ sep ++ rest).
    rewrite no_early_occurrence by (auto; discriminate).
    now rewrite IH.
Qed.

Lemma split_head_prefix (sep s : string) :
  exists rest, s = PyStr.split_head sep s ++ rest.
Proof.
  induction s as [|c s [rest IH]]; [now exists EmptyString|].
  cbn [PyStr.split_head].
  destruct (PyStr.startswith sep (String c s)); [now exists (String c s)|].
  exists rest. cbn [String.append]. now rewrite <- IH.
Qed.

Lemma startswith_app_true (q a r : string) :
  PyStr.startswith q a = true -> PyStr.startswith q (a ++ r) = true.
Proof.
  revert a. induction q as [|c q IH]; intros a H; [reflexivity|].
  destruct a as [|d a]; [discriminate H|].
  cbn [String.append PyStr.startswith] in *.
  apply andb_true_iff in H as [-> H]. now rewrite IH.
Qed.

Lemma split_head_no_sep (sep s : string) :
  sep <> EmptyString ->
  PyStr.contains sep (PyStr.split_head sep s) = false.
Proof.
  intros Hsep. induction s as [|c s IH].
  - destruct sep; [contradiction | reflexivity].
  - cbn [PyStr.split_head].
    destruct (PyStr.startswith sep (String c s)) eqn:E.
    + destruct sep; [contradiction | reflexivity].
    + rewrite contains_cons, IH, orb_false_r.
      destruct (PyStr.startswith sep (String c (PyStr.split_head sep s))) eqn:E';
        [|reflexivity].
      destruct (split_head_prefix sep s) as [rest Hrest].
      apply (startswith_app_true _ _ rest) in E'.
      cbn [String.append] in E'. rewrite <- Hrest in E'. congruence.
Qed.

End SplitHead.

(** X10.  The directory paired with a sidecar is named by the text before
    the first dot of the sidecar name at the four levels, and by the text
    before the first [.metadata.json] for a data object.  So a data object
    [base.metadata.json] is paired with [base] whenever [base] does not
    itself contain [.metadata.json], dots in [base] included, while a level
    sidecar is paired with its name cut at the first dot. *)
Theorem directory_names :
  (forall path name rest,
     PyStr.contains "." name = false ->
     level_directory path (name ++ "." ++ rest) = path ++ "/" ++ name) /\
  (forall path base rest,
     PyStr.contains ".metadata.json" base = false ->
     object_directory path (base ++ ".metadata.json" ++ rest) = path ++ "/" ++ base) /\
  (forall path f,
     exists name,
       level_directory path f = path ++ "/" ++ name /\
       PyStr.contains "." name = false /\ PyStr.startswith name f = true) /\
  (forall path f,
     exists base,
       object_directory path f = path ++ "/" ++ base /\
       PyStr.contains ".metadata.json" base = false /\ PyStr.startswith base f = true).
Proof.
  split; [|split; [|split]].
  - intros path name rest H. unfold level_directory.
    now rewrite split_head_app by (try reflexivity; try discriminate; exact H).
  - intros path base rest H. unfold object_directory.
    now rewrite split_head_app by (try reflexivity; try discriminate; exact H).
  - intros path f. exists (PyStr.split_head "." f).
    split; [reflexivity|]. split; [apply split_head_no_sep; discriminate|].
    destruct (split_head_prefix "." f) as [rest H].
    rewrite H at 2. apply startswith_app_true, startswith_refl.
  - intros path f. exists (PyStr.split_head ".metadata.json" f).
    split; [reflexivity|]. split; [apply split_head_no_sep; discriminate|].
    destruct (split_head_prefix ".metadata.json" f) as [rest H].
    rewrite H at 2. apply startswith_app_true, startswith_refl.
Qed.

Lemma directory_names_witness :
  level_directory "/scratch/DME" "PI_Lab_J.Smith.metadata.json"
  = "/scratch/DME/PI_Lab_J" /\
  object_directory Scenario.sample_dir "S1.fastq.gz.metadata.json"
  = Scenario.sample_dir ++ "/S1.fastq.gz".
Proof.
  destruct directory_names as [Hl [Ho _]].
  split.
  - apply (Hl "/scratch/DME" "PI_Lab_J" "Smith.metadata.json"). reflexivity.
  - apply (Ho Scenario.sample_dir "S1.fastq.gz" ""). reflexivity.
Defined.

(** ** Which files a scan looks at *)

Section ScanSidecars.

Lemma filter_level_file (marker : string) (files : list string) :
  filter (is_level_file marker) files
  = filter (PyStr.contains marker) (filter (PyStr.contains ".metadata.json") files).
Proof.
  induction files as [|f files IH]; [reflexivity|].
  unfold is_level_file in *. cbn [filter].
  destruct (PyStr.contains ".metadata.json" f); cbn [filter].
  - rewrite andb_true_r. destruct (PyStr.contains marker f); now rewrite IH.
  - now rewrite andb_false_r.
Qed.

Variables fs fs' : FileSystem.
Hypothesis same_read : forall p, read fs p = read fs' p.

Lemma json2dict_same (file : string) : json2dict fs file = json2dict fs' file.
Proof. unfold json2dict, file_exists. now rewrite same_read. Qed.

Lemma mapM_ext {A B : Type} (f g : A -> M B) (l : list A) :
  (forall x, f x = g x) -> mapM f l = mapM g l.
Proof.
  intros H. induction l as [|x l IH]; [reflexivity|].
  cbn [mapM]. now rewrite H, IH.
Qed.

Variables (path : string) (files files' : list string).
Hypothesis Hls : listdir fs path = Some files.
Hypothesis Hls' : listdir fs' path = Some files'.
Hypothesis same_sidecars :
  filter (PyStr.contains ".metadata.json") files
  = filter (PyStr.contains ".metadata.json") files'.

Lemma level_scan_same (marker what : string) :
  (files <- os_listdir fs path ;;
   match filter (is_level_file marker) files with
   | [f0] =>
       let directory := path ++ "/" ++ PyStr.split_head "." f0 in
       meta <- json2dict fs (path ++ "/" ++ f0) ;;
       ret (meta, directory)
   | _ => eprint (not_unique what path) ;; sys_exit 1
   end)
  = (files <- os_listdir fs' path ;;
     match filter (is_level_file marker) files with
     | [f0] =>
         let directory := path ++ "/" ++ PyStr.split_head "." f0 in
         meta <- json2dict fs' (path ++ "/" ++ f0) ;;
         ret (meta, directory)
     | _ => eprint (not_unique what path) ;; sys_exit 1
     end).
Proof.
  rewrite (os_listdir_Some _ _ _ Hls), (os_listdir_Some _ _ _ Hls').
  cbn [bind ret app].
  rewrite (filter_level_file marker files), (filter_level_file marker files').
  rewrite same_sidecars.
  destruct (filter _ (filter _ files')) as [|f0 [|f1 l]]; try reflexivity.
  now rewrite json2dict_same.
Qed.

Lemma objects_scan_same : get_sample_objects fs path = get_sample_objects fs' path.
Proof.
  unfold get_sample_objects.
  rewrite (os_listdir_Some _ _ _ Hls), (os_listdir_Some _ _ _ Hls').
  cbn [bind ret app]. rewrite same_sidecars.
  now rewrite (mapM_ext _ (fun f => json2dict fs' (path ++ "/" ++ f)))
    by (intros; apply json2dict_same).
Qed.

End ScanSidecars.

(** X11.  A scan of one directory depends on its listing only through the
    names that contain [.metadata.json]: two file systems with the same
    files, whose listings of the directory hold the same such names in the
    same order, give the same result for [get_pi_lab], [get_project] and the
    two data-object scans, whatever else the directory holds. *)
Theorem scan_reads_sidecars_only (fs fs' : FileSystem) (path : string)
        (files files' : list string) :
  (forall p, read fs p = read fs' p) ->
  listdir fs path = Some files ->
  listdir fs' path = Some files' ->
  filter (PyStr.contains ".metadata.json") files
  = filter (PyStr.contains ".metadata.json") files' ->
  get_pi_lab fs path = get_pi_lab fs' path /\
  get_project fs path = get_project fs' path /\
  get_analysis_objects fs path = get_analysis_objects fs' path /\
  get_sample_objects fs path = get_sample_objects fs' path.
Proof.
  intros Hr Hls Hls' Hs.
  split; [now apply (level_scan_same fs fs' Hr path files files')|].
  split; [now apply (level_scan_same fs fs' Hr path files files')|].
  split; now apply (objects_scan_same fs fs' Hr path files files').
Qed.

Lemma scan_reads_sidecars_only_witness :
  get_pi_lab Scenario.fs Scenario.ipath = get_pi_lab Cases.sidecars_fs Scenario.ipath /\
  get_project Scenario.fs Scenario.ipath = get_project Cases.sidecars_fs Scenario.ipath /\
  get_analysis_objects Scenario.fs Scenario.ipath
  = get_analysis_objects Cases.sidecars_fs Scenario.ipath /\
  get_sample_objects Scenario.fs Scenario.ipath
  = get_sample_objects Cases.sidecars_fs Scenario.ipath.
Proof.
  apply (scan_reads_sidecars_only Scenario.fs Cases.sidecars_fs Scenario.ipath
           ["PI_Lab_Foo"; "PI_Lab_Foo.metadata.json"] ["PI_Lab_Foo.metadata.json"]);
    reflexivity.
Defined.

(** ** Metadata differ: names, multiplicities, symmetry *)

Section DifferNames.

Lemma filter_all {A : Type} (f : A -> bool) (l : list A) :
  (forall x, In x l -> f x = true) -> filter f l = l.
Proof.
  induction l as [|x l IH]; intros H; [reflexivity|].
  cbn [filter]. rewrite (H x (or_introl eq_refl)). f_equal.
  apply IH. intros y Hy. apply H. now right.
Qed.

Lemma existsb_same_name_names (x : MetadataEntry) (ys : list MetadataEntry) :
  existsb (same_name x) ys = mem (attribute x) (map attribute ys).
Proof.
  unfold mem, same_name. induction ys as [|y ys IH]; [reflexivity|].
  cbn [existsb map]. now rewrite IH.
Qed.

Lemma names_only_in_names (xs ys : list MetadataEntry) :
  names_only_in xs ys
  = filter (fun a => negb (mem a (map attribute ys))) (map attribute xs).
Proof.
  unfold names_only_in. induction xs as [|x xs IH]; [reflexivity|].
  cbn [filter map]. rewrite existsb_same_name_names.
  destruct (mem (attribute x) (map attribute ys)); cbn [negb map]; now rewrite IH.
Qed.

Lemma filter_same_name_names (r : MetadataEntry) (ys : list MetadataEntry) :
  map (fun _ : MetadataEntry => attribute r) (filter (same_name r) ys)
  = map (fun _ : string => attribute r)
        (filter (String.eqb (attribute r)) (map attribute ys)).
Proof.
  unfold same_name. induction ys as [|y ys IH]; [reflexivity|].
  cbn [filter map]. destruct (String.eqb (attribute r) (attribute y)); cbn [map];
    now rewrite IH.
Qed.

Lemma both_names (xs ys : list MetadataEntry) :
  map (fun p => attribute (fst p)) (matching_pairs xs ys)
  = flat_map (fun a => map (fun _ : string => a)
                           (filter (String.eqb a) (map attribute ys)))
             (map attribute xs).
Proof.
  rewrite matching_pairs_names.
  induction xs as [|x xs IH]; [reflexivity|].
  cbn [flat_map map]. now rewrite filter_same_name_names, IH.
Qed.

End DifferNames.

(** X12.  The three lists of [get_different_fields] depend on the attribute
    names only: entry lists with the same names in the same order give the
    same lists, whatever the values. *)
Theorem get_different_fields_by_name (remote remote' local local' : list MetadataEntry) :
  map attribute remote = map attribute remote' ->
  map attribute local = map attribute local' ->
  get_different_fields remote local = get_different_fields remote' local'.
Proof.
  intros Hr Hl. rewrite !get_different_fields_eq, !names_only_in_names, !both_names.
  now rewrite Hr, Hl.
Qed.

Lemma get_different_fields_by_name_witness :
  get_different_fields (metadataEntries Scenario.pi_remote)
                       (metadataEntries Scenario.pi_local)
  = get_different_fields
      [Scenario.entry "collection_type" ""; Scenario.entry "pi_name" "";
       Scenario.entry "lab_size" ""; Scenario.entry "registered_by" ""]
      [Scenario.entry "collection_type" "x"; Scenario.entry "pi_name" "y";
       Scenario.entry "lab_size" "z"].
Proof.
  apply get_different_fields_by_name; reflexivity.
Defined.

(** X13.  When no attribute name of the remote list occurs in the local
    list (in particular when one of the lists is empty), every remote name
    is in [only_remote], every local name is in [only_local], in the order
    of the lists, [both] is empty and no change is reported. *)
Theorem get_different_fields_disjoint (remote local : list MetadataEntry) :
  (forall a, In a (map attribute remote) -> ~ In a (map attribute local)) ->
  get_different_fields remote local = (map attribute remote, map attribute local, []) /\
  changed remote local = [].
Proof.
  intros Hd.
  assert (Hr : forall r, In r remote -> existsb (same_name r) local = false).
  { intros r Hr. destruct (existsb (same_name r) local) eqn:E; [|reflexivity].
    apply existsb_same_name in E. exfalso. apply (Hd (attribute r)); [|exact E].
    now apply in_map. }
  assert (Hl : forall l, In l local -> existsb (same_name l) remote = false).
  { intros l Hl. destruct (existsb (same_name l) remote) eqn:E; [|reflexivity].
    apply existsb_same_name in E. exfalso. apply (Hd (attribute l)); [exact E|].
    now apply in_map. }
  assert (Hb : map (fun p => attribute (fst p)) (matching_pairs remote local) = []).
  { rewrite matching_pairs_names. apply flat_map_none. intros r Hin.
    rewrite (filter_none (same_name r) local); [reflexivity|].
    intros l Hl'. destruct (same_name r l) eqn:E; [|reflexivity].
    pose proof (Hr r Hin) as Hx.
    assert (existsb (same_name r) local = true)
      by (apply existsb_exists; now exists l).
    congruence. }
  split.
  - rewrite get_different_fields_eq, Hb. unfold names_only_in.
    rewrite (filter_all _ remote), (filter_all _ local); [reflexivity | |].
    + intros l Hin. now rewrite (Hl l Hin).
    + intros r Hin. now rewrite (Hr r Hin).
  - unfold changed. apply filter_none. intros [a b c | a v | a o n] Hin; try reflexivity.
    apply modified_line_spec in Hin as [r [l [Hin1 [Hin2 [E1 [E2 _]]]]]].
    exfalso. apply (Hd a).
    + rewrite <- E1. now apply in_map.
    + rewrite <- E2. now apply in_map.
Qed.

Lemma get_different_fields_disjoint_witness :
  get_different_fields (metadataEntries Scenario.proj_remote) []
  = (["collection_type"; "project_title"], [], []) /\
  changed (metadataEntries Scenario.proj_remote) [] = [].
Proof.
  apply (get_different_fields_disjoint (metadataEntries Scenario.proj_remote) []).
  intros a _ H. exact H.
Defined.

(** X14.  A [will be appended] line is printed exactly for the entries of
    the local list whose attribute name occurs nowhere in the remote list,
    with the attribute and the value of the local entry. *)
Theorem appended_line_spec (remote local : list MetadataEntry) (a v : string) :
  In (Appended a v) (evaluate_differences remote local) <->
  (exists l, In l local /\ attribute l = a /\ value l = v) /\
  ~ In a (map attribute remote).
Proof.
  unfold evaluate_differences. rewrite get_different_fields_eq. cbn [app]. split.
  - intros [H | H]; [discriminate H|].
    apply in_app_or in H as [H | H].
    + apply in_flat_map in H as [att [Hatt H]].
      apply in_flat_map in H as [l [Hl H]].
      destruct (String.eqb_spec (attribute l) att) as [E|]; [|destruct H].
      destruct H as [H | []]. injection H as <- <-.
      apply names_only_in_spec in Hatt as [_ Hn]. rewrite E.
      split; [exists l; auto | exact Hn].
    + apply in_flat_map in H as [att [_ H]].
      apply in_flat_map in H as [l [_ H]].
      destruct (negb _); [destruct H|].
      apply in_flat_map in H as [r [_ H]].
      destruct (negb _); [destruct H|].
      destruct (value_modified _ _); [|destruct H].
      destruct H as [H | []]. discriminate H.
  - intros [[l [Hl [<- <-]]] Hn]. right. apply in_or_app. left.
    apply in_flat_map. exists (attribute l). split.
    + apply names_only_in_spec. split; [now apply in_map | exact Hn].
    + apply in_flat_map. exists l. split; [exact Hl|].
      rewrite String.eqb_refl. now left.
Qed.

Section DifferSymmetry.

(** [==] on floats does not depend on the order of its arguments. *)
Lemma SFeqb_sym (x y : spec_float) : SFeqb x y = SFeqb y x.
Proof.
  unfold SFeqb, SFcompare.
  destruct x as [sx | sx | | sx mx ex], y as [sy | sy | | sy my ey];
    try reflexivity;
    try (destruct sx; reflexivity); try (destruct sy; reflexivity);
    try (destruct sx, sy; reflexivity).
  change (Pos.compare_cont Eq mx my) with (Pos.compare mx my).
  change (Pos.compare_cont Eq my mx) with (Pos.compare my mx).
  rewrite (Z.compare_antisym ey ex), (Pos.compare_antisym my mx).
  destruct sx, sy; try reflexivity;
    destruct (Z.compare ey ex); cbn [CompOpp]; try reflexivity;
    destruct (Pos.compare my mx); reflexivity.
Qed.

Lemma value_modified_sym (a b : string) : value_modified a b = value_modified b a.
Proof.
  unfold value_modified, PyFloat.ne. rewrite (String.eqb_sym b a).
  destruct (String.eqb a b); cbn [negb]; [reflexivity|].
  destruct (PyFloat.float a) as [x|], (PyFloat.float b) as [y|]; try reflexivity.
  now rewrite SFeqb_sym.
Qed.

End DifferSymmetry.

(** X15.  Whether two values are reported as modified does not depend on
    which one is local, so the changes of a comparison in the other
    direction are the same changes with old and new value exchanged. *)
Theorem modified_swap :
  (forall a b, value_modified a b = value_modified b a) /\
  (forall remote local a old new,
     In (Modified a old new) (evaluate_differences remote local) <->
     In (Modified a new old) (evaluate_differences local remote)).
Proof.
  split; [exact value_modified_sym|].
  intros remote local a old new. rewrite !modified_line_spec.
  split; intros [r [l [Hr [Hl [Er [El [Eo [En Ev]]]]]]]];
    exists l, r; rewrite value_modified_sym; auto 10.
Qed.

Section DifferCounts.

Lemma count_occ_constant {A : Type} (n a : string) (l : list A) :
  count_occ string_dec (map (fun _ => n) l) a
  = if string_dec n a then List.length l else 0.
Proof.
  induction l as [|x l IH]; cbn [map count_occ List.length].
  - now destruct (string_dec n a).
  - rewrite IH. destruct (string_dec n a); reflexivity.
Qed.

Lemma length_filter_eqb (n : string) (l : list string) :
  List.length (filter (String.eqb n) l) = count_occ string_dec l n.
Proof.
  induction l as [|x l IH]; [reflexivity|].
  cbn [filter count_occ].
  destruct (string_dec x n) as [->|N].
  - rewrite String.eqb_refl. cbn [List.length]. now rewrite IH.
  - destruct (String.eqb_spec n x) as [E|_]; [congruence | exact IH].
Qed.

Lemma count_occ_both (names_r names_l : list string) (a : string) :
  count_occ string_dec
    (flat_map (fun n => map (fun _ : string => n) (filter (String.eqb n) names_l))
              names_r) a
  = count_occ string_dec names_r a * count_occ string_dec names_l a.
Proof.
  induction names_r as [|n names_r IH]; [reflexivity|].
  cbn [flat_map count_occ]. rewrite count_occ_app, IH, count_occ_constant.
  rewrite length_filter_eqb.
  destruct (string_dec n a) as [->|N]; lia.
Qed.

Lemma count_occ_filter_names (f : string -> bool) (l : list string) (a : string) :
  count_occ string_dec (filter f l) a
  = if f a then count_occ string_dec l a else 0.
Proof.
  induction l as [|x l IH]; cbn [filter count_occ]; [now destruct (f a)|].
  destruct (f x) eqn:Ex; cbn [count_occ]; rewrite IH;
    destruct (string_dec x a) as [->|N]; try rewrite Ex; try reflexivity.
Qed.

End DifferCounts.

(** X16.  How often a name stands in each list: a name that occurs [m]
    times in the remote list and [n] times in the local list occurs [m * n]
    times in [both]; it occurs [m] times in [only_remote] when [n = 0] and
    [n] times in [only_local] when [m = 0], and not at all in these two
    lists otherwise. *)
Theorem get_different_fields_multiplicity (remote local : list MetadataEntry)
        (a : string) :
  let '(only_remote, only_local, both) := get_different_fields remote local in
  count_occ string_dec both a
  = count_occ string_dec (map attribute remote) a
    * count_occ string_dec (map attribute local) a /\
  count_occ string_dec only_remote a
  = (if mem a (map attribute local) then 0
     else count_occ string_dec (map attribute remote) a) /\
  count_occ string_dec only_local a
  = (if mem a (map attribute remote) then 0
     else count_occ string_dec (map attribute local) a).
Proof.
  rewrite get_different_fields_eq, !names_only_in_names, both_names.
  split; [apply count_occ_both|].
  split; rewrite count_occ_filter_names;
    match goal with |- context [mem a ?l] => destruct (mem a l) end; reflexivity.
Qed.

Section DifferUnique.

Lemma filter_partition_length {A : Type} (f : A -> bool) (l : list A) :
  List.length (filter (fun x => negb (f x)) l) + List.length (filter f l)
  = List.length l.
Proof.
  induction l as [|x l IH]; [reflexivity|].
  cbn [filter]. destruct (f x); cbn [negb List.length]; lia.
Qed.

Lemma matches_unique (n : string) (r : MetadataEntry) (local : list MetadataEntry) :
  NoDup (map attribute local) ->
  map (fun _ : MetadataEntry => n) (filter (same_name r) local)
  = if existsb (same_name r) local then [n] else [].
Proof.
  induction local as [|l local IH]; intros Hnd; [reflexivity|].
  cbn [map] in Hnd. inversion Hnd as [|? ? Hnot Hnd']; subst.
  cbn [filter existsb]. destruct (same_name r l) eqn:E; cbn [orb map].
  - rewrite (filter_none (same_name r) local); [reflexivity|].
    intros y Hy. unfold same_name in *. apply String.eqb_eq in E.
    apply String.eqb_neq. intros E'. apply Hnot. rewrite <- E, E'. now apply in_map.
  - now apply IH.
Qed.

Lemma both_unique_local (remote local : list MetadataEntry) :
  NoDup (map attribute local) ->
  map (fun p => attribute (fst p)) (matching_pairs remote local)
  = map attribute (filter (fun r => existsb (same_name r) local) remote).
Proof.
  intros Hnd. rewrite matching_pairs_names.
  induction remote as [|r remote IH]; [reflexivity|].
  cbn [flat_map filter]. rewrite (matches_unique _ r local Hnd), IH.
  now destruct (existsb (same_name r) local).
Qed.

Lemma both_length_cons (remote local : list MetadataEntry) (l : MetadataEntry) :
  List.length (flat_map (fun r => map (fun _ : MetadataEntry => attribute r)
                                      (filter (same_name r) (l :: local))) remote)
  = List.length (filter (fun r => same_name r l) remote)
    + List.length (flat_map (fun r => map (fun _ : MetadataEntry => attribute r)
                                          (filter (same_name r) local)) remote).
Proof.
  induction remote as [|r remote IH]; [reflexivity|].
  cbn [flat_map]. rewrite !length_app, IH. cbn [filter].
  destruct (same_name r l); cbn [map List.length]; lia.
Qed.

Lemma both_length_swap (remote local : list MetadataEntry) :
  List.length (map (fun p => attribute (fst p)) (matching_pairs remote local))
  = List.length (map (fun p => attribute (fst p)) (matching_pairs local remote)).
Proof.
  rewrite !matching_pairs_names.
  induction remote as [|r remote IH].
  - cbn [flat_map]. induction local as [|l local IHl]; [reflexivity|].
    cbn [flat_map filter map app]. exact IHl.
  - rewrite both_length_cons. cbn [flat_map]. rewrite length_app, length_map, IH.
    f_equal. f_equal. apply filter_ext. intros l. unfold same_name.
    apply String.eqb_sym.
Qed.

End DifferUnique.

(** X17.  Under the data model's assumption that a name occurs once in a
    list, the counts of the summary add up: with unique local names, [both]
    is the list of the names of the remote entries that have a local entry
    of the same name, in remote order, and [only_remote] and [both] together
    count every remote entry once; with unique remote names, [only_local]
    and [both] together count every local entry once. *)
Theorem counts_add_up (remote local : list MetadataEntry) :
  let '(only_remote, only_local, both) := get_different_fields remote local in
  (NoDup (map attribute local) ->
   both = map attribute (filter (fun r => existsb (same_name r) local) remote) /\
   List.length only_remote + List.length both = List.length remote) /\
  (NoDup (map attribute remote) ->
   List.length only_local + List.length both = List.length local).
Proof.
  rewrite get_different_fields_eq. split.
  - intros Hnd. rewrite (both_unique_local remote local Hnd).
    split; [reflexivity|]. unfold names_only_in. rewrite !length_map.
    apply (filter_partition_length (fun r => existsb (same_name r) local)).
  - intros Hnd. rewrite both_length_swap, (both_unique_local local remote Hnd).
    unfold names_only_in. rewrite !length_map.
    apply (filter_partition_length (fun l => existsb (same_name l) remote)).
Qed.

Lemma counts_add_up_witness :
  1 + 3 = List.length (metadataEntries Scenario.pi_remote) /\
  0 + 3 = List.length (metadataEntries Scenario.pi_local).
Proof.
  pose proof (counts_add_up (metadataEntries Scenario.pi_remote)
                (metadataEntries Scenario.pi_local)) as H.
  cbv beta iota zeta in H.
  change (get_different_fields (metadataEntries Scenario.pi_remote)
            (metadataEntries Scenario.pi_local))
    with (["registered_by"], @nil string, ["collection_type"; "pi_name"; "lab_size"]) in H.
  destruct H as [H1 H2].
  split.
  - apply H1. cbn. repeat constructor; cbn; intuition discriminate.
  - apply H2. cbn. repeat constructor; cbn; intuition discriminate.
Defined.

(** ** Reconciliation driver: where the walk stops *)

Section LevelsOfMain.

Variables (fs : FileSystem) (connect : M DMESession) (argv user_args : list string).
Variables (tr : list event) (session : DMESession) (ipath vault : string).
Variables (pi_meta proj_meta : MetadataDocument) (pi_dir proj_dir : string).
Variable analysis : MetadataDocument * string * list MetadataDocument * list string.
Variable samples : list MetadataDocument * list string *
                   list (list MetadataDocument) * list (list string).

Hypothesis Hargs : args argv = ([], Ret user_args).
Hypothesis Hvalid : validate_args fs user_args = ([], Ret (ipath, vault)).
Hypothesis Hgp : get_pi_lab fs ipath = ([], Ret (pi_meta, pi_dir)).
Hypothesis Hgj : get_project fs pi_dir = ([], Ret (proj_meta, proj_dir)).
Hypothesis Hga : get_analysis fs proj_dir = ([], Ret analysis).
Hypothesis Hgs : get_samples fs proj_dir = ([], Ret samples).
Hypothesis Hc : connect = (tr, Ret session).

(** The run of [main] once the tree is read and the session is opened. *)
Lemma main_levels :
  main fs connect argv
  = ((Stdout banner :: tr ++ Stdout ("DME session URL: " ++ dme_url session) ::
      fst (evaluate_levels session ipath vault (pi_meta, pi_dir)
             (proj_meta, proj_dir) analysis samples))%list,
     snd (evaluate_levels session ipath vault (pi_meta, pi_dir)
            (proj_meta, proj_dir) analysis samples)).
Proof.
  unfold main.
  rewrite (bind_Ret (print _) _ _ tt eq_refl).
  rewrite (bind_Ret _ _ _ _ Hargs), (bind_Ret _ _ _ _ Hvalid).
  rewrite (bind_Ret _ _ _ _ Hgp), (bind_Ret _ _ _ _ Hgj).
  rewrite (bind_Ret _ _ _ _ Hga), (bind_Ret _ _ _ _ Hgs).
  rewrite (bind_Ret _ _ _ _ Hc).
  rewrite (bind_Ret (print _) _ _ tt eq_refl).
  cbn [fst snd print app]. reflexivity.
Qed.

End LevelsOfMain.

Section LevelsStop.

Variables (session : DMESession) (ipath vault : string).
Variables (pi_meta : MetadataDocument) (pi_dir : string).
Variable proj : MetadataDocument * string.
Variable analysis : MetadataDocument * string * list MetadataDocument * list string.
Variable samples : list MetadataDocument * list string *
                   list (list MetadataDocument) * list (list string).

(** The checks end at the first call on the session. *)
Lemma evaluate_levels_stops :
  evaluate_levels session ipath vault (pi_meta, pi_dir) proj analysis samples
  = ([Stdout (level_header "PI_Lab" pi_dir);
      Lookup true (get_dme_directory pi_dir ipath vault)],
     Raise (AttributeError "get_collection_dme_meta")).
Proof.
  destruct proj as [proj_meta proj_dir], analysis as [[[am ad] ao] aod],
           samples as [[[sm sd] so] sod].
  reflexivity.
Qed.

End LevelsStop.

Section ExitStatus.

Lemma no_clean_exit_bind {A B : Type} (m : M A) (k : A -> M B) :
  no_clean_exit m ->
  (forall tr a, m = (tr, Ret a) -> no_clean_exit (k a)) ->
  no_clean_exit (bind m k).
Proof.
  unfold no_clean_exit. destruct m as [tr [a | code | e]]; cbn; intros Hm Hk.
  - specialize (Hk tr a eq_refl). destruct (k a) as [tr' o]. exact Hk.
  - intros H. apply Hm. injection H as ->. reflexivity.
  - discriminate.
Qed.

Lemma no_clean_exit_ret {A : Type} (a : A) : no_clean_exit (ret a).
Proof. discriminate. Qed.

Lemma no_clean_exit_mapM {A B : Type} (f : A -> M B) (l : list A) :
  (forall x, no_clean_exit (f x)) -> no_clean_exit (mapM f l).
Proof.
  intros H. induction l as [|x l IH]; cbn [mapM]; [discriminate|].
  apply no_clean_exit_bind; [apply H|]. intros _ y _.
  apply no_clean_exit_bind; [apply IH|]. intros; discriminate.
Qed.

Variable fs : FileSystem.

Lemma no_clean_exit_os_listdir (path : string) : no_clean_exit (os_listdir fs path).
Proof. unfold os_listdir. destruct (listdir fs path); discriminate. Qed.

Lemma no_clean_exit_json2dict (file : string) : no_clean_exit (json2dict fs file).
Proof. unfold json2dict, file_exists. destruct (read fs file); discriminate. Qed.

Lemma no_clean_exit_objects (path : string) :
  no_clean_exit (get_sample_objects fs path).
Proof.
  unfold get_sample_objects.
  apply no_clean_exit_bind; [apply no_clean_exit_os_listdir|]. intros _ files _.
  apply no_clean_exit_bind; [|intros; discriminate].
  apply no_clean_exit_mapM. intros f. apply no_clean_exit_json2dict.
Qed.

Lemma no_clean_exit_level (marker what path : string) :
  no_clean_exit
    (files <- os_listdir fs path ;;
     match filter (is_level_file marker) files with
     | [f0] =>
         let directory := path ++ "/" ++ PyStr.split_head "." f0 in
         meta <- json2dict fs (path ++ "/" ++ f0) ;;
         ret (meta, directory)
     | _ => eprint (not_unique what path) ;; sys_exit 1
     end).
Proof.
  apply no_clean_exit_bind; [apply no_clean_exit_os_listdir|]. intros _ files _.
  destruct (filter (is_level_file marker) files) as [|f0 [|f1 l]]; try discriminate.
  apply no_clean_exit_bind; [apply no_clean_exit_json2dict|]. intros; discriminate.
Qed.

Lemma no_clean_exit_get_analysis (path : string) : no_clean_exit (get_analysis fs path).
Proof.
  unfold get_analysis.
  apply no_clean_exit_bind; [apply no_clean_exit_os_listdir|]. intros _ files _.
  destruct (filter (is_level_file "Primary_Analysis_") files) as [|f0 [|f1 l]];
    try discriminate.
  apply no_clean_exit_bind; [apply no_clean_exit_json2dict|]. intros _ meta _.
  apply no_clean_exit_bind; [apply no_clean_exit_objects|]. intros _ [o od] _.
  discriminate.
Qed.

Lemma no_clean_exit_get_samples (path : string) : no_clean_exit (get_samples fs path).
Proof.
  unfold get_samples.
  apply no_clean_exit_bind; [apply no_clean_exit_os_listdir|]. intros _ files _.
  apply no_clean_exit_bind;
    [apply no_clean_exit_mapM; intros; apply no_clean_exit_json2dict|].
  intros _ metas _.
  apply no_clean_exit_bind;
    [apply no_clean_exit_mapM; intros; apply no_clean_exit_objects|].
  intros; discriminate.
Qed.

Lemma no_clean_exit_validate_args (user_inputs : list string) :
  no_clean_exit (validate_args fs user_inputs).
Proof.
  unfold validate_args, path_exists.
  destruct user_inputs as [|ipath [|vault [|x l]]]; try discriminate.
  destruct (mem _ _); [|discriminate].
  destruct (isdir fs ipath); discriminate.
Qed.

Lemma no_clean_exit_args (argv : list string) :
  asks_help (tl argv) = false -> no_clean_exit (args argv).
Proof.
  unfold args, asks_help. intros ->. destruct (negb _); discriminate.
Qed.

(** A computation that does not exit with status 0 and whose continuation
    fails, fails. *)
Lemma status_bind {A B : Type} (m : M A) (k : A -> M B) :
  no_clean_exit m ->
  (forall tr a, m = (tr, Ret a) -> exit_status (snd (k a)) <> 0%Z) ->
  exit_status (snd (bind m k)) <> 0%Z.
Proof.
  unfold no_clean_exit. destruct m as [tr [a | code | e]]; cbn; intros Hm Hk.
  - specialize (Hk tr a eq_refl). destruct (k a) as [tr' o]. exact Hk.
  - intros H. apply Hm. now rewrite H.
  - discriminate.
Qed.

Lemma main_fails (connect : M DMESession) (argv : list string) :
  asks_help (tl argv) = false ->
  no_clean_exit connect ->
  exit_status (snd (main fs connect argv)) <> 0%Z.
Proof.
  intros Hh Hc. unfold main.
  apply status_bind; [discriminate|]. intros _ _ _.
  apply status_bind; [now apply no_clean_exit_args|]. intros _ user_args _.
  apply status_bind; [apply no_clean_exit_validate_args|]. intros _ [ipath vault] _.
  apply status_bind; [apply no_clean_exit_level|]. intros _ [pi_meta pi_dir] _.
  apply status_bind; [apply no_clean_exit_level|]. intros _ [proj_meta proj_dir] _.
  apply status_bind; [apply no_clean_exit_get_analysis|]. intros _ analysis _.
  apply status_bind; [apply no_clean_exit_get_samples|]. intros _ samples _.
  apply status_bind; [exact Hc|]. intros _ dme_session _.
  apply status_bind; [discriminate|]. intros _ _ _.
  rewrite evaluate_levels_stops. discriminate.
Qed.

End ExitStatus.

Section SessionExit.

Import DmeUtils.

Lemma no_clean_exit_index {A : Type} (l : list A) (i : nat) : no_clean_exit (index l i).
Proof. unfold index. destruct (nth_error l i); discriminate. Qed.

Lemma no_clean_exit_scan_url (lines : list string) : no_clean_exit (scan_url lines).
Proof.
  induction lines as [|l lines IH]; cbn [scan_url]; [discriminate|].
  destruct l as [|c l]; [discriminate|].
  destruct (Ascii.eqb c "#"); [exact IH|].
  destruct (PyStr.contains _ _); [apply no_clean_exit_index | exact IH].
Qed.

Lemma no_clean_exit_get_dme_url (h : Host) : no_clean_exit (get_dme_url h).
Proof.
  unfold get_dme_url. destruct (environ h dme_utils); [|discriminate].
  destruct (content h _); [apply no_clean_exit_scan_url | discriminate].
Qed.

Lemma no_clean_exit_get_token (system : Host -> Host) (h : Host) :
  no_clean_exit (get_token_from_file system h).
Proof.
  unfold get_token_from_file. destruct (environ h dme_utils); [|discriminate].
  apply no_clean_exit_bind.
  - destruct (negb _); discriminate.
  - intros _ h' _. destruct (content h' _); [|discriminate].
    apply no_clean_exit_bind; [apply no_clean_exit_index|]. intros _ line _.
    apply no_clean_exit_bind; [apply no_clean_exit_index|]. intros; discriminate.
Qed.

Lemma no_clean_exit_new_session (import_requests : M unit) (system : Host -> Host)
      (h : Host) :
  no_clean_exit import_requests ->
  no_clean_exit (new_session import_requests system h).
Proof.
  intros Hi. unfold new_session, init. cbn [String.eqb].
  apply no_clean_exit_bind; [|intros _ [url token] _; discriminate].
  apply no_clean_exit_bind; [apply no_clean_exit_get_dme_url|]. intros _ url _.
  apply no_clean_exit_bind; [apply no_clean_exit_get_token|]. intros _ token _.
  apply no_clean_exit_bind; [exact Hi|]. intros; discriminate.
Qed.

End SessionExit.

(** X18.  A run of [main] ends with status 0 exactly when help is asked
    for: every other run, whatever the local tree and the host, ends with
    a status other than 0.  This holds for the session of [dme_utils.py]
    as long as the import of [requests] does not itself exit with status
    0. *)
Theorem main_status_zero (fs : FileSystem) (import_requests : M unit)
        (system : DmeUtils.Host -> DmeUtils.Host) (h : DmeUtils.Host)
        (argv : list string) :
  no_clean_exit import_requests ->
  (exit_status (snd (main fs (new_session import_requests system h) argv)) = 0%Z
   <-> asks_help (tl argv) = true).
Proof.
  intros Hi. split.
  - intros H. destruct (asks_help (tl argv)) eqn:Hh; [reflexivity|].
    exfalso.
    exact (main_fails fs _ argv Hh
             (no_clean_exit_new_session import_requests system h Hi) H).
  - intros Hh. unfold main.
    rewrite (bind_Ret (print _) _ _ tt eq_refl).
    now rewrite (bind_Exit _ _ _ _ (args_help argv Hh)).
Qed.

Lemma main_status_zero_witness :
  (exit_status (snd (main Scenario.fs Run.connect Scenario.argv)) = 0%Z
   <-> asks_help (tl Scenario.argv) = true) /\
  exit_status (snd (main Scenario.fs Run.connect Scenario.argv)) = 1%Z /\
  exit_status (snd (main Scenario.fs Run.connect ["validate.py"; "-h"])) = 0%Z.
Proof.
  split; [|split; reflexivity].
  apply (main_status_zero Scenario.fs (ret tt) Hosts.no_command Hosts.ready
           Scenario.argv).
  discriminate.
Defined.

Section OneCall.

(** A call on the session is made after the scans, in the checks. *)
Lemma lookup_after_scans (fs : FileSystem) (connect : M DMESession)
      (argv : list string) (c : bool) (p : string) :
  trace_all no_lookup connect ->
  In (Lookup c p) (fst (main fs connect argv)) ->
  exists user_args ipath vault pi_meta pi_dir proj_meta proj_dir analysis samples
         tr session,
    args argv = ([], Ret user_args) /\
    validate_args fs user_args = ([], Ret (ipath, vault)) /\
    get_pi_lab fs ipath = ([], Ret (pi_meta, pi_dir)) /\
    get_project fs pi_dir = ([], Ret (proj_meta, proj_dir)) /\
    get_analysis fs proj_dir = ([], Ret analysis) /\
    get_samples fs proj_dir = ([], Ret samples) /\
    connect = (tr, Ret session) /\
    In (Lookup c p)
       [Stdout (level_header "PI_Lab" pi_dir);
        Lookup true (get_dme_directory pi_dir ipath vault)].
Proof.
  intros Hc H. unfold main in H.
  assert (Po : forall text, no_lookup (Stdout text)) by (intros; exact I).
  assert (Pe : forall text, no_lookup (Stderr text)) by (intros; exact I).
  apply in_bind_inv in H as [H | [tr0 [[] [_ H]]]];
    [destruct H as [H | []]; discriminate H|].
  apply in_bind_inv in H as [H | [tr1 [user_args [Hargs H]]]];
    [now apply (no_lookup_not_in _ c p (trace_all_args _ Po Pe argv)) in H|].
  apply in_bind_inv in H as [H | [tr2 [[ipath vault] [Hvalid H]]]];
    [now apply (no_lookup_not_in _ c p
                  (trace_all_validate_args _ Pe fs user_args)) in H|].
  apply in_bind_inv in H as [H | [tr3 [[pi_meta pi_dir] [Hgp H]]]];
    [now apply (no_lookup_not_in _ c p
                  (trace_all_level _ Pe fs "PI_Lab" "PI_Lab" ipath)) in H|].
  apply in_bind_inv in H as [H | [tr4 [[proj_meta proj_dir] [Hgj H]]]];
    [now apply (no_lookup_not_in _ c p
                  (trace_all_level _ Pe fs "Project_" "Project" pi_dir)) in H|].
  apply in_bind_inv in H as [H | [tr5 [analysis [Hga H]]]];
    [now apply (no_lookup_not_in _ c p
                  (trace_all_get_analysis _ Pe fs proj_dir)) in H|].
  apply in_bind_inv in H as [H | [tr6 [samples [Hgs H]]]];
    [now apply (no_lookup_not_in _ c p
                  (trace_all_get_samples _ Pe fs proj_dir)) in H|].
  apply in_bind_inv in H as [H | [tr7 [session [Hcon H]]]];
    [now apply (no_lookup_not_in _ c p Hc) in H|].
  apply in_bind_inv in H as [H | [tr8 [[] [_ H]]]];
    [destruct H as [H | []]; discriminate H|].
  rewrite evaluate_levels_stops in H. cbn [fst] in H.
  pose proof (silent_args _ _ _ Hargs). subst tr1.
  pose proof (silent_validate_args _ _ _ _ Hvalid). subst tr2.
  pose proof (silent_level fs _ _ _ _ _ Hgp). subst tr3.
  pose proof (silent_level fs _ _ _ _ _ Hgj). subst tr4.
  pose proof (silent_get_analysis fs _ _ _ Hga). subst tr5.
  pose proof (silent_get_samples fs _ _ _ Hgs). subst tr6.
  exists user_args, ipath, vault, pi_meta, pi_dir, proj_meta, proj_dir,
         analysis, samples, tr7, session.
  repeat split; assumption.
Qed.

End OneCall.

(** X19.  The one call a run makes on its session is the collection call
    for the PI_Lab directory, and the run ends with the AttributeError of
    that call: no Project, Primary Analysis, Sample or data object is ever
    asked for, whatever the local tree holds. *)
Theorem main_calls_session_once (fs : FileSystem) (connect : M DMESession)
        (argv : list string) (c : bool) (p : string) :
  trace_all no_lookup connect ->
  In (Lookup c p) (fst (main fs connect argv)) ->
  exists user_args ipath vault pi_meta pi_dir,
    args argv = ([], Ret user_args) /\
    validate_args fs user_args = ([], Ret (ipath, vault)) /\
    get_pi_lab fs ipath = ([], Ret (pi_meta, pi_dir)) /\
    c = true /\ p = get_dme_directory pi_dir ipath vault /\
    snd (main fs connect argv) = Raise (AttributeError "get_collection_dme_meta").
Proof.
  intros Hc H.
  destruct (lookup_after_scans fs connect argv c p Hc H)
    as (user_args & ipath & vault & pi_meta & pi_dir & proj_meta & proj_dir &
        analysis & samples & tr & session &
        Hargs & Hvalid & Hgp & Hgj & Hga & Hgs & Hcon & Hin).
  exists user_args, ipath, vault, pi_meta, pi_dir.
  split; [exact Hargs|]. split; [exact Hvalid|]. split; [exact Hgp|].
  destruct Hin as [Hin | [Hin | []]]; [discriminate Hin|].
  injection Hin as <- <-. split; [reflexivity|]. split; [reflexivity|].
  rewrite (main_levels fs connect argv user_args tr session ipath vault
             pi_meta proj_meta pi_dir proj_dir analysis samples
             Hargs Hvalid Hgp Hgj Hga Hgs Hcon).
  now rewrite evaluate_levels_stops.
Qed.

Lemma main_calls_session_once_witness :
  exists user_args ipath vault pi_meta pi_dir,
    args Scenario.argv = ([], Ret user_args) /\
    validate_args Scenario.fs user_args = ([], Ret (ipath, vault)) /\
    get_pi_lab Scenario.fs ipath = ([], Ret (pi_meta, pi_dir)) /\
    true = true /\
    "/CCBR_Archive/PI_Lab_Foo" = get_dme_directory pi_dir ipath vault /\
    snd (main Scenario.fs Run.connect Scenario.argv)
    = Raise (AttributeError "get_collection_dme_meta").
Proof.
  apply (main_calls_session_once Scenario.fs Run.connect Scenario.argv
           true "/CCBR_Archive/PI_Lab_Foo").
  - vm_compute. constructor.
  - vm_compute. repeat first [left; reflexivity | right].
Defined.

(** X20.  [main] handles no error of a call on the session.  In a run that
    reads its tree and builds its session, the call for the PI_Lab raises
    AttributeError, and the run ends at once with that error uncaught and
    exit status 1: nothing is printed or called after it. *)
Theorem main_request_fails
    (fs : FileSystem) (connect : M DMESession) (argv user_args : list string)
    (tr : list event) (session : DMESession) (ipath vault : string)
    (pi_meta proj_meta : MetadataDocument) (pi_dir proj_dir : string)
    (analysis : MetadataDocument * string * list MetadataDocument * list string)
    (samples : list MetadataDocument * list string *
               list (list MetadataDocument) * list (list string)) :
  args argv = ([], Ret user_args) ->
  validate_args fs user_args = ([], Ret (ipath, vault)) ->
  get_pi_lab fs ipath = ([], Ret (pi_meta, pi_dir)) ->
  get_project fs pi_dir = ([], Ret (proj_meta, proj_dir)) ->
  get_analysis fs proj_dir = ([], Ret analysis) ->
  get_samples fs proj_dir = ([], Ret samples) ->
  connect = (tr, Ret session) ->
  main fs connect argv
  = ((Stdout banner :: tr ++
      [Stdout ("DME session URL: " ++ dme_url session);
       Stdout (level_header "PI_Lab" pi_dir);
       Lookup true (get_dme_directory pi_dir ipath vault)])%list,
     Raise (AttributeError "get_collection_dme_meta")) /\
  exit_status (snd (main fs connect argv)) = 1%Z.
Proof.
  intros Hargs Hvalid Hgp Hgj Hga Hgs Hc.
  rewrite (main_levels fs connect argv user_args tr session ipath vault
             pi_meta proj_meta pi_dir proj_dir analysis samples
             Hargs Hvalid Hgp Hgj Hga Hgs Hc).
  rewrite evaluate_levels_stops. split; reflexivity.
Qed.

Lemma main_request_fails_witness :
  main Scenario.fs Run.connect Scenario.argv
  = ([Stdout banner;
      Stdout ("DME session URL: " ++ Hosts.server ++ nl);
      Stdout (level_header "PI_Lab" Scenario.pi_dir);
      Lookup true "/CCBR_Archive/PI_Lab_Foo"],
     Raise (AttributeError "get_collection_dme_meta")) /\
  exit_status (snd (main Scenario.fs Run.connect Scenario.argv)) = 1%Z.
Proof.
  apply (main_request_fails Scenario.fs Run.connect Scenario.argv
           ["/scratch/DME"; "CCBR_Archive"] []
           {| dme_url := Hosts.server ++ nl; dme_token := "eyJhbGciOi.J9" |}
           "/scratch/DME" "CCBR_Archive"
           Scenario.pi_local Scenario.proj_local Scenario.pi_dir Scenario.proj_dir
           (Scenario.analysis_local, Scenario.analysis_dir,
            [Scenario.object_local "counts.tsv"; Scenario.object_local "report.html"],
            [Scenario.analysis_dir ++ "/counts.tsv";
             Scenario.analysis_dir ++ "/report.html"])
           ([Scenario.sample_local], [Scenario.sample_dir],
            [[Scenario.object_local "S1.fastq.gz"]],
            [[Scenario.sample_dir ++ "/S1.fastq.gz"]]));
    reflexivity.
Defined.

(** X21.  The session is built after the whole local tree is read: on a
    host where [HPC_DM_UTILS] is not set, a run whose arguments are
    accepted and whose four scans return prints the banner and then the
    error line of the session, and exits with status 1. *)
Theorem main_without_environment
    (fs : FileSystem) (import_requests : M unit)
    (system : DmeUtils.Host -> DmeUtils.Host) (h : DmeUtils.Host)
    (argv user_args : list string) (ipath vault : string)
    (pi_meta proj_meta : MetadataDocument) (pi_dir proj_dir : string)
    (analysis : MetadataDocument * string * list MetadataDocument * list string)
    (samples : list MetadataDocument * list string *
               list (list MetadataDocument) * list (list string)) :
  DmeUtils.environ h DmeUtils.dme_utils = None ->
  args argv = ([], Ret user_args) ->
  validate_args fs user_args = ([], Ret (ipath, vault)) ->
  get_pi_lab fs ipath = ([], Ret (pi_meta, pi_dir)) ->
  get_project fs pi_dir = ([], Ret (proj_meta, proj_dir)) ->
  get_analysis fs proj_dir = ([], Ret analysis) ->
  get_samples fs proj_dir = ([], Ret samples) ->
  main fs (new_session import_requests system h) argv
  = ([Stdout banner; Stdout DmeUtils.not_in_environment], Exit 1%Z).
Proof.
  intros He Hargs Hvalid Hgp Hgj Hga Hgs. unfold main.
  rewrite (bind_Ret (print _) _ _ tt eq_refl).
  rewrite (bind_Ret _ _ _ _ Hargs), (bind_Ret _ _ _ _ Hvalid).
  rewrite (bind_Ret _ _ _ _ Hgp), (bind_Ret _ _ _ _ Hgj).
  rewrite (bind_Ret _ _ _ _ Hga), (bind_Ret _ _ _ _ Hgs).
  unfold new_session, DmeUtils.init, DmeUtils.get_dme_url. rewrite He.
  reflexivity.
Qed.

Lemma main_without_environment_witness :
  main Scenario.fs (new_session (ret tt) Hosts.no_command Hosts.bare) Scenario.argv
  = ([Stdout banner; Stdout DmeUtils.not_in_environment], Exit 1%Z).
Proof.
  apply (main_without_environment Scenario.fs (ret tt) Hosts.no_command
           Hosts.bare Scenario.argv
           ["/scratch/DME"; "CCBR_Archive"] "/scratch/DME" "CCBR_Archive"
           Scenario.pi_local Scenario.proj_local Scenario.pi_dir Scenario.proj_dir
           (Scenario.analysis_local, Scenario.analysis_dir,
            [Scenario.object_local "counts.tsv"; Scenario.object_local "report.html"],
            [Scenario.analysis_dir ++ "/counts.tsv";
             Scenario.analysis_dir ++ "/report.html"])
           ([Scenario.sample_local], [Scenario.sample_dir],
            [[Scenario.object_local "S1.fastq.gz"]],
            [[Scenario.sample_dir ++ "/S1.fastq.gz"]])); reflexivity.
Defined.


(** ** Path mapper on the paths of the walker *)

Section WalkerPaths.

Lemma slice_from_app (root rest : string) :
  PyStr.slice_from (String.length root) (root ++ rest) = rest.
Proof. induction root as [|c root IH]; [now destruct rest | exact IH]. Qed.

Lemma collapse_pairs_other (c : ascii) (s : string) :
  Ascii.eqb c "/" = false ->
  collapse_pairs (String c s) = String c (collapse_pairs s).
Proof.
  intros H. destruct s as [|d s]; [reflexivity|].
  now rewrite collapse_pairs_cons2, H.
Qed.

Lemma collapse_pairs_app (v t : string) :
  PyStr.contains "/" v = false ->
  collapse_pairs (v ++ t) = v ++ collapse_pairs t.
Proof.
  induction v as [|c v IH]; intros H; [reflexivity|].
  rewrite contains_slash_cons in H. apply orb_false_iff in H as [Hc Hv].
  cbn [String.append]. now rewrite collapse_pairs_other, IH.
Qed.

Lemma collapse_pairs_fixed (s : string) :
  PyStr.contains "//" s = false -> collapse_pairs s = s.
Proof.
  induction s as [| c | c d s IH1 IH2] using string_pair_ind; intros H;
    try reflexivity.
  rewrite contains_cons, startswith2 in H.
  apply orb_false_iff in H as [Hcd Hrest].
  now rewrite collapse_pairs_cons2, Hcd, IH2.
Qed.

End WalkerPaths.

(** X22.  For a local path [ipath + "/" + rest], as the walker builds them,
    the remote path is ["/" + vault + "/" + rest] whenever the vault is not
    empty and has no separator (as every accepted vault) and [rest] neither
    begins with a separator nor holds a doubled one; in particular it does
    not depend on the local root. *)
Theorem get_dme_directory_under_root (ipath rest vault : string) :
  vault <> EmptyString ->
  PyStr.contains "/" vault = false ->
  PyStr.startswith "/" rest = false ->
  PyStr.contains "//" rest = false ->
  get_dme_directory (ipath ++ "/" ++ rest) ipath vault = "/" ++ vault ++ "/" ++ rest.
Proof.
  intros Hne Hv Hs Hr.
  rewrite get_dme_directory_unfold, slice_from_app. cbv zeta.
  rewrite (collapse_pairs_app vault _ Hv).
  change ("/" ++ "/" ++ rest) with (String "/" (String "/" rest)).
  rewrite collapse_pairs_cons2. cbn [Ascii.eqb Bool.eqb andb].
  rewrite (collapse_pairs_fixed rest Hr).
  destruct vault as [|c v]; [contradiction|].
  rewrite contains_slash_cons in Hv. apply orb_false_iff in Hv as [Hc _].
  cbn [String.append]. rewrite startswith_slash_cons, Hc. reflexivity.
Qed.

Lemma get_dme_directory_under_root_witness :
  get_dme_directory ("/scratch/DME" ++ "/" ++ "PI_Lab_Foo/Project_Bar/Sample_S1")
                    "/scratch/DME" "CCBR_EXT_Archive"
  = "/CCBR_EXT_Archive/PI_Lab_Foo/Project_Bar/Sample_S1".
Proof.
  apply (get_dme_directory_under_root "/scratch/DME" "PI_Lab_Foo/Project_Bar/Sample_S1"
           "CCBR_EXT_Archive"); try reflexivity. discriminate.
Defined.

(** ** Start-up files of the session *)

Section SplitFacts.

Lemma append_assoc (a b c : string) : (a ++ b) ++ c = a ++ b ++ c.
Proof. induction a as [|x a IH]; [reflexivity|]. cbn [String.append]. now rewrite IH. Qed.

Lemma append_nil_r (a : string) : a ++ "" = a.
Proof. induction a as [|x a IH]; [reflexivity|]. cbn [String.append]. now rewrite IH. Qed.

Lemma split_from_skip (sep p acc rest : string) :
  PyText.split_from sep (String.length p) acc (p ++ rest)
  = PyText.split_from sep 0 acc rest.
Proof.
  induction p as [|c p IH]; [now destruct rest|].
  cbn [String.length String.append PyText.split_from]. exact IH.
Qed.

(** Without an occurrence of [sep] there is one piece. *)
Lemma split_from_none (sep acc t : string) :
  PyStr.contains sep t = false ->
  PyText.split_from sep 0 acc t = [acc ++ t].
Proof.
  revert acc. induction t as [|c t IH]; intros acc H.
  - cbn [PyText.split_from]. now rewrite append_nil_r.
  - rewrite contains_cons in H. apply orb_false_iff in H as [Hs Ht].
    cbn [PyText.split_from]. rewrite Hs, (IH _ Ht), append_assoc. reflexivity.
Qed.

(** The piece before the first occurrence of an unbordered [sep]. *)
Lemma split_from_first (sep acc t rest : string) :
  unbordered sep = true ->
  sep <> EmptyString ->
  PyStr.contains sep t = false ->
  PyText.split_from sep 0 acc (t ++ sep ++ rest)
  = (acc ++ t) :: PyText.split_from sep 0 "" rest.
Proof.
  intros Hu Hsep. revert acc. induction t as [|c t IH]; intros acc Ht.
  - rewrite append_nil_r. cbn [String.append].
    destruct sep as [|d sep]; [contradiction|].
    pose proof (startswith_app_long (String d sep) (String d sep) rest (le_n _)) as E.
    rewrite startswith_refl in E.
    cbn [String.append PyText.split_from] in E |- *. rewrite E.
    replace (String.length (String d sep) - 1) with (String.length sep)
      by (cbn [String.length]; lia).
    now rewrite split_from_skip.
  - rewrite contains_cons in Ht. apply orb_false_iff in Ht as [Hs Ht].
    cbn [String.append PyText.split_from].
    change (String c (t ++ sep ++ rest)) with (String c t ++ sep ++ rest).
    rewrite no_early_occurrence by (auto; discriminate).
    now rewrite (IH _ Ht), append_assoc.
Qed.




(** No line of a file is empty. *)
Lemma readlines_from_nonempty (acc text : string) :
  Forall (fun l => l <> EmptyString) (PyText.readlines_from acc text).
Proof.
  revert acc. induction text as [|c text IH]; intros acc; cbn [PyText.readlines_from].
  - destruct acc; repeat constructor. discriminate.
  - destruct (Ascii.eqb c (ascii_of_nat 10)); [|apply IH].
    constructor; [|apply IH]. destruct acc; discriminate.
Qed.

End SplitFacts.

Section StartUp.

Import DmeUtils.

Import Hosts.

Lemma scan_url_passes (pre rest : list string) :
  Forall (fun l => l <> EmptyString) pre ->
  forallb passed_over pre = true ->
  scan_url (pre ++ rest) = scan_url rest.
Proof.
  induction 1 as [|l pre Hne _ IH]; [reflexivity|].
  cbn [forallb]. intros Hp. apply andb_true_iff in Hp as [Hp Hps].
  specialize (IH Hps).
  cbn [app scan_url]. destruct l as [|c l]; [contradiction|].
  unfold passed_over in Hp. cbn [PyStr.startswith] in Hp.
  rewrite andb_true_r, Ascii.eqb_sym in Hp.
  destruct (Ascii.eqb c "#"); [exact IH|].
  cbn [orb] in Hp. apply negb_true_iff in Hp. now rewrite Hp.
Qed.

Lemma scan_url_line (a u tail : string) (rest : list string) :
  passed_over (a ++ "=" ++ u ++ tail) = false ->
  PyStr.contains "=" a = false ->
  PyStr.contains "=" u = false ->
  tail = "" \/ PyStr.startswith "=" tail = true ->
  scan_url ((a ++ "=" ++ u ++ tail) :: rest) = ([], Ret u).
Proof.
  intros Hp Ha Hu Ht. unfold passed_over in Hp.
  apply orb_false_iff in Hp as [Hh Hk]. apply negb_false_iff in Hk.
  cbn [scan_url].
  destruct (a ++ "=" ++ u ++ tail) as [|c l] eqn:E.
  - destruct a; discriminate E.
  - cbn [PyStr.startswith] in Hh. rewrite andb_true_r, Ascii.eqb_sym in Hh.
    rewrite Hh, Hk, <- E. unfold PyText.split.
    rewrite split_from_first by (try reflexivity; try discriminate; exact Ha).
    destruct Ht as [-> | Ht].
    + rewrite append_nil_r, (split_from_none "=" "" u Hu). reflexivity.
    + destruct tail as [|d tail]; [discriminate Ht|].
      cbn [PyStr.startswith] in Ht. rewrite andb_true_r in Ht.
      apply Ascii.eqb_eq in Ht. subst d.
      change (String "=" tail) with ("=" ++ tail).
      rewrite split_from_first by (try reflexivity; try discriminate; exact Hu).
      reflexivity.
Qed.

Lemma scan_url_no_sign (l : string) (rest : list string) :
  passed_over l = false ->
  PyStr.contains "=" l = false ->
  scan_url (l :: rest) = ([], Raise IndexError).
Proof.
  intros Hp He. unfold passed_over in Hp.
  apply orb_false_iff in Hp as [Hh Hk]. apply negb_false_iff in Hk.
  cbn [scan_url]. destruct l as [|c l]; [discriminate Hk|].
  cbn [PyStr.startswith] in Hh. rewrite andb_true_r, Ascii.eqb_sym in Hh.
  rewrite Hh, Hk. unfold PyText.split. now rewrite (split_from_none "=" "" _ He).
Qed.

Lemma Forall_app_l {A : Type} (P : A -> Prop) (l r : list A) :
  Forall P (l ++ r)%list -> Forall P l.
Proof. intros H. apply Forall_app in H. exact (proj1 H). Qed.

Lemma contains_char_app (c : ascii) (a b : string) :
  PyStr.contains (String c "") (a ++ b)
  = PyStr.contains (String c "") a || PyStr.contains (String c "") b.
Proof.
  induction a as [|x a IH].
  - cbn [String.append PyStr.contains PyStr.startswith orb]. reflexivity.
  - cbn [String.append]. rewrite !contains_cons, IH.
    cbn [PyStr.startswith]. now rewrite orb_assoc.
Qed.

Lemma readlines_from_app (acc s x : string) :
  PyText.readlines_from acc (s ++ nl ++ x)
  = (PyText.readlines_from acc (s ++ nl) ++ PyText.readlines x)%list.
Proof.
  revert acc. induction s as [|c s IH]; intros acc.
  - reflexivity.
  - cbn [String.append PyText.readlines_from].
    destruct (Ascii.eqb c (ascii_of_nat 10)); rewrite IH; reflexivity.
Qed.

Lemma readlines_from_line (acc v : string) :
  PyStr.contains nl v = false ->
  PyText.readlines_from acc (v ++ nl) = [acc ++ v ++ nl].
Proof.
  revert acc. induction v as [|c v IH]; intros acc H.
  - reflexivity.
  - rewrite contains_cons in H. apply orb_false_iff in H as [Hc Hv].
    unfold nl in Hc. cbn [PyStr.startswith] in Hc.
    rewrite andb_true_r, Ascii.eqb_sym in Hc.
    cbn [String.append PyText.readlines_from]. rewrite Hc, (IH _ Hv).
    now rewrite append_assoc.
Qed.

(** A text made of whole lines can be read before what follows it. *)
Lemma readlines_whole (head x : string) :
  head = "" \/ (exists h0, head = h0 ++ nl) ->
  PyText.readlines (head ++ x) = (PyText.readlines head ++ PyText.readlines x)%list.
Proof.
  intros [-> | [h0 ->]]; [reflexivity|].
  unfold PyText.readlines at 1 2. rewrite append_assoc, readlines_from_app.
  reflexivity.
Qed.

Lemma readlines_nonempty (text : string) (pre post : list string) :
  PyText.readlines text = (pre ++ post)%list ->
  Forall (fun l => l <> EmptyString) pre.
Proof.
  intros E. apply (Forall_app_l _ pre post). rewrite <- E.
  apply readlines_from_nonempty.
Qed.

(** X23. When the variable [HPC_DM_UTILS] is set and the properties file can
    be read, [get_dme_url] passes over the lines that begin with [#] and
    those that do not mention [hpc.server.url], and returns, of the first
    other line, what stands between its first [=] and its second [=] or its
    end; the lines after that one are not looked at. *)
Theorem get_dme_url_value (h : Host) (dir text : string)
    (pre post : list string) (a u tail : string) :
  environ h dme_utils = Some dir ->
  content h (dir ++ "/hpcdme.properties") = Some text ->
  PyText.readlines text = (pre ++ (a ++ "=" ++ u ++ tail)%string :: post)%list ->
  forallb passed_over pre = true ->
  passed_over (a ++ "=" ++ u ++ tail) = false ->
  PyStr.contains "=" a = false ->
  PyStr.contains "=" u = false ->
  tail = "" \/ PyStr.startswith "=" tail = true ->
  get_dme_url h = ([], Ret u).
Proof.
  intros He Hc Hl Hpre Hp Ha Hu Ht. unfold get_dme_url. rewrite He, Hc, Hl.
  rewrite scan_url_passes by (eauto using readlines_nonempty).
  now apply scan_url_line.
Qed.

Lemma get_dme_url_value_witness :
  get_dme_url ready = ([], Ret (server ++ nl)).
Proof.
  apply (get_dme_url_value ready utils properties_text
           ["# hpc.server.url=https://localhost" ++ nl;
            "hpc.ssl.keystore.path=cacerts.jks" ++ nl]
           ["hpc.login.module=LDAP" ++ nl]
           "hpc.server.url" (server ++ nl) "").
  - reflexivity.
  - reflexivity.
  - reflexivity.
  - reflexivity.
  - reflexivity.
  - reflexivity.
  - reflexivity.
  - left. reflexivity.
Defined.

(** X24. The url that [get_dme_url] reads from a line
    [hpc.server.url=v] of the properties file keeps the line feed that ends
    the line: the result is [v] followed by a line feed, not [v]. *)
Theorem get_dme_url_keeps_line_feed (h : Host) (dir head v rest : string) :
  environ h dme_utils = Some dir ->
  content h (dir ++ "/hpcdme.properties")
    = Some (head ++ "hpc.server.url=" ++ v ++ nl ++ rest) ->
  head = "" \/ (exists h0, head = h0 ++ nl) ->
  forallb passed_over (PyText.readlines head) = true ->
  PyStr.contains nl v = false ->
  PyStr.contains "=" v = false ->
  get_dme_url h = ([], Ret (v ++ nl)).
Proof.
  intros He Hc Hh Hpre Hn Hv. unfold get_dme_url. rewrite He, Hc.
  rewrite (readlines_whole head _ Hh).
  assert (El : PyText.readlines ("hpc.server.url=" ++ v ++ nl ++ rest)
               = ("hpc.server.url" ++ "=" ++ (v ++ nl) ++ "") :: PyText.readlines rest).
  { unfold PyText.readlines at 1.
    change ("hpc.server.url=" ++ v ++ nl ++ rest)
      with ("hpc.server.url=" ++ (v ++ nl ++ rest)).
    rewrite <- (append_assoc "hpc.server.url=" v (nl ++ rest)), readlines_from_app.
    rewrite readlines_from_line.
    - rewrite append_nil_r. cbn [String.append app]. reflexivity.
    - unfold nl. rewrite contains_char_app. fold nl. rewrite Hn. reflexivity. }
  rewrite El, scan_url_passes.
  - apply scan_url_line.
    + reflexivity.
    + reflexivity.
    + unfold nl in *. rewrite contains_char_app, Hv. reflexivity.
    + now left.
  - apply readlines_from_nonempty.
  - exact Hpre.
Qed.

Lemma get_dme_url_keeps_line_feed_witness :
  get_dme_url ready = ([], Ret (server ++ nl)).
Proof.
  apply (get_dme_url_keeps_line_feed ready utils properties_head server properties_tail).
  - reflexivity.
  - reflexivity.
  - right. exists ("# hpc.server.url=https://localhost" ++ nl ++
                   "hpc.ssl.keystore.path=cacerts.jks"). reflexivity.
  - reflexivity.
  - reflexivity.
  - reflexivity.
Defined.

(** X25. When every line of the properties file begins with [#] or does not
    mention [hpc.server.url] (an empty file is such a file), [get_dme_url]
    prints nothing, raises nothing and returns the empty string. *)
Theorem get_dme_url_default (h : Host) (dir text : string) :
  environ h dme_utils = Some dir ->
  content h (dir ++ "/hpcdme.properties") = Some text ->
  forallb passed_over (PyText.readlines text) = true ->
  get_dme_url h = ([], Ret EmptyString).
Proof.
  intros He Hc Hp. unfold get_dme_url. rewrite He, Hc.
  rewrite <- (app_nil_r (PyText.readlines text)), scan_url_passes.
  - reflexivity.
  - apply readlines_from_nonempty.
  - exact Hp.
Qed.

Lemma get_dme_url_default_witness :
  get_dme_url (holding ("#hpc.server.url=https://localhost" ++ nl ++ nl) "")
  = ([], Ret EmptyString).
Proof.
  apply (get_dme_url_default _ utils ("#hpc.server.url=https://localhost" ++ nl ++ nl)).
  - reflexivity.
  - reflexivity.
  - reflexivity.
Defined.

(** X26. When the first line of the properties file that is not passed over
    holds no [=] (the key is followed by a colon or a blank, say),
    [get_dme_url] ends with an uncaught IndexError. *)
Theorem get_dme_url_no_sign (h : Host) (dir text : string)
    (pre post : list string) (l : string) :
  environ h dme_utils = Some dir ->
  content h (dir ++ "/hpcdme.properties") = Some text ->
  PyText.readlines text = (pre ++ l :: post)%list ->
  forallb passed_over pre = true ->
  passed_over l = false ->
  PyStr.contains "=" l = false ->
  get_dme_url h = ([], Raise IndexError).
Proof.
  intros He Hc Hl Hpre Hp Hs. unfold get_dme_url. rewrite He, Hc, Hl.
  rewrite scan_url_passes by (eauto using readlines_nonempty).
  now apply scan_url_no_sign.
Qed.

Lemma get_dme_url_no_sign_witness :
  get_dme_url (holding ("# settings" ++ nl ++ "hpc.server.url: https://localhost" ++ nl
                        ++ "hpc.server.url=https://localhost" ++ nl) "")
  = ([], Raise IndexError).
Proof.
  apply (get_dme_url_no_sign _ utils
           ("# settings" ++ nl ++ "hpc.server.url: https://localhost" ++ nl
            ++ "hpc.server.url=https://localhost" ++ nl)
           ["# settings" ++ nl]
           ["hpc.server.url=https://localhost" ++ nl]
           ("hpc.server.url: https://localhost" ++ nl)).
  - reflexivity.
  - reflexivity.
  - reflexivity.
  - reflexivity.
  - reflexivity.
  - reflexivity.
Defined.

(** X27. A session built without a url or without a token, on a host where
    [HPC_DM_UTILS] is not set, prints the error line once and exits with
    status 1 before [requests] is imported.  A session given both a url and
    a token reads nothing from the host. *)
Theorem init_environment (import_requests : M unit) (system : Host -> Host)
    (h : Host) (dme_url dme_token : string) :
  (environ h dme_utils = None ->
   dme_url = "" \/ dme_token = "" ->
   init import_requests system h dme_url dme_token
   = ([Stdout not_in_environment], Exit 1%Z)) /\
  (dme_url <> "" -> dme_token <> "" ->
   init import_requests system h dme_url dme_token
   = (import_requests ;; ret (dme_url, dme_token))).
Proof.
  split.
  - intros He Hd. unfold init, get_dme_url, get_token_from_file. rewrite He.
    destruct (String.eqb_spec dme_url "") as [-> | Nu]; [reflexivity|].
    destruct Hd as [-> | ->]; [contradiction|]. reflexivity.
  - intros Nu Nt. unfold init.
    apply String.eqb_neq in Nu. apply String.eqb_neq in Nt. rewrite Nu, Nt.
    destruct import_requests as [tr [[] | c | e]]; reflexivity.
Qed.

Lemma init_environment_witness :
  init (ret tt) no_command bare "" "" = ([Stdout not_in_environment], Exit 1%Z) /\
  init (ret tt) no_command bare "https://localhost" "eyJ"
  = (ret tt ;; ret ("https://localhost", "eyJ")).
Proof.
  split.
  - apply (proj1 (init_environment (ret tt) no_command bare "" "")).
    + reflexivity.
    + left. reflexivity.
  - apply (proj2 (init_environment (ret tt) no_command bare "https://localhost" "eyJ")).
    + discriminate.
    + discriminate.
Defined.



(** X29. When the token file does not exist, [get_token_from_file] first
    prints the warning and the name of the command it runs.  If the file
    still cannot be opened after the command, it prints the error line and
    exits with status 1; if the command has written the file, the function
    goes on as it does on a host where the file was in place. *)
Theorem get_token_requested (system : Host -> Host) (h : Host) (dir : string) :
  environ h dme_utils = Some dir ->
  path_exists h (dir ++ "/tokens/curl-conf") = false ->
  let warning :=
    [Stdout ("WARNING: token file not found in " ++ (dir ++ "/tokens/curl-conf")
             ++ ". Requesting a token...");
     Stdout "dm_generate_token"] in
  (content (system h) (dir ++ "/tokens/curl-conf") = None ->
   get_token_from_file system h
   = ((warning ++ [Stdout "ERROR: could not open token file. Exiting..."])%list,
      Exit 1%Z)) /\
  (environ (system h) dme_utils = Some dir ->
   path_exists (system h) (dir ++ "/tokens/curl-conf") = true ->
   get_token_from_file system h
   = ((warning ++ fst (get_token_from_file system (system h)))%list,
      snd (get_token_from_file system (system h)))).
Proof.
  intros He Hx warning. split.
  - intros Hc. unfold get_token_from_file. rewrite He, Hx.
    cbn [negb bind print ret app]. rewrite Hc. reflexivity.
  - intros He' Hx'. unfold get_token_from_file. rewrite He, He', Hx, Hx'.
    cbn [negb bind print ret app].
    destruct (content (system h) (dir ++ "/tokens/curl-conf")) as [text|];
      [|reflexivity].
    cbn beta zeta.
    destruct (index (PyText.readlines text) 1) as [tr [line | c | e]];
      cbn [bind fst snd]; try reflexivity.
    destruct (index (PyText.split "Bearer " line) 1) as [tr' [field | c | e]];
      cbn [bind ret fst snd app]; reflexivity.
Qed.

Lemma get_token_requested_witness :
  get_token_from_file no_command fresh
  = ([Stdout ("WARNING: token file not found in " ++ token_path
              ++ ". Requesting a token...");
      Stdout "dm_generate_token";
      Stdout "ERROR: could not open token file. Exiting..."], Exit 1%Z) /\
  get_token_from_file generate fresh
  = ([Stdout ("WARNING: token file not found in " ++ token_path
              ++ ". Requesting a token...");
      Stdout "dm_generate_token"], Ret "eyJhbGciOi.J9").
Proof.
  split.
  - apply (proj1 (get_token_requested no_command fresh utils eq_refl eq_refl)).
    reflexivity.
  - apply (proj2 (get_token_requested generate fresh utils eq_refl eq_refl)).
    + reflexivity.
    + reflexivity.
Defined.

(** X30. A token file that is in place but has fewer than two lines, or
    whose second line does not hold [Bearer ], makes [get_token_from_file]
    end with an uncaught IndexError. *)
Theorem get_token_malformed (system : Host -> Host) (h : Host) (dir text : string) :
  environ h dme_utils = Some dir ->
  path_exists h (dir ++ "/tokens/curl-conf") = true ->
  content h (dir ++ "/tokens/curl-conf") = Some text ->
  nth_error (PyText.readlines text) 1 = None \/
  (exists l, nth_error (PyText.readlines text) 1 = Some l /\
             PyStr.contains "Bearer " l = false) ->
  get_token_from_file system h = ([], Raise IndexError).
Proof.
  intros He Hx Hc Hl. unfold get_token_from_file.
  rewrite He, Hx. cbn [negb bind ret app]. rewrite Hc.
  unfold index at 1. destruct Hl as [-> | [l [-> Hb]]]; [reflexivity|].
  cbn [bind ret app]. unfold PyText.split.
  rewrite (split_from_none "Bearer " "" _ Hb). reflexivity.
Qed.

Lemma get_token_malformed_witness :
  get_token_from_file no_command
    (holding "" ("header = " ++ quote ++ "Authorization: Bearer eyJ" ++ quote ++ nl))
  = ([], Raise IndexError) /\
  get_token_from_file no_command
    (holding "" ("insecure" ++ nl ++ "header = " ++ quote ++ "Authorization: Basic eyJ"
                 ++ quote ++ nl))
  = ([], Raise IndexError).
Proof.
  split.
  - apply (get_token_malformed no_command _ utils
             ("header = " ++ quote ++ "Authorization: Bearer eyJ" ++ quote ++ nl)).
    + reflexivity.
    + reflexivity.
    + reflexivity.
    + left. reflexivity.
  - apply (get_token_malformed no_command _ utils
             ("insecure" ++ nl ++ "header = " ++ quote ++ "Authorization: Basic eyJ"
              ++ quote ++ nl)).
    + reflexivity.
    + reflexivity.
    + reflexivity.
    + right. eexists. split; reflexivity.
Defined.

End StartUp.
